(** * LVdatafill: the data-fill codec of pylabview, embedded in Rocq

    A shallow embedding of [src/LVdatafill.py]: the data-fill nodes
    ([DataFill] and its subclasses), their binding to type descriptors
    ([setTD]), the binary decoder ([initWithRSRC]), the binary encoder
    ([prepareRSRCData]) and the size prediction ([expectedRSRCSize]).

    Python integers are [Z], [bytes] objects are lists of [byte], a method
    that can raise returns a [result], and a method that reads from the
    [BytesIO] stream is a function from the stream to the stream after the
    call paired with a [result]. *)

From Stdlib Require Import Strings.String Strings.Ascii Strings.Byte.
From Stdlib Require Import ZArith List Bool Lia DecimalString.
Import ListNotations.

Local Open Scope Z_scope.

(** ** Enumerations declared by the collaborating modules

    [TD_FULL_TYPE] and [MEASURE_DATA_FLAVOR] come from [LVdatatype],
    [REFNUM_TYPE] from [LVdatatyperef].  The members that [LVdatafill.py]
    names are constructors here; every other member is the catch-all
    constructor carrying its numeric value. *)

Inductive TD_FULL_TYPE : Type :=
| Void | NumInt8 | NumInt16 | NumInt32 | NumInt64
| NumUInt8 | NumUInt16 | NumUInt32 | NumUInt64
| NumFloat32 | NumFloat64 | NumFloatExt
| NumComplex64 | NumComplex128 | NumComplexExt
| UnitUInt8 | UnitUInt16 | UnitUInt32
| UnitFloat32 | UnitFloat64 | UnitFloatExt
| UnitComplex64 | UnitComplex128 | UnitComplexExt
| BooleanU16 | Boolean
| String | Path | Picture | CString | PasString | Tag | SubString
| Array | ArrayDataPtr | SubArray | ArrayInterfc
| Cluster | LVVariant | MeasureData | ComplexFixedPt | FixedPoint
| Block | TypeBlock | VoidBlock | AlignedBlock | RepeatedBlock | AlignmntMarker
| Refnum | Ptr | PtrTo | ExtData | Function | TypeDef | PolyVI
| OtherFullType (code : Z).

Inductive REFNUM_TYPE : Type :=
| IVIRef | VisaRef | Imaq | UsrDefTagFlt | UsrDefndTag | UsrDefined | UDClassInst
| OtherRefnum (code : Z).

Inductive MEASURE_DATA_FLAVOR : Type :=
| OldFloat64Waveform | Int16Waveform | Float64Waveform | Float32Waveform
| TimeStamp | Digitaldata | DigitalWaveform | Dynamicdata
| FloatExtWaveform | UInt8Waveform | UInt16Waveform | UInt32Waveform
| Int8Waveform | Int32Waveform
| Complex64Waveform | Complex128Waveform | ComplexExtWaveform
| Int64Waveform | UInt64Waveform
| OtherFlavor (code : Z).

Scheme Equality for TD_FULL_TYPE.

(** ** Python exceptions

    Every exception class below derives from [Exception], so a handler
    [except Exception] catches each of them.  The constructors of
    [RuntimeError] stand for the message templates of the source. *)

Inductive exn : Type :=
| RuntimeError (msg : rt_msg)
| NotImplementedError (msg : ni_msg)
| NameError (name : string)
| UnboundLocalError (name : string)
| AttributeError
| TypeError
| ValueError
| OverflowError
| IndexError
| RecursionError
| ExternalError
with rt_msg : Type :=
| CannotBeLinked (cls_type td_type : TD_FULL_TYPE)
    (* "Class {} type {} cannot be linked to TD type {}" *)
| UsedBeforeInitialized (td_type : TD_FULL_TYPE)
    (* "TD {} used for DataFill before being initialized" *)
| ClaimsToContain (n limit : Z)
    (* "Data type {} claims to contain {} fields, expected below {}" *)
| DataTypeFailed (td_type : TD_FULL_TYPE) (e : exn)
    (* "Data type {}: {}" *)
| MeasureDataFlavorFailed (td_type : TD_FULL_TYPE) (e : exn)
    (* "MeasureData flavor {}: {}" *)
| UsedForUnexpectedType (cls_type : TD_FULL_TYPE)
    (* "Class {} used for unexpected type {}" *)
| UnrecognizedPathClass (clsident : list byte)
    (* "Data fill {} contains path data of unrecognized class {}" *)
with ni_msg : Type :=
| ExtDataNotImplemented
    (* "ExtData default value read is not implemented" *)
| UnsupportedFlavor.
    (* "MeasureData {} default value read failed due to unsupported flavor" *)

Inductive result (A : Type) : Type :=
| Ok (a : A)
| Err (e : exn).
Arguments Ok {A} a.
Arguments Err {A} e.

Definition bind {A B} (m : result A) (k : A -> result B) : result B :=
  match m with
  | Ok a => k a
  | Err e => Err e
  end.

Declare Scope py_scope.
Delimit Scope py_scope with py.
Notation "x <- m ;; k" := (bind m (fun x => k))
  (at level 61, m at next level, right associativity) : py_scope.
Notation "' p <- m ;; k" := (bind m (fun x => let p := x in k))
  (at level 61, p pattern, m at next level, right associativity) : py_scope.
Local Open Scope py_scope.

(** ** [bytes] and [int] *)

Definition bytes : Type := list byte.

Definition byte_val (b : byte) : Z := Z.of_N (Byte.to_N b).

Definition byte_of_Z (z : Z) : byte :=
  match Byte.of_N (Z.to_N (z mod 256)) with
  | Some b => b
  | None => x00
  end.

(** [int.from_bytes(b, byteorder='big', signed=False)] *)
Definition from_bytes_unsigned (b : bytes) : Z :=
  fold_left (fun acc x => acc * 256 + byte_val x) b 0.

(** [int.from_bytes(b, byteorder='big', signed=signed)]; the empty
    sequence gives 0 either way. *)
Definition int_from_bytes (b : bytes) (signed : bool) : Z :=
  let u := from_bytes_unsigned b in
  let w := 256 ^ Z.of_nat (length b) in
  if signed && (w <=? 2 * u) then u - w else u.

(** The [n] low-order base-256 digits of [z], most significant first. *)
Fixpoint be_bytes (n : nat) (z : Z) : bytes :=
  match n with
  | O => []
  | S n' => be_bytes n' (z / 256) ++ [byte_of_Z z]
  end.

(** [z.to_bytes(size, byteorder='big', signed=signed)]: [OverflowError]
    when [z] does not fit, [ValueError] for a negative length. *)
Definition int_to_bytes (z size : Z) (signed : bool) : result bytes :=
  if size <? 0 then Err ValueError
  else
    let w := 256 ^ size in
    let fits := if signed then (- w <=? 2 * z) && (2 * z <? w)
                else (0 <=? z) && (z <? w) in
    if fits then Ok (be_bytes (Z.to_nat size) (z mod w)) else Err OverflowError.

Definition bytes_eqb (a b : bytes) : bool :=
  if list_eq_dec Byte.byte_eq_dec a b then true else false.

(** The values an attribute of a node holds when it is not a list:
    [None], an [int] or a [bytes] object. *)
Inductive pyval : Type :=
| PyNone
| PyInt (z : Z)
| PyBytes (b : bytes).

(** [len(v)]: only [bytes] has a length. *)
Definition py_len (v : pyval) : result Z :=
  match v with
  | PyBytes b => Ok (Z.of_nat (length b))
  | PyInt _ | PyNone => Err TypeError
  end.

(** ** The stream: [io.BytesIO] *)

Record BytesIO : Type := mkBytesIO { getvalue : bytes; tell : nat }.

Definition Reader (A : Type) : Type := BytesIO -> BytesIO * result A.

Definition ret {A} (a : A) : Reader A := fun bl => (bl, Ok a).
Definition raise {A} (e : exn) : Reader A := fun bl => (bl, Err e).
Definition lift {A} (m : result A) : Reader A := fun bl => (bl, m).

Definition rbind {A B} (m : Reader A) (k : A -> Reader B) : Reader B :=
  fun bl =>
    match m bl with
    | (bl', Ok a) => k a bl'
    | (bl', Err e) => (bl', Err e)
    end.

Notation "x <~ m ;; k" := (rbind m (fun x => k))
  (at level 61, m at next level, right associativity) : py_scope.

(** [try: m  except Exception as e: raise h(e)] *)
Definition try_except {A} (m : Reader A) (h : exn -> exn) : Reader A :=
  fun bl =>
    match m bl with
    | (bl', Ok a) => (bl', Ok a)
    | (bl', Err e) => (bl', Err (h e))
    end.

(** [bldata.read(size)]: at most [size] bytes from the current position,
    everything that is left when [size] is negative. *)
Definition read (size : Z) : Reader bytes :=
  fun bl =>
    let rest := skipn (tell bl) (getvalue bl) in
    let got := if size <? 0 then rest else firstn (Z.to_nat size) rest in
    (mkBytesIO (getvalue bl) (tell bl + length got), Ok got).

(** [bldata.tell()] and [bldata.seek(pos)] *)
Definition get_pos : Reader nat := fun bl => (bl, Ok (tell bl)).
Definition seek (pos : nat) : Reader unit :=
  fun bl => (mkBytesIO (getvalue bl) pos, Ok tt).

(** [int.from_bytes(bldata.read(size), byteorder='big', signed=signed)] *)
Definition read_int (size : Z) (signed : bool) : Reader Z :=
  b <~ read size ;; ret (int_from_bytes b signed).

(** A 4-byte length followed by that many bytes. *)
Definition read_lstr : Reader bytes :=
  strlen <~ read_int 4 false ;; read strlen.

(** ** The file version and the options *)

Record Version : Type :=
  mkVersion { major : Z; minor : Z; bugfix : Z; stage : Z }.

Record VI : Type := mkVI { getFileVersion : Version }.

Record PO : Type :=
  mkPO { array_data_limit : Z; typedesc_list_limit : Z }.

(** Modelled from the spec: [LVmisc.isGreaterOrEqVersion] and
    [LVmisc.isSmallerVersion] are not part of [src/]; the spec describes
    them as the ordered comparison of a four-part file-format version
    against a fixed threshold.  A threshold given by three parts has
    stage 0. *)
Definition isGreaterOrEqVersion (ver : Version) (ma mi bf st : Z) : bool :=
  match major ver ?= ma with
  | Gt => true | Lt => false
  | Eq =>
    match minor ver ?= mi with
    | Gt => true | Lt => false
    | Eq =>
      match bugfix ver ?= bf with
      | Gt => true | Lt => false
      | Eq => stage ver >=? st
      end
    end
  end.

Definition isSmallerVersion (ver : Version) (ma mi bf st : Z) : bool :=
  negb (isGreaterOrEqVersion ver ma mi bf st).

(** ** Type descriptors

    The descriptor graph belongs to [LVdatatype]; a data-fill node only
    reads it.  A descriptor carries the attributes this file consults and
    its clients, each client being the index of the descriptor in the
    type list, the descriptor itself and the client's flags. *)

#[local] Unset Elimination Schemes.
Inductive TDObject : Type :=
  mkTD (fullType : TD_FULL_TYPE) (refType : REFNUM_TYPE)
       (dtFlavor : MEASURE_DATA_FLAVOR) (dimensions : list Z)
       (numRepeats : Z) (blkSize : Z) (allocOv : bool)
       (clients : list (Z * TDObject * Z)).
#[local] Set Elimination Schemes.

Definition fullType (t : TDObject) : TD_FULL_TYPE :=
  match t with mkTD x _ _ _ _ _ _ _ => x end.
Definition refType (t : TDObject) : REFNUM_TYPE :=
  match t with mkTD _ x _ _ _ _ _ _ => x end.
Definition dtFlavor (t : TDObject) : MEASURE_DATA_FLAVOR :=
  match t with mkTD _ _ x _ _ _ _ _ => x end.
Definition dimensions (t : TDObject) : list Z :=
  match t with mkTD _ _ _ x _ _ _ _ => x end.
Definition numRepeats (t : TDObject) : Z :=
  match t with mkTD _ _ _ _ x _ _ _ => x end.
Definition blkSize (t : TDObject) : Z :=
  match t with mkTD _ _ _ _ _ x _ _ => x end.
Definition allocOv (t : TDObject) : bool :=
  match t with mkTD _ _ _ _ _ _ x _ => x end.
Definition clients (t : TDObject) : list (Z * TDObject * Z) :=
  match t with mkTD _ _ _ _ _ _ _ x => x end.

(** [self.containedTd.blkSize = 16] *)
Definition set_blkSize (t : TDObject) (n : Z) : TDObject :=
  match t with mkTD a b c d e _ g h => mkTD a b c d e n g h end.

Fixpoint enumerate_from (i : Z) (cs : list (Z * TDObject * Z))
  : list (Z * Z * TDObject * Z) :=
  match cs with
  | [] => []
  | (td_idx, td_obj, td_flags) :: cs' =>
      (i, td_idx, td_obj, td_flags) :: enumerate_from (i + 1) cs'
  end.

(** Modelled from the spec: [TDObject.clientsEnumerate] is not part of
    [src/]; the spec gives the clients as the ordered child descriptors,
    and the callers unpack [(cli_idx, td_idx, td_obj, td_flags)], the
    first being the client's position counted from 0. *)
Definition clientsEnumerate (t : TDObject) : list (Z * Z * TDObject * Z) :=
  enumerate_from 0 (clients t).

(** The descriptor that [for ... in clientsEnumerate(): sub_td = td_obj]
    leaves in [sub_td] and [sub_td_idx]: the last client, nothing when
    there is no client. *)
Definition last_client (t : TDObject) : option (Z * TDObject) :=
  match rev (clientsEnumerate t) with
  | (_, td_idx, td_obj, _) :: _ => Some (td_idx, td_obj)
  | [] => None
  end.

(** Modelled from the spec: [LVmisc.preparePStr] is not part of [src/];
    the spec gives the library name as a 1-byte-length-prefixed string
    padded to the next boundary of [padto] bytes. *)
Definition preparePStr (strval : bytes) (padto : Z) : result bytes :=
  l <- int_to_bytes (Z.of_nat (length strval)) 1 false ;;
  let data_buf := l ++ strval in
  let uneven_len := Z.of_nat (length data_buf) mod padto in
  if uneven_len >? 0
  then Ok (data_buf ++ repeat x00 (Z.to_nat (padto - uneven_len)))
  else Ok data_buf.

(** ** What the collaborating modules compute

    Floating-point packing ([struct], [readQuadFloat], [prepareQuadFloat]),
    the path and variant objects of [LVclasses] and the descriptors that
    [LVdatatype] synthesises for measurement data are taken as they are:
    [ExtValue] is the type of the values they produce. *)

Inductive LVclass : Type := LVPath0 | LVPath1 | LVVariantObj | OleVariant.

Record External (ExtValue : Type) : Type := mkExternal {
  struct_unpack : string -> bytes -> result (list ExtValue);
  struct_pack : string -> list ExtValue -> result bytes;
  readQuadFloat : Reader ExtValue;
  prepareQuadFloat : ExtValue -> result bytes;
  LV_parseRSRCData : LVclass -> Reader ExtValue;
  LV_prepareRSRCData : bool -> ExtValue -> result bytes;
  LV_expectedRSRCSize : ExtValue -> result (option Z);
  get_or_raise_VCTP : result unit;
  newTDObject : TD_FULL_TYPE -> TDObject;
  newOldFloat64WaveformCluster : TDObject;
  newAnalogWaveformCluster : TDObject -> TDObject;
  newDigitalTableCluster : TDObject;
  newDigitalWaveformCluster : TDObject;
  newDynamicTableCluster : TDObject
}.
Arguments struct_unpack {ExtValue}.
Arguments struct_pack {ExtValue}.
Arguments readQuadFloat {ExtValue}.
Arguments prepareQuadFloat {ExtValue}.
Arguments LV_parseRSRCData {ExtValue}.
Arguments LV_prepareRSRCData {ExtValue}.
Arguments LV_expectedRSRCSize {ExtValue}.
Arguments get_or_raise_VCTP {ExtValue}.
Arguments newTDObject {ExtValue}.
Arguments newOldFloat64WaveformCluster {ExtValue}.
Arguments newAnalogWaveformCluster {ExtValue}.
Arguments newDigitalTableCluster {ExtValue}.
Arguments newDigitalWaveformCluster {ExtValue}.
Arguments newDynamicTableCluster {ExtValue}.

(** ** [int(x)] on a [bytes] object

    Python reads a decimal literal: surrounding white space, an optional
    sign, digits with single underscores between them. *)

Definition is_space (b : byte) : bool :=
  match b with
  | x20 | x09 | x0a | x0b | x0c | x0d => true
  | _ => false
  end.

Fixpoint lstrip (s : bytes) : bytes :=
  match s with
  | b :: s' => if is_space b then lstrip s' else s
  | [] => []
  end.

Definition strip (s : bytes) : bytes := rev (lstrip (rev (lstrip s))).

Definition digit_of (b : byte) : option Z :=
  match b with
  | x30 => Some 0 | x31 => Some 1 | x32 => Some 2 | x33 => Some 3
  | x34 => Some 4 | x35 => Some 5 | x36 => Some 6 | x37 => Some 7
  | x38 => Some 8 | x39 => Some 9
  | _ => None
  end.

(** [after_digit] tells whether the previous character was a digit, which
    is where an underscore may stand. *)
Fixpoint digits_value (after_digit : bool) (acc : Z) (s : bytes) : option Z :=
  match s with
  | [] => if after_digit then Some acc else None
  | b :: s' =>
      match digit_of b with
      | Some d => digits_value true (acc * 10 + d) s'
      | None =>
          match b with
          | x5f => if after_digit then digits_value false acc s' else None
          | _ => None
          end
      end
  end.

Definition int_of_bytes (s : bytes) : result Z :=
  let body :=
    match strip s with
    | x2d :: s' => option_map Z.opp (digits_value false 0 s')
    | x2b :: s' => digits_value false 0 s'
    | s' => digits_value false 0 s'
    end in
  match body with
  | Some z => Ok z
  | None => Err ValueError
  end.

(** [int(v)] *)
Definition py_int (v : pyval) : result Z :=
  match v with
  | PyInt z => Ok z
  | PyBytes b => int_of_bytes b
  | PyNone => Err TypeError
  end.

(** ** Data-fill nodes

    [DFClass] is the Python class of a node together with the attributes
    that only this class declares.  The attributes of the base class are
    the fields of [DataFill].  Every node of a tree shares [vi] and [po],
    which are therefore parameters of the methods rather than fields. *)

Inductive SubType : Type :=
| NoSubType
| RefSubType (r : REFNUM_TYPE)
| FlavorSubType (f : MEASURE_DATA_FLAVOR).

Inductive DFClass : Type :=
| KVoid
| KInt (size : Z) (signed : bool)
| KFloat
| KComplex
| KBool (size : option Z)
| KString
| KPath
| KCString
| KArray (dims : list Z)
| KArrayDataPtr
| KCluster
| KLVVariant
| KMeasureData (containedTd : option TDObject)
| KComplexFixedPt (vflags : list pyval)
| KFixedPoint (vflags : pyval)
| KBlock
| KRepeatedBlock
| KSimpleRefnum
| KIORefnum
| KUDRefnum
| KUDTagRefnum (usrdef1 usrdef2 usrdef3 usrdef4 : pyval)
| KUDClassInst (libName : bytes)
| KPtr
| KPtrTo
| KExtData
| KUnexpected
| KTypeDef
| KSpecialDSTMCluster.

Section Nodes.

Context {ExtValue : Type}.

#[local] Unset Elimination Schemes.
Inductive DataFill : Type :=
  mkDataFill (cls : DFClass) (tdType : TD_FULL_TYPE) (tdSubType : SubType)
             (index : Z) (tm_flags : option Z) (td : option TDObject)
             (value : Value)
with Value : Type :=
| VPy (v : pyval)                (* None, an int, a bytes object *)
| VPyList (l : list pyval)       (* a list or tuple of those *)
| VExt (x : ExtValue)            (* a float, a path or variant object *)
| VExtList (l : list ExtValue)   (* a tuple of floats *)
| VNodes (l : list DataFill).    (* a list of child nodes *)
#[local] Set Elimination Schemes.

Definition cls (df : DataFill) : DFClass :=
  match df with mkDataFill x _ _ _ _ _ _ => x end.
Definition tdType (df : DataFill) : TD_FULL_TYPE :=
  match df with mkDataFill _ x _ _ _ _ _ => x end.
Definition tdSubType (df : DataFill) : SubType :=
  match df with mkDataFill _ _ x _ _ _ _ => x end.
Definition index (df : DataFill) : Z :=
  match df with mkDataFill _ _ _ x _ _ _ => x end.
Definition tm_flags (df : DataFill) : option Z :=
  match df with mkDataFill _ _ _ _ x _ _ => x end.
Definition td (df : DataFill) : option TDObject :=
  match df with mkDataFill _ _ _ _ _ x _ => x end.
Definition value (df : DataFill) : Value :=
  match df with mkDataFill _ _ _ _ _ _ x => x end.

Definition set_value (df : DataFill) (v : Value) : DataFill :=
  match df with mkDataFill a b c d e f _ => mkDataFill a b c d e f v end.
Definition set_cls (df : DataFill) (k : DFClass) : DataFill :=
  match df with mkDataFill _ b c d e f g => mkDataFill k b c d e f g end.

(** [self.td.attr]: [AttributeError] on a node that is not bound. *)
Definition self_td (df : DataFill) : result TDObject :=
  match td df with
  | Some t => Ok t
  | None => Err AttributeError
  end.

(** [self.tm_flags & mask]: [TypeError] while [tm_flags] is [None]. *)
Definition flags_and (flags : option Z) (mask : Z) : result Z :=
  match flags with
  | Some f => Ok (Z.land f mask)
  | None => Err TypeError
  end.

(** [int(self.value)] and [len(self.value)] *)
Definition int_value (v : Value) : result Z :=
  match v with
  | VPy p => py_int p
  | _ => Err TypeError
  end.

Definition len_value (v : Value) : result Z :=
  match v with
  | VPy p => py_len p
  | VPyList l => Ok (Z.of_nat (length l))
  | VExtList l => Ok (Z.of_nat (length l))
  | VNodes l => Ok (Z.of_nat (length l))
  | VExt _ => Err TypeError
  end.

(** The children of a composite node: [for sub_df in self.value].  The
    empty list is the same object whatever it was meant to hold. *)
Definition sub_nodes (v : Value) : result (list DataFill) :=
  match v with
  | VNodes l => Ok l
  | VPyList [] | VExtList [] => Ok []
  | _ => Err TypeError
  end.

(** The items of a list of plain values: [for libVersion in self.value]. *)
Definition py_items (v : Value) : result (list pyval) :=
  match v with
  | VPyList l => Ok l
  | VNodes [] | VExtList [] => Ok []
  | _ => Err TypeError
  end.

(** *** The factory *)

(** [DataFill.__init__] followed by the subclass initialiser. *)
Definition new_node (k : DFClass) (tdType : TD_FULL_TYPE) (tdSubType : SubType)
           (v : Value) : DataFill :=
  mkDataFill k tdType tdSubType (-1) None None v.

Definition newDataFillRefnum (tdType : TD_FULL_TYPE) (tdSubType : SubType)
  : DataFill :=
  match tdSubType with
  | RefSubType IVIRef | RefSubType VisaRef | RefSubType Imaq =>
      new_node KIORefnum tdType tdSubType (VPy PyNone)
  | RefSubType UsrDefTagFlt | RefSubType UsrDefndTag =>
      new_node (KUDTagRefnum PyNone PyNone PyNone PyNone) tdType tdSubType
               (VPy PyNone)
  | RefSubType UsrDefined =>
      new_node KUDRefnum tdType tdSubType (VPy PyNone)
  | RefSubType UDClassInst =>
      new_node (KUDClassInst []) tdType tdSubType (VPyList [])
  | _ => new_node KSimpleRefnum tdType tdSubType (VPy PyNone)
  end.

Definition newDataFillObject (tdType : TD_FULL_TYPE) (tdSubType : SubType)
  : result DataFill :=
  let mk k v := Ok (new_node k tdType tdSubType v) in
  match tdType with
  | Void | VoidBlock | AlignmntMarker => mk KVoid (VPy PyNone)
  | NumInt8 => mk (KInt 1 true) (VPy PyNone)
  | NumInt16 => mk (KInt 2 true) (VPy PyNone)
  | NumInt32 => mk (KInt 4 true) (VPy PyNone)
  | NumInt64 => mk (KInt 8 true) (VPy PyNone)
  | NumUInt8 | UnitUInt8 => mk (KInt 1 false) (VPy PyNone)
  | NumUInt16 | UnitUInt16 => mk (KInt 2 false) (VPy PyNone)
  | NumUInt32 | UnitUInt32 => mk (KInt 4 false) (VPy PyNone)
  | NumUInt64 => mk (KInt 8 false) (VPy PyNone)
  | NumFloat32 | NumFloat64 | NumFloatExt
  | UnitFloat32 | UnitFloat64 | UnitFloatExt => mk KFloat (VPy PyNone)
  | NumComplex64 | NumComplex128 | NumComplexExt
  | UnitComplex64 | UnitComplex128 | UnitComplexExt =>
      mk KComplex (VPyList [PyNone; PyNone])
  | BooleanU16 | Boolean => mk (KBool None) (VPy PyNone)
  | String | Picture | Tag => mk KString (VPy PyNone)
  | Path => mk KPath (VPy PyNone)
  | CString | PasString => mk KCString (VPy PyNone)
  | SubString | SubArray | Function | PolyVI => mk KUnexpected (VPy PyNone)
  | Array | ArrayInterfc => mk (KArray []) (VNodes [])
  | ArrayDataPtr => mk KArrayDataPtr (VPy PyNone)
  | Cluster => mk KCluster (VNodes [])
  | LVVariant => mk KLVVariant (VPy PyNone)
  | MeasureData => mk (KMeasureData None) (VPy PyNone)
  | ComplexFixedPt =>
      mk (KComplexFixedPt [PyNone; PyNone]) (VPyList [PyNone; PyNone])
  | FixedPoint => mk (KFixedPoint PyNone) (VPy PyNone)
  | Block | AlignedBlock => mk KBlock (VPy PyNone)
  | TypeBlock | TypeDef => mk KTypeDef (VNodes [])
  | RepeatedBlock => mk KRepeatedBlock (VNodes [])
  | Refnum => Ok (newDataFillRefnum tdType tdSubType)
  | Ptr => mk KPtr (VPy PyNone)
  | PtrTo => mk KPtrTo (VPy PyNone)
  | ExtData => mk KExtData (VPy PyNone)
  | OtherFullType _ => Err (NameError "e")
      (* the message of the RuntimeError formats [str(e)], and no [e]
         is in scope *)
  end.

(** ** Methods of the base class *)

Variable vi : VI.
Variable po : PO.
Variable ext : External ExtValue.

(** [DataFill.isRefnumTag] *)
Definition isRefnumTag (t : TDObject) : bool :=
  match refType t with
  | IVIRef | VisaRef | UsrDefTagFlt | UsrDefndTag => true
  | _ => false
  end.

(** [DataFill.isSpecialDSTMClusterElement] *)
Definition isSpecialDSTMClusterElement (idx : Z) (tm_flags : option Z)
  : result bool :=
  let ver := getFileVersion vi in
  f4 <- flags_and tm_flags 0x0004 ;;
  if negb (f4 =? 0) then
    if isSmallerVersion ver 10 0 0 2
    then (if idx =? 2 then Ok true else Ok false)
    else (if idx =? 1 then Ok true else Ok false)
  else
    f10 <- flags_and tm_flags 0x0010 ;;
    if negb (f10 =? 0) then
      (if (idx =? 1) || (idx =? 2) || (idx =? 3) then Ok true else Ok false)
    else
      f20 <- flags_and tm_flags 0x0020 ;;
      if negb (f20 =? 0) then
        (if idx =? 3 then Ok true else Ok false)
      else
        f40 <- flags_and tm_flags 0x0040 ;;
        if negb (f40 =? 0) then
          (if idx =? 2 then Ok true else Ok false)
        else Ok false.

(** [DataFill.setTD]: the check of the type tag and the three
    assignments. *)
Definition DataFill_setTD (df : DataFill) (t : TDObject) (idx : Z)
           (flags : option Z) : result DataFill :=
  if negb (TD_FULL_TYPE_beq (tdType df) (fullType t))
  then Err (RuntimeError (CannotBeLinked (tdType df) (fullType t)))
  else Ok (mkDataFill (cls df) (tdType df) (tdSubType df) idx flags (Some t)
                      (value df)).

(** ** Binding: [setTD] of the subclasses

    [sub_setTD] is the call [sub_df.setTD(...)] on a child, resolved by
    the class of the child. *)

Section Binding.

Variable sub_setTD :
  DataFill -> TDObject -> Z -> option Z -> result DataFill.

(** [for sub_df in self.value: sub_df.setTD(sub_td, idx, self.tm_flags)] *)
Fixpoint setTD_each (l : list DataFill) (sub_td : TDObject) (idx : Z)
         (flags : option Z) : result (list DataFill) :=
  match l with
  | [] => Ok []
  | sub_df :: l' =>
      sub_df' <- sub_setTD sub_df sub_td idx flags ;;
      l'' <- setTD_each l' sub_td idx flags ;;
      Ok (sub_df' :: l'')
  end.

(** [self.value[i] = x] on a list *)
Fixpoint list_set (l : list DataFill) (i : nat) (x : DataFill)
  : list DataFill :=
  match l, i with
  | [], _ => []
  | _ :: l', O => x :: l'
  | y :: l', S i' => y :: list_set l' i' x
  end.

(** [self.value[i]]: a negative index counts from the end. *)
Definition list_get (l : list DataFill) (i : Z) : result DataFill :=
  let j := if i <? 0 then i + Z.of_nat (length l) else i in
  if j <? 0 then Err IndexError
  else match nth_error l (Z.to_nat j) with
       | Some x => Ok x
       | None => Err IndexError
       end.

(** [DataFillArray.setTD] and [DataFillTypeDef.setTD] bind every child
    to the last client with index -1; [DataFillRepeatedBlock.setTD] does
    the same with the index of that client ([own_idx]). *)
Definition setTD_all_to_last (own_idx : bool) (df : DataFill)
           (t : TDObject) (idx : Z) (flags : option Z) : result DataFill :=
  df1 <- DataFill_setTD df t idx flags ;;
  n <- len_value (value df1) ;;
  if n <? 1 then Ok df1
  else
    l <- sub_nodes (value df1) ;;
    match last_client t with
    | None => Err (UnboundLocalError "sub_td")
    | Some (sub_td_idx, sub_td) =>
        l' <- setTD_each l sub_td (if own_idx then sub_td_idx else -1)
                         (tm_flags df1) ;;
        Ok (set_value df1 (VNodes l'))
    end.

Definition DataFillArray_setTD := setTD_all_to_last false.
Definition DataFillTypeDef_setTD := setTD_all_to_last false.
Definition DataFillRepeatedBlock_setTD := setTD_all_to_last true.

(** The loop of [DataFillCluster.setTD]: the child at the position of
    each client is bound to that client. *)
Fixpoint Cluster_setTD_loop (cs : list (Z * Z * TDObject * Z))
         (l : list DataFill) (flags : option Z) : result (list DataFill) :=
  match cs with
  | [] => Ok l
  | (cli_idx, td_idx, sub_td, _) :: cs' =>
      sub_df <- list_get l cli_idx ;;
      sub_df' <- sub_setTD sub_df sub_td td_idx flags ;;
      Cluster_setTD_loop cs' (list_set l (Z.to_nat cli_idx) sub_df') flags
  end.

Definition DataFillCluster_setTD (df : DataFill) (t : TDObject) (idx : Z)
           (flags : option Z) : result DataFill :=
  df1 <- DataFill_setTD df t idx flags ;;
  n <- len_value (value df1) ;;
  if n <? 1 then Ok df1
  else
    l <- sub_nodes (value df1) ;;
    l' <- Cluster_setTD_loop (clientsEnumerate t) l (tm_flags df1) ;;
    Ok (set_value df1 (VNodes l')).

(** The loop of [SpecialDSTMCluster.setTD].  The position of the client
    in the enumeration is the unused [cli_bad_idx]; the test of
    [isSpecialDSTMClusterElement] and the access to [self.value] both
    take [cli_idx], which counts the children bound so far. *)
Fixpoint SpecialDSTMCluster_setTD_loop (cs : list (Z * Z * TDObject * Z))
         (cli_idx : Z) (skipNextEntry : bool) (l : list DataFill)
         (flags : option Z) : result (list DataFill) :=
  match cs with
  | [] => Ok l
  | (cli_bad_idx, td_idx, sub_td, _) :: cs' =>
      special <- isSpecialDSTMClusterElement cli_idx flags ;;
      if negb special then
        SpecialDSTMCluster_setTD_loop cs' cli_idx skipNextEntry l flags
      else if skipNextEntry then
        SpecialDSTMCluster_setTD_loop cs' cli_idx false l flags
      else
        sub_df <- list_get l cli_idx ;;
        sub_df' <- sub_setTD sub_df sub_td td_idx flags ;;
        SpecialDSTMCluster_setTD_loop cs' (cli_idx + 1) skipNextEntry
          (list_set l (Z.to_nat cli_idx) sub_df') flags
  end.

Definition SpecialDSTMCluster_setTD (df : DataFill) (t : TDObject) (idx : Z)
           (flags : option Z) : result DataFill :=
  df1 <- DataFill_setTD df t idx flags ;;
  n <- len_value (value df1) ;;
  if n <? 1 then Ok df1
  else
    f200 <- flags_and (tm_flags df1) 0x0200 ;;
    let skipNextEntry := negb (f200 =? 0) in
    l <- sub_nodes (value df1) ;;
    l' <- SpecialDSTMCluster_setTD_loop (clientsEnumerate t) 0 skipNextEntry
            l (tm_flags df1) ;;
    Ok (set_value df1 (VNodes l')).

(** Method resolution for [setTD]: the classes that do not override it
    (and [DataFillMeasureData], whose override only calls the base
    method) run [DataFill.setTD]. *)
Definition setTD_method (df : DataFill) (t : TDObject) (idx : Z)
           (flags : option Z) : result DataFill :=
  match cls df with
  | KArray _ => DataFillArray_setTD df t idx flags
  | KCluster => DataFillCluster_setTD df t idx flags
  | KRepeatedBlock => DataFillRepeatedBlock_setTD df t idx flags
  | KTypeDef => DataFillTypeDef_setTD df t idx flags
  | KSpecialDSTMCluster => SpecialDSTMCluster_setTD df t idx flags
  | _ => DataFill_setTD df t idx flags
  end.

End Binding.

(** A call that nests deeper than [depth] ends in [RecursionError], as
    the interpreter's bounded call stack makes it. *)
Fixpoint setTD (depth : nat) (df : DataFill) (t : TDObject) (idx : Z)
         (flags : option Z) : result DataFill :=
  match depth with
  | O => Err RecursionError
  | S d => setTD_method (setTD d) df t idx flags
  end.

(** [newDataFillObjectWithTD]: the node of the class that the descriptor
    asks for, bound to the descriptor. *)
Definition newDataFillObjectWithTD (depth : nat) (idx : Z)
           (flags : option Z) (t : TDObject) : result DataFill :=
  let tdType := fullType t in
  let tdSubType :=
    match tdType with
    | MeasureData => FlavorSubType (dtFlavor t)
    | Refnum => RefSubType (refType t)
    | _ => NoSubType
    end in
  df <- newDataFillObject tdType tdSubType ;;
  setTD depth df t idx flags.

(** [newSpecialDSTMClusterWithTD] *)
Definition newSpecialDSTMClusterWithTD (depth : nat) (idx : Z)
           (flags : option Z) (t : TDObject) : result DataFill :=
  let df := new_node KSpecialDSTMCluster (fullType t) NoSubType (VNodes []) in
  setTD depth df t idx flags.

(** ** Binary decoding: [initWithRSRCParse] of the subclasses *)

Section Decoding.

(** [newDataFillObjectWithTD(self.vi, idx, tm_flags, sub_td, self.po)]
    and [sub_df.initWithRSRC(bldata)] on the node it returns. *)
Variable sub_new : Z -> option Z -> TDObject -> result DataFill.
Variable sub_initWithRSRC : DataFill -> Reader DataFill.

(** The body of the [try] in the loops of the composite classes; [h]
    is what the handler raises. *)
Definition decode_child (idx : Z) (flags : option Z) (sub_td : TDObject)
           (h : exn -> exn) : Reader DataFill :=
  try_except (sub_df <~ lift (sub_new idx flags sub_td) ;;
              sub_initWithRSRC sub_df) h.

(** [for i in range(n): ...] collecting what each round appends. *)
Fixpoint repeat_read {A} (n : nat) (one : Reader A) : Reader (list A) :=
  match n with
  | O => ret []
  | S n' => x <~ one ;; xs <~ repeat_read n' one ;; ret (x :: xs)
  end.

Definition head_item {A} (l : list A) : result A :=
  match l with
  | x :: _ => Ok x
  | [] => Err IndexError
  end.

Definition DataFillVoid_initWithRSRCParse (df : DataFill) : Reader DataFill :=
  ret (set_value df (VPy PyNone)).

Definition DataFillInt_initWithRSRCParse (size : Z) (signed : bool)
           (df : DataFill) : Reader DataFill :=
  v <~ read_int size signed ;;
  ret (set_value df (VPy (PyInt v))).

Definition DataFillFloat_initWithRSRCParse (df : DataFill) : Reader DataFill :=
  match tdType df with
  | NumFloat32 | UnitFloat32 =>
      b <~ read 4 ;; l <~ lift (struct_unpack ext ">f" b) ;;
      x <~ lift (head_item l) ;; ret (set_value df (VExt x))
  | NumFloat64 | UnitFloat64 =>
      b <~ read 8 ;; l <~ lift (struct_unpack ext ">d" b) ;;
      x <~ lift (head_item l) ;; ret (set_value df (VExt x))
  | NumFloatExt | UnitFloatExt =>
      x <~ readQuadFloat ext ;; ret (set_value df (VExt x))
  | ty => raise (RuntimeError (UsedForUnexpectedType ty))
  end.

Definition DataFillComplex_initWithRSRCParse (df : DataFill)
  : Reader DataFill :=
  match tdType df with
  | NumComplex64 | UnitComplex64 =>
      b <~ read 8 ;; l <~ lift (struct_unpack ext ">ff" b) ;;
      ret (set_value df (VExtList l))
  | NumComplex128 | UnitComplex128 =>
      b <~ read 16 ;; l <~ lift (struct_unpack ext ">dd" b) ;;
      ret (set_value df (VExtList l))
  | NumComplexExt | UnitComplexExt =>
      re <~ readQuadFloat ext ;; im <~ readQuadFloat ext ;;
      ret (set_value df (VExtList [re; im]))
  | ty => raise (RuntimeError (UsedForUnexpectedType ty))
  end.

(** [DataFillBool.initVersion]: the assignment to [self.size]. *)
Definition DataFillBool_initVersion (df : DataFill) : result DataFill :=
  match tdType df with
  | BooleanU16 => Ok (set_cls df (KBool (Some 2)))
  | Boolean =>
      let ver := getFileVersion vi in
      if isGreaterOrEqVersion ver 4 5 0 0
      then Ok (set_cls df (KBool (Some 1)))
      else Ok (set_cls df (KBool (Some 2)))
  | ty => Err (RuntimeError (UsedForUnexpectedType ty))
  end.

(** [self.size] of a boolean node is [None] until [initVersion] ran;
    [read(None)] reads everything that is left. *)
Definition bool_size (df : DataFill) : option Z :=
  match cls df with
  | KBool s => s
  | _ => None
  end.

Definition DataFillBool_initWithRSRCParse (df : DataFill) : Reader DataFill :=
  df1 <~ lift (DataFillBool_initVersion df) ;;
  b <~ read (match bool_size df1 with Some s => s | None => -1 end) ;;
  ret (set_value df1 (VPy (PyInt (int_from_bytes b false)))).

Definition DataFillString_initWithRSRCParse (df : DataFill)
  : Reader DataFill :=
  strlen <~ read_int 4 false ;;
  v <~ read strlen ;;
  ret (set_value df (VPy (PyBytes v))).

Definition PTH0 : bytes := [x50; x54; x48; x30].
Definition PTH1 : bytes := [x50; x54; x48; x31].
Definition PTH2 : bytes := [x50; x54; x48; x32].

Definition DataFillPath_initWithRSRCParse (df : DataFill) : Reader DataFill :=
  startPos <~ get_pos ;;
  clsident <~ read 4 ;;
  if bytes_eqb clsident PTH0 then
    _ <~ seek startPos ;;
    x <~ LV_parseRSRCData ext LVPath0 ;; ret (set_value df (VExt x))
  else if bytes_eqb clsident PTH1 || bytes_eqb clsident PTH2 then
    _ <~ seek startPos ;;
    x <~ LV_parseRSRCData ext LVPath1 ;; ret (set_value df (VExt x))
  else raise (RuntimeError (UnrecognizedPathClass clsident)).

(** [DataFillCString], [DataFillArrayDataPtr], [DataFillSimpleRefnum],
    [DataFillUDRefnum] and [DataFillPtrTo] share one body: a 4-byte
    unsigned integer. *)
Definition UInt32_initWithRSRCParse (df : DataFill) : Reader DataFill :=
  v <~ read_int 4 false ;;
  ret (set_value df (VPy (PyInt v))).

Definition DataFillCString_initWithRSRCParse := UInt32_initWithRSRCParse.
Definition DataFillArrayDataPtr_initWithRSRCParse := UInt32_initWithRSRCParse.
Definition DataFillSimpleRefnum_initWithRSRCParse := UInt32_initWithRSRCParse.
Definition DataFillUDRefnum_initWithRSRCParse := UInt32_initWithRSRCParse.
Definition DataFillPtrTo_initWithRSRCParse := UInt32_initWithRSRCParse.

(** One extent per declared dimension. *)
Fixpoint read_dimensions (declared : list Z) : Reader (list Z) :=
  match declared with
  | [] => ret []
  | _ :: declared' =>
      val <~ read_int 4 false ;;
      vals <~ read_dimensions declared' ;;
      ret (val :: vals)
  end.

(** [totItems = 1; for dim in self.dimensions: totItems *= dim & 0x7fffffff] *)
Definition totItems_of (dims : list Z) : Z :=
  fold_left (fun totItems dim => totItems * Z.land dim 0x7fffffff) dims 1.

Definition DataFillArray_initWithRSRCParse (df : DataFill) : Reader DataFill :=
  t <~ lift (self_td df) ;;
  dims <~ read_dimensions (dimensions t) ;;
  if Z.of_nat (length (clients t)) <? 1 then
    raise (RuntimeError (UsedBeforeInitialized (fullType t)))
  else
    let totItems := totItems_of dims in
    match last_client t with
    | None => raise (UnboundLocalError "sub_td")
    | Some (sub_td_idx, sub_td) =>
        if totItems >? array_data_limit po then
          raise (RuntimeError
                   (ClaimsToContain totItems (array_data_limit po)))
        else
          l <~ repeat_read (Z.to_nat totItems)
                 (decode_child sub_td_idx (tm_flags df) sub_td
                    (fun e => RuntimeError
                                (DataTypeFailed (fullType sub_td) e))) ;;
          ret (set_value (set_cls df (KArray dims)) (VNodes l))
    end.

(** [for cli_idx, td_idx, sub_td, td_flags in self.td.clientsEnumerate()]
    with one child per client. *)
Fixpoint Cluster_init_loop (cs : list (Z * Z * TDObject * Z))
         (flags : option Z) : Reader (list DataFill) :=
  match cs with
  | [] => ret []
  | (cli_idx, td_idx, sub_td, _) :: cs' =>
      sub_df <~ decode_child td_idx flags sub_td
                  (fun e => RuntimeError (DataTypeFailed (fullType sub_td) e)) ;;
      l <~ Cluster_init_loop cs' flags ;;
      ret (sub_df :: l)
  end.

Definition DataFillCluster_initWithRSRCParse (df : DataFill)
  : Reader DataFill :=
  t <~ lift (self_td df) ;;
  l <~ Cluster_init_loop (clientsEnumerate t) (tm_flags df) ;;
  ret (set_value df (VNodes l)).

Definition DataFillLVVariant_initWithRSRCParse (df : DataFill)
  : Reader DataFill :=
  let ver := getFileVersion vi in
  x <~ LV_parseRSRCData ext
         (if isGreaterOrEqVersion ver 6 0 0 2 then LVVariantObj
          else OleVariant) ;;
  ret (set_value df (VExt x)).

(** [DataFillMeasureData.initVersion]: the descriptor assigned to
    [self.containedTd].  Below version 7.0.0.2 the arguments of the
    message are evaluated before anything is raised, and [sub_td] is not
    a name of this method or of the module. *)
Definition DataFillMeasureData_initVersion (df : DataFill)
  : result TDObject :=
  let ver := getFileVersion vi in
  if isSmallerVersion ver 7 0 0 2 then Err (NameError "sub_td")
  else
    let analog ty :=
      Ok (newAnalogWaveformCluster ext (newTDObject ext ty)) in
    match tdSubType df with
    | FlavorSubType OldFloat64Waveform =>
        Ok (newOldFloat64WaveformCluster ext)
    | FlavorSubType Int16Waveform => analog NumInt16
    | FlavorSubType Float64Waveform => analog NumFloat64
    | FlavorSubType Float32Waveform => analog NumFloat32
    | FlavorSubType TimeStamp =>
        Ok (set_blkSize (newTDObject ext Block) 16)
    | FlavorSubType Digitaldata => Ok (newDigitalTableCluster ext)
    | FlavorSubType DigitalWaveform => Ok (newDigitalWaveformCluster ext)
    | FlavorSubType Dynamicdata => Ok (newDynamicTableCluster ext)
    | FlavorSubType FloatExtWaveform => analog NumFloatExt
    | FlavorSubType UInt8Waveform => analog NumUInt8
    | FlavorSubType UInt16Waveform => analog NumUInt16
    | FlavorSubType UInt32Waveform => analog NumUInt32
    | FlavorSubType Int8Waveform => analog NumInt8
    | FlavorSubType Int32Waveform => analog NumInt32
    | FlavorSubType Complex64Waveform => analog NumComplex64
    | FlavorSubType Complex128Waveform => analog NumComplex128
    | FlavorSubType ComplexExtWaveform => analog NumComplexExt
    | FlavorSubType Int64Waveform => analog NumInt64
    | FlavorSubType UInt64Waveform => analog NumUInt64
    | _ => Err (NotImplementedError UnsupportedFlavor)
    end.

Definition DataFillMeasureData_initWithRSRCParse (df : DataFill)
  : Reader DataFill :=
  containedTd <~ lift (DataFillMeasureData_initVersion df) ;;
  sub_df <~ decode_child (-1) (tm_flags df) containedTd
              (fun e => RuntimeError
                          (MeasureDataFlavorFailed (fullType containedTd) e)) ;;
  ret (set_value (set_cls df (KMeasureData (Some containedTd)))
                 (VNodes [sub_df])).

(** One round of the loops of the fixed-point classes: the 8-byte raw
    value, then the flag byte when the descriptor allocates it. *)
Definition read_fixed_point (df : DataFill) : Reader (pyval * pyval) :=
  v <~ read_int 8 false ;;
  t <~ lift (self_td df) ;;
  if allocOv t
  then f <~ read_int 1 false ;; ret (PyInt v, PyInt f)
  else ret (PyInt v, PyNone).

Definition DataFillComplexFixedPt_initWithRSRCParse (df : DataFill)
  : Reader DataFill :=
  r0 <~ read_fixed_point df ;;
  r1 <~ read_fixed_point df ;;
  ret (set_value (set_cls df (KComplexFixedPt [snd r0; snd r1]))
                 (VPyList [fst r0; fst r1])).

Definition DataFillFixedPoint_initWithRSRCParse (df : DataFill)
  : Reader DataFill :=
  r <~ read_fixed_point df ;;
  ret (set_value (set_cls df (KFixedPoint (snd r))) (VPy (fst r))).

Definition DataFillBlock_initWithRSRCParse (df : DataFill) : Reader DataFill :=
  t <~ lift (self_td df) ;;
  v <~ read (blkSize t) ;;
  ret (set_value df (VPy (PyBytes v))).

Definition DataFillRepeatedBlock_initWithRSRCParse (df : DataFill)
  : Reader DataFill :=
  _ <~ lift (get_or_raise_VCTP ext) ;;
  t <~ lift (self_td df) ;;
  if numRepeats t >? array_data_limit po then
    raise (RuntimeError
             (ClaimsToContain (numRepeats t) (array_data_limit po)))
  else
    l <~ repeat_read (Z.to_nat (numRepeats t))
           (match last_client t with
            | Some (sub_td_idx, sub_td) =>
                decode_child sub_td_idx (tm_flags df) sub_td
                  (fun e => RuntimeError (DataTypeFailed (fullType sub_td) e))
            | None => raise (UnboundLocalError "sub_td")
                (* raised by the handler, which names [sub_td] again *)
            end) ;;
    ret (set_value df (VNodes l)).

Definition DataFillIORefnum_initWithRSRCParse (df : DataFill)
  : Reader DataFill :=
  let ver := getFileVersion vi in
  if isGreaterOrEqVersion ver 6 0 0 0 then
    t <~ lift (self_td df) ;;
    if isRefnumTag t then
      strlen <~ read_int 4 false ;;
      v <~ read strlen ;;
      ret (set_value df (VPy (PyBytes v)))
    else
      v <~ read_int 4 false ;; ret (set_value df (VPy (PyInt v)))
  else
    v <~ read_int 4 false ;; ret (set_value df (VPy (PyInt v))).

(** The version window in which a padding byte follows the string of a
    user-defined tag refnum. *)
Definition in_padding_window (ver : Version) : bool :=
  isGreaterOrEqVersion ver 12 0 0 2 && isSmallerVersion ver 12 0 0 5.

Definition is_UsrDefTagFlt (r : REFNUM_TYPE) : bool :=
  match r with
  | UsrDefTagFlt => true
  | _ => false
  end.

Definition DataFillUDTagRefnum_initWithRSRCParse (df : DataFill)
  : Reader DataFill :=
  let ver := getFileVersion vi in
  strlen <~ read_int 4 false ;;
  v <~ read strlen ;;
  _ <~ (if in_padding_window ver then read 1 else ret []) ;;
  t <~ lift (self_td df) ;;
  if is_UsrDefTagFlt (refType t) then
    strlen1 <~ read_int 4 false ;;
    usrdef1 <~ read strlen1 ;;
    strlen2 <~ read_int 4 false ;;
    usrdef2 <~ read strlen2 ;;
    usrdef3 <~ read_int 4 false ;;
    strlen4 <~ read_int 4 false ;;
    usrdef4 <~ read strlen4 ;;
    ret (set_value
           (set_cls df (KUDTagRefnum (PyBytes usrdef1) (PyBytes usrdef2)
                                     (PyInt usrdef3) (PyBytes usrdef4)))
           (VPy (PyBytes v)))
  else
    ret (set_value (set_cls df (KUDTagRefnum PyNone PyNone PyNone PyNone))
                   (VPy (PyBytes v))).

Definition DataFillUDClassInst_initWithRSRCParse (df : DataFill)
  : Reader DataFill :=
  numLevels <~ read_int 4 false ;;
  strlen <~ read_int 1 false ;;
  libName <~ read strlen ;;
  pos <~ get_pos ;;
  _ <~ (if Z.of_nat pos mod 4 >? 0
        then read (4 - Z.of_nat pos mod 4) else ret []) ;;
  if numLevels >? typedesc_list_limit po then
    raise (RuntimeError
             (ClaimsToContain numLevels (typedesc_list_limit po)))
  else
    l <~ repeat_read (Z.to_nat numLevels)
           (datalen <~ read_int 4 false ;;
            libVersion <~ read datalen ;;
            ret (PyBytes libVersion)) ;;
    ret (set_value (set_cls df (KUDClassInst libName)) (VPyList l)).

Definition DataFillPtr_initWithRSRCParse (df : DataFill) : Reader DataFill :=
  let ver := getFileVersion vi in
  if isSmallerVersion ver 8 6 0 1 then
    v <~ read_int 4 false ;; ret (set_value df (VPy (PyInt v)))
  else ret (set_value df (VPy PyNone)).

Definition DataFillExtData_initWithRSRCParse (df : DataFill)
  : Reader DataFill :=
  raise (NotImplementedError ExtDataNotImplemented).

Definition DataFillUnexpected_initWithRSRCParse (df : DataFill)
  : Reader DataFill :=
  ret (set_value df (VPy PyNone)).

(** [DataFillTypeDef.initWithRSRCParse] gives every client a child with
    index -1; its handler names [client], which is not defined. *)
Fixpoint TypeDef_init_loop (cs : list (Z * Z * TDObject * Z))
         (flags : option Z) : Reader (list DataFill) :=
  match cs with
  | [] => ret []
  | (cli_idx, td_idx, sub_td, _) :: cs' =>
      sub_df <~ decode_child (-1) flags sub_td
                  (fun _ => NameError "client") ;;
      l <~ TypeDef_init_loop cs' flags ;;
      ret (sub_df :: l)
  end.

Definition DataFillTypeDef_initWithRSRCParse (df : DataFill)
  : Reader DataFill :=
  t <~ lift (self_td df) ;;
  l <~ TypeDef_init_loop (clientsEnumerate t) (tm_flags df) ;;
  ret (set_value df (VNodes l)).

(** The loop of [SpecialDSTMCluster.initWithRSRCParse]: the test takes
    the position [cli_idx] of the client. *)
Fixpoint SpecialDSTMCluster_init_loop (cs : list (Z * Z * TDObject * Z))
         (skipNextEntry : bool) (flags : option Z) : Reader (list DataFill) :=
  match cs with
  | [] => ret []
  | (cli_idx, td_idx, sub_td, _) :: cs' =>
      special <~ lift (isSpecialDSTMClusterElement cli_idx flags) ;;
      if negb special then
        SpecialDSTMCluster_init_loop cs' skipNextEntry flags
      else if skipNextEntry then
        SpecialDSTMCluster_init_loop cs' false flags
      else
        sub_df <~ decode_child td_idx flags sub_td
                    (fun e => RuntimeError
                                (DataTypeFailed (fullType sub_td) e)) ;;
        l <~ SpecialDSTMCluster_init_loop cs' skipNextEntry flags ;;
        ret (sub_df :: l)
  end.

Definition SpecialDSTMCluster_initWithRSRCParse (df : DataFill)
  : Reader DataFill :=
  f200 <~ lift (flags_and (tm_flags df) 0x0200) ;;
  let skipNextEntry := negb (f200 =? 0) in
  t <~ lift (self_td df) ;;
  l <~ SpecialDSTMCluster_init_loop (clientsEnumerate t) skipNextEntry
         (tm_flags df) ;;
  ret (set_value df (VNodes l)).

(** Method resolution for [initWithRSRCParse]. *)
Definition initWithRSRCParse (df : DataFill) : Reader DataFill :=
  match cls df with
  | KVoid => DataFillVoid_initWithRSRCParse df
  | KInt size signed => DataFillInt_initWithRSRCParse size signed df
  | KFloat => DataFillFloat_initWithRSRCParse df
  | KComplex => DataFillComplex_initWithRSRCParse df
  | KBool _ => DataFillBool_initWithRSRCParse df
  | KString => DataFillString_initWithRSRCParse df
  | KPath => DataFillPath_initWithRSRCParse df
  | KCString => DataFillCString_initWithRSRCParse df
  | KArray _ => DataFillArray_initWithRSRCParse df
  | KArrayDataPtr => DataFillArrayDataPtr_initWithRSRCParse df
  | KCluster => DataFillCluster_initWithRSRCParse df
  | KLVVariant => DataFillLVVariant_initWithRSRCParse df
  | KMeasureData _ => DataFillMeasureData_initWithRSRCParse df
  | KComplexFixedPt _ => DataFillComplexFixedPt_initWithRSRCParse df
  | KFixedPoint _ => DataFillFixedPoint_initWithRSRCParse df
  | KBlock => DataFillBlock_initWithRSRCParse df
  | KRepeatedBlock => DataFillRepeatedBlock_initWithRSRCParse df
  | KSimpleRefnum => DataFillSimpleRefnum_initWithRSRCParse df
  | KIORefnum => DataFillIORefnum_initWithRSRCParse df
  | KUDRefnum => DataFillUDRefnum_initWithRSRCParse df
  | KUDTagRefnum _ _ _ _ => DataFillUDTagRefnum_initWithRSRCParse df
  | KUDClassInst _ => DataFillUDClassInst_initWithRSRCParse df
  | KPtr => DataFillPtr_initWithRSRCParse df
  | KPtrTo => DataFillPtrTo_initWithRSRCParse df
  | KExtData => DataFillExtData_initWithRSRCParse df
  | KUnexpected => DataFillUnexpected_initWithRSRCParse df
  | KTypeDef => DataFillTypeDef_initWithRSRCParse df
  | KSpecialDSTMCluster => SpecialDSTMCluster_initWithRSRCParse df
  end.

End Decoding.

(** [DataFill.initWithRSRC]: the decoder of the node's class; children
    are created and decoded one level deeper. *)
Fixpoint initWithRSRC (depth : nat) (df : DataFill) : Reader DataFill :=
  match depth with
  | O => raise RecursionError
  | S d => initWithRSRCParse (newDataFillObjectWithTD d) (initWithRSRC d) df
  end.

(** ** Binary encoding: [prepareRSRCData] of the subclasses

    [DataFillBlock.prepareRSRCData] assigns to [self.value], so the
    encoder returns the node after the call next to the buffer. *)

(** [len(v).to_bytes(4, byteorder='big', signed=False)] followed by [v] *)
Definition lstr_bytes (v : pyval) : result bytes :=
  n <- py_len v ;;
  l <- int_to_bytes n 4 false ;;
  match v with
  | PyBytes b => Ok (l ++ b)
  | _ => Err TypeError
  end.

(** [b[:n]] *)
Definition slice_to (b : bytes) (n : Z) : bytes :=
  if n <? 0 then firstn (Z.to_nat (Z.of_nat (length b) + n)) b
  else firstn (Z.to_nat n) b.

Section Encoding.

Variable sub_prepareRSRCData : bool -> DataFill -> result (bytes * DataFill).

(** [for sub_df in self.value:
       data_buf += sub_df.prepareRSRCData(avoid_recompute=avoid_recompute)] *)
Fixpoint prepare_each (avoid_recompute : bool) (l : list DataFill)
  : result (bytes * list DataFill) :=
  match l with
  | [] => Ok ([], [])
  | sub_df :: l' =>
      r <- sub_prepareRSRCData avoid_recompute sub_df ;;
      rs <- prepare_each avoid_recompute l' ;;
      Ok (fst r ++ fst rs, snd r :: snd rs)
  end.

Definition children_prepareRSRCData (avoid_recompute : bool) (df : DataFill)
  : result (bytes * DataFill) :=
  l <- sub_nodes (value df) ;;
  r <- prepare_each avoid_recompute l ;;
  Ok (fst r, match value df with
             | VNodes _ => set_value df (VNodes (snd r))
             | _ => df
             end).

Definition DataFillCluster_prepareRSRCData := children_prepareRSRCData.
Definition DataFillMeasureData_prepareRSRCData := children_prepareRSRCData.
Definition DataFillRepeatedBlock_prepareRSRCData := children_prepareRSRCData.
Definition DataFillTypeDef_prepareRSRCData := children_prepareRSRCData.
Definition SpecialDSTMCluster_prepareRSRCData := children_prepareRSRCData.

(** [DataFill.prepareRSRCData], [DataFillVoid.prepareRSRCData] and
    [DataFillUnexpected.prepareRSRCData] *)
Definition DataFill_prepareRSRCData (df : DataFill)
  : result (bytes * DataFill) :=
  Ok ([], df).

Definition DataFillInt_prepareRSRCData (size : Z) (signed : bool)
           (df : DataFill) : result (bytes * DataFill) :=
  v <- int_value (value df) ;;
  data_buf <- int_to_bytes v size signed ;;
  Ok (data_buf, df).

Definition ext_value (v : Value) : result ExtValue :=
  match v with
  | VExt x => Ok x
  | _ => Err ExternalError
  end.

Definition ext_pair (v : Value) : result (ExtValue * ExtValue) :=
  match v with
  | VExtList (re :: im :: _) => Ok (re, im)
  | VExtList _ | VPyList [] | VNodes [] => Err IndexError
  | _ => Err ExternalError
  end.

Definition DataFillFloat_prepareRSRCData (df : DataFill)
  : result (bytes * DataFill) :=
  match tdType df with
  | NumFloat32 | UnitFloat32 =>
      x <- ext_value (value df) ;;
      b <- struct_pack ext ">f" [x] ;; Ok (b, df)
  | NumFloat64 | UnitFloat64 =>
      x <- ext_value (value df) ;;
      b <- struct_pack ext ">d" [x] ;; Ok (b, df)
  | NumFloatExt | UnitFloatExt =>
      x <- ext_value (value df) ;;
      b <- prepareQuadFloat ext x ;; Ok (b, df)
  | ty => Err (RuntimeError (UsedForUnexpectedType ty))
  end.

Definition DataFillComplex_prepareRSRCData (df : DataFill)
  : result (bytes * DataFill) :=
  match tdType df with
  | NumComplex64 | UnitComplex64 =>
      p <- ext_pair (value df) ;;
      b <- struct_pack ext ">ff" [fst p; snd p] ;; Ok (b, df)
  | NumComplex128 | UnitComplex128 =>
      p <- ext_pair (value df) ;;
      b <- struct_pack ext ">dd" [fst p; snd p] ;; Ok (b, df)
  | NumComplexExt | UnitComplexExt =>
      p <- ext_pair (value df) ;;
      b0 <- prepareQuadFloat ext (fst p) ;;
      b1 <- prepareQuadFloat ext (snd p) ;;
      Ok (b0 ++ b1, df)
  | ty => Err (RuntimeError (UsedForUnexpectedType ty))
  end.

Definition DataFillBool_prepareRSRCData (df : DataFill)
  : result (bytes * DataFill) :=
  v <- int_value (value df) ;;
  match bool_size df with
  | None => Err TypeError
  | Some size =>
      data_buf <- int_to_bytes v size false ;;
      Ok (data_buf, df)
  end.

Definition DataFillString_prepareRSRCData (df : DataFill)
  : result (bytes * DataFill) :=
  match value df with
  | VPy v => data_buf <- lstr_bytes v ;; Ok (data_buf, df)
  | _ => Err TypeError
  end.

(** [DataFillPath.prepareRSRCData] and [DataFillLVVariant.prepareRSRCData] *)
Definition LV_object_prepareRSRCData (avoid_recompute : bool) (df : DataFill)
  : result (bytes * DataFill) :=
  match value df with
  | VExt x => b <- LV_prepareRSRCData ext avoid_recompute x ;; Ok (b, df)
  | _ => Err AttributeError
  end.

(** Shared by the classes whose value is a 4-byte unsigned integer. *)
Definition UInt32_prepareRSRCData (df : DataFill)
  : result (bytes * DataFill) :=
  v <- int_value (value df) ;;
  data_buf <- int_to_bytes v 4 false ;;
  Ok (data_buf, df).

Fixpoint dims_bytes (dims : list Z) : result bytes :=
  match dims with
  | [] => Ok []
  | dim :: dims' =>
      b <- int_to_bytes dim 4 false ;;
      bs <- dims_bytes dims' ;;
      Ok (b ++ bs)
  end.

Definition DataFillArray_prepareRSRCData (dims : list Z)
           (avoid_recompute : bool) (df : DataFill)
  : result (bytes * DataFill) :=
  d <- dims_bytes dims ;;
  r <- children_prepareRSRCData avoid_recompute df ;;
  Ok (d ++ fst r, snd r).

(** One round of the loops of the fixed-point classes. *)
Definition fixed_point_bytes (df : DataFill) (v f : result pyval)
  : result bytes :=
  v' <- v ;; z <- py_int v' ;;
  b <- int_to_bytes z 8 false ;;
  t <- self_td df ;;
  if allocOv t then
    f' <- f ;; fz <- py_int f' ;;
    fb <- int_to_bytes fz 1 false ;;
    Ok (b ++ fb)
  else Ok b.

Definition py_item (l : result (list pyval)) (i : nat) : result pyval :=
  l' <- l ;;
  match nth_error l' i with
  | Some x => Ok x
  | None => Err IndexError
  end.

Definition DataFillComplexFixedPt_prepareRSRCData (vflags : list pyval)
           (df : DataFill) : result (bytes * DataFill) :=
  let vals := py_items (value df) in
  b0 <- fixed_point_bytes df (py_item vals 0) (py_item (Ok vflags) 0) ;;
  b1 <- fixed_point_bytes df (py_item vals 1) (py_item (Ok vflags) 1) ;;
  Ok (b0 ++ b1, df).

Definition DataFillFixedPoint_prepareRSRCData (vflags : pyval)
           (df : DataFill) : result (bytes * DataFill) :=
  match value df with
  | VPy v =>
      b <- fixed_point_bytes df (Ok v) (Ok vflags) ;; Ok (b, df)
  | _ => Err TypeError
  end.

(** [DataFillBlock.prepareRSRCData]: a value whose length differs from
    the declared block size is padded with zero bytes or cut, and the
    result is stored back into [self.value]. *)
Definition DataFillBlock_prepareRSRCData (df : DataFill)
  : result (bytes * DataFill) :=
  n <- len_value (value df) ;;
  t <- self_td df ;;
  match value df with
  | VPy (PyBytes v) =>
      if negb (n =? blkSize t) then
        let padding_len := blkSize t - n in
        let v' := if padding_len >? 0
                  then v ++ repeat x00 (Z.to_nat padding_len)
                  else slice_to v (blkSize t) in
        Ok (v', set_value df (VPy (PyBytes v')))
      else Ok (v, df)
  | _ => Err TypeError
  end.

Definition DataFillIORefnum_prepareRSRCData (df : DataFill)
  : result (bytes * DataFill) :=
  let ver := getFileVersion vi in
  if isGreaterOrEqVersion ver 6 0 0 0 then
    t <- self_td df ;;
    if isRefnumTag t then
      match value df with
      | VPy v => data_buf <- lstr_bytes v ;; Ok (data_buf, df)
      | _ => Err TypeError
      end
    else UInt32_prepareRSRCData df
  else UInt32_prepareRSRCData df.

(** [DataFillUDTagRefnum.prepareRSRCData]: for the float tag kind the
    third field is written as [len(self.usrdef3).to_bytes(4, ...)]. *)
Definition DataFillUDTagRefnum_prepareRSRCData
           (usrdef1 usrdef2 usrdef3 usrdef4 : pyval) (df : DataFill)
  : result (bytes * DataFill) :=
  let ver := getFileVersion vi in
  match value df with
  | VPy v =>
      b <- lstr_bytes v ;;
      let data_buf := if in_padding_window ver then b ++ [x00] else b in
      t <- self_td df ;;
      if is_UsrDefTagFlt (refType t) then
        b1 <- lstr_bytes usrdef1 ;;
        b2 <- lstr_bytes usrdef2 ;;
        n3 <- py_len usrdef3 ;;
        b3 <- int_to_bytes n3 4 false ;;
        b4 <- lstr_bytes usrdef4 ;;
        Ok (data_buf ++ b1 ++ b2 ++ b3 ++ b4, df)
      else Ok (data_buf, df)
  | _ => Err TypeError
  end.

Fixpoint lstr_each (l : list pyval) : result bytes :=
  match l with
  | [] => Ok []
  | libVersion :: l' =>
      b <- lstr_bytes libVersion ;;
      bs <- lstr_each l' ;;
      Ok (b ++ bs)
  end.

Definition DataFillUDClassInst_prepareRSRCData (libName : bytes)
           (df : DataFill) : result (bytes * DataFill) :=
  n <- len_value (value df) ;;
  b <- int_to_bytes n 4 false ;;
  p <- preparePStr libName 4 ;;
  l <- py_items (value df) ;;
  bs <- lstr_each l ;;
  Ok (b ++ p ++ bs, df).

Definition DataFillPtr_prepareRSRCData (df : DataFill)
  : result (bytes * DataFill) :=
  let ver := getFileVersion vi in
  if isSmallerVersion ver 8 6 0 1 then UInt32_prepareRSRCData df
  else Ok ([], df).

(** Method resolution for [prepareRSRCData]; [DataFillExtData] inherits
    the method of the base class. *)
Definition prepareRSRCData_method (avoid_recompute : bool) (df : DataFill)
  : result (bytes * DataFill) :=
  match cls df with
  | KVoid | KUnexpected | KExtData => DataFill_prepareRSRCData df
  | KInt size signed => DataFillInt_prepareRSRCData size signed df
  | KFloat => DataFillFloat_prepareRSRCData df
  | KComplex => DataFillComplex_prepareRSRCData df
  | KBool _ => DataFillBool_prepareRSRCData df
  | KString => DataFillString_prepareRSRCData df
  | KPath | KLVVariant => LV_object_prepareRSRCData avoid_recompute df
  | KCString | KArrayDataPtr | KSimpleRefnum | KUDRefnum | KPtrTo =>
      UInt32_prepareRSRCData df
  | KArray dims => DataFillArray_prepareRSRCData dims avoid_recompute df
  | KCluster => DataFillCluster_prepareRSRCData avoid_recompute df
  | KMeasureData _ => DataFillMeasureData_prepareRSRCData avoid_recompute df
  | KComplexFixedPt vflags => DataFillComplexFixedPt_prepareRSRCData vflags df
  | KFixedPoint vflags => DataFillFixedPoint_prepareRSRCData vflags df
  | KBlock => DataFillBlock_prepareRSRCData df
  | KRepeatedBlock => DataFillRepeatedBlock_prepareRSRCData avoid_recompute df
  | KIORefnum => DataFillIORefnum_prepareRSRCData df
  | KUDTagRefnum u1 u2 u3 u4 =>
      DataFillUDTagRefnum_prepareRSRCData u1 u2 u3 u4 df
  | KUDClassInst libName => DataFillUDClassInst_prepareRSRCData libName df
  | KPtr => DataFillPtr_prepareRSRCData df
  | KTypeDef => DataFillTypeDef_prepareRSRCData avoid_recompute df
  | KSpecialDSTMCluster => SpecialDSTMCluster_prepareRSRCData avoid_recompute df
  end.

End Encoding.

Fixpoint prepareRSRCData (depth : nat) (avoid_recompute : bool)
         (df : DataFill) : result (bytes * DataFill) :=
  match depth with
  | O => Err RecursionError
  | S d => prepareRSRCData_method (prepareRSRCData d) avoid_recompute df
  end.

(** ** Size prediction: [expectedRSRCSize] of the subclasses

    [None] is the answer "unknown". *)

Section Sizes.

Variable sub_expectedRSRCSize : DataFill -> result (option Z).

(** [for sub_df in self.value: ...] adding to [exp_whole_len], with the
    early [return None]. *)
Fixpoint expected_each (exp_whole_len : Z) (l : list DataFill)
  : result (option Z) :=
  match l with
  | [] => Ok (Some exp_whole_len)
  | sub_df :: l' =>
      sub_len <- sub_expectedRSRCSize sub_df ;;
      match sub_len with
      | None => Ok None
      | Some n => expected_each (exp_whole_len + n) l'
      end
  end.

Definition children_expectedRSRCSize (start : Z) (df : DataFill)
  : result (option Z) :=
  l <- sub_nodes (value df) ;;
  expected_each start l.

Definition DataFillCluster_expectedRSRCSize := children_expectedRSRCSize 0.
Definition DataFillMeasureData_expectedRSRCSize := children_expectedRSRCSize 0.
Definition DataFillRepeatedBlock_expectedRSRCSize :=
  children_expectedRSRCSize 0.
Definition DataFillTypeDef_expectedRSRCSize := children_expectedRSRCSize 0.

Definition DataFillArray_expectedRSRCSize (dims : list Z) (df : DataFill)
  : result (option Z) :=
  children_expectedRSRCSize (4 * Z.of_nat (length dims)) df.

(** [DataFill.expectedRSRCSize] and [DataFillUnexpected.expectedRSRCSize] *)
Definition DataFill_expectedRSRCSize (df : DataFill) : result (option Z) :=
  Ok None.

Definition DataFillVoid_expectedRSRCSize (df : DataFill)
  : result (option Z) :=
  Ok (Some 0).

Definition DataFillInt_expectedRSRCSize (size : Z) (df : DataFill)
  : result (option Z) :=
  Ok (Some size).

Definition DataFillFloat_expectedRSRCSize (df : DataFill)
  : result (option Z) :=
  match tdType df with
  | NumFloat32 | UnitFloat32 => Ok (Some 4)
  | NumFloat64 | UnitFloat64 => Ok (Some 8)
  | NumFloatExt | UnitFloatExt => Ok (Some 16)
  | _ => Ok None
  end.

Definition DataFillComplex_expectedRSRCSize (df : DataFill)
  : result (option Z) :=
  match tdType df with
  | NumComplex64 | UnitComplex64 => Ok (Some 8)
  | NumComplex128 | UnitComplex128 => Ok (Some 16)
  | NumComplexExt | UnitComplexExt => Ok (Some 32)
  | _ => Ok None
  end.

Definition DataFillBool_expectedRSRCSize (df : DataFill)
  : result (option Z) :=
  match bool_size df with
  | Some size => Ok (Some (0 + size))
  | None => Err TypeError
  end.

Definition DataFillString_expectedRSRCSize (df : DataFill)
  : result (option Z) :=
  n <- len_value (value df) ;;
  Ok (Some (4 + n)).

(** [DataFillPath.expectedRSRCSize] and
    [DataFillLVVariant.expectedRSRCSize] *)
Definition LV_object_expectedRSRCSize (df : DataFill) : result (option Z) :=
  match value df with
  | VExt x => LV_expectedRSRCSize ext x
  | _ => Err AttributeError
  end.

Definition UInt32_expectedRSRCSize (df : DataFill) : result (option Z) :=
  Ok (Some 4).

Definition DataFillComplexFixedPt_expectedRSRCSize (df : DataFill)
  : result (option Z) :=
  t <- self_td df ;;
  let one := 8 + (if allocOv t then 1 else 0) in
  Ok (Some (0 + one + one)).

Definition DataFillFixedPoint_expectedRSRCSize (df : DataFill)
  : result (option Z) :=
  t <- self_td df ;;
  Ok (Some (0 + 8 + (if allocOv t then 1 else 0))).

(** [DataFillBlock.expectedRSRCSize]: the length of the stored value. *)
Definition DataFillBlock_expectedRSRCSize (df : DataFill)
  : result (option Z) :=
  n <- len_value (value df) ;;
  Ok (Some (0 + n)).

(** [DataFillIORefnum.expectedRSRCSize]: in the tag branch the sum is
    added to [data_buf], a local name that was never assigned. *)
Definition DataFillIORefnum_expectedRSRCSize (df : DataFill)
  : result (option Z) :=
  let ver := getFileVersion vi in
  if isGreaterOrEqVersion ver 6 0 0 0 then
    t <- self_td df ;;
    if isRefnumTag t then Err (UnboundLocalError "data_buf")
    else Ok (Some (0 + 4))
  else Ok (Some (0 + 4)).

(** [DataFillUDTagRefnum.expectedRSRCSize] names [REFNUM_TYPE], which
    the other methods import locally and this one does not. *)
Definition DataFillUDTagRefnum_expectedRSRCSize (df : DataFill)
  : result (option Z) :=
  _ <- len_value (value df) ;;
  _ <- self_td df ;;
  Err (NameError "REFNUM_TYPE").

(** [DataFillUDClassInst.expectedRSRCSize]: [str_len += ...] on a local
    name that was never assigned. *)
Definition DataFillUDClassInst_expectedRSRCSize (df : DataFill)
  : result (option Z) :=
  Err (UnboundLocalError "str_len").

Definition DataFillPtr_expectedRSRCSize (df : DataFill)
  : result (option Z) :=
  let ver := getFileVersion vi in
  if isSmallerVersion ver 8 6 0 1 then Ok (Some (0 + 4)) else Ok (Some 0).

(** Method resolution for [expectedRSRCSize]; [SpecialDSTMCluster]
    inherits the method of [DataFillCluster], [DataFillExtData] the one
    of the base class. *)
Definition expectedRSRCSize_method (df : DataFill) : result (option Z) :=
  match cls df with
  | KVoid => DataFillVoid_expectedRSRCSize df
  | KUnexpected | KExtData => DataFill_expectedRSRCSize df
  | KInt size _ => DataFillInt_expectedRSRCSize size df
  | KFloat => DataFillFloat_expectedRSRCSize df
  | KComplex => DataFillComplex_expectedRSRCSize df
  | KBool _ => DataFillBool_expectedRSRCSize df
  | KString => DataFillString_expectedRSRCSize df
  | KPath | KLVVariant => LV_object_expectedRSRCSize df
  | KCString | KArrayDataPtr | KSimpleRefnum | KUDRefnum | KPtrTo =>
      UInt32_expectedRSRCSize df
  | KArray dims => DataFillArray_expectedRSRCSize dims df
  | KCluster | KSpecialDSTMCluster => DataFillCluster_expectedRSRCSize df
  | KMeasureData _ => DataFillMeasureData_expectedRSRCSize df
  | KComplexFixedPt _ => DataFillComplexFixedPt_expectedRSRCSize df
  | KFixedPoint _ => DataFillFixedPoint_expectedRSRCSize df
  | KBlock => DataFillBlock_expectedRSRCSize df
  | KRepeatedBlock => DataFillRepeatedBlock_expectedRSRCSize df
  | KIORefnum => DataFillIORefnum_expectedRSRCSize df
  | KUDTagRefnum _ _ _ _ => DataFillUDTagRefnum_expectedRSRCSize df
  | KUDClassInst _ => DataFillUDClassInst_expectedRSRCSize df
  | KPtr => DataFillPtr_expectedRSRCSize df
  | KTypeDef => DataFillTypeDef_expectedRSRCSize df
  end.

End Sizes.

Fixpoint expectedRSRCSize (depth : nat) (df : DataFill)
  : result (option Z) :=
  match depth with
  | O => Err RecursionError
  | S d => expectedRSRCSize_method (expectedRSRCSize d) df
  end.

(** ** The text form of a pointer: [DataFillPtr.exportXML]

    [df_elem.text = "{}".format(self.value)].  A pointer node holds
    [None] or an [int]; the text of anything else is outside this
    embedding. *)

Definition decimal (z : Z) : string :=
  DecimalString.NilZero.string_of_int (Z.to_int z).

Definition DataFillPtr_exportXML (df : DataFill) : option string :=
  match value df with
  | VPy PyNone => Some "None"%string
  | VPy (PyInt z) => Some (decimal z)
  | _ => None
  end.

End Nodes.

Arguments DataFill : clear implicits.
Arguments Value : clear implicits.

(** ** Concrete descriptors, versions and streams

    The inputs at which the properties below are evaluated. *)

(** A descriptor without clients. *)
Definition leaf_td (ty : TD_FULL_TYPE) : TDObject :=
  mkTD ty (OtherRefnum 0) (OtherFlavor 0) [] 0 0 false [].

Definition refnum_td (r : REFNUM_TYPE) : TDObject :=
  mkTD Refnum r (OtherFlavor 0) [] 0 0 false [].

Definition block_td (size : Z) : TDObject :=
  mkTD Block (OtherRefnum 0) (OtherFlavor 0) [] 0 size false [].

Definition measure_td (f : MEASURE_DATA_FLAVOR) : TDObject :=
  mkTD MeasureData (OtherRefnum 0) f [] 0 0 false [].

(** An array descriptor with [ndims] dimensions over one client. *)
Definition array_td (ndims : nat) (td_idx : Z) (elem : TDObject) : TDObject :=
  mkTD Array (OtherRefnum 0) (OtherFlavor 0) (repeat 0 ndims) 0 0 false
       [(td_idx, elem, 0)].

(** A cluster descriptor with eight 1-byte clients, whose indices in the
    type list are [base], [base + 1], ..., [base + 7]. *)
Definition cluster8_td (base : Z) : TDObject :=
  mkTD Cluster (OtherRefnum 0) (OtherFlavor 0) [] 0 0 false
       (map (fun i => (base + i, leaf_td NumUInt8, 0)) [0; 1; 2; 3; 4; 5; 6; 7]).

(** Collaborators that are never reached by the inputs below: every
    routine fails, every synthesised descriptor is an empty cluster. *)
Definition no_ext : External unit :=
  mkExternal unit
    (fun _ _ => Err ExternalError) (fun _ _ => Err ExternalError)
    (raise ExternalError) (fun _ => Err ExternalError)
    (fun _ => raise ExternalError)
    (fun _ _ => Err ExternalError) (fun _ => Err ExternalError)
    (Ok tt)
    leaf_td (leaf_td Cluster) (fun _ => leaf_td Cluster)
    (leaf_td Cluster) (leaf_td Cluster) (leaf_td Cluster).

Definition file_version (ma mi bf st : Z) : VI :=
  mkVI (mkVersion ma mi bf st).

Definition default_po : PO := mkPO 1000 1000.

(** A stream positioned at its start. *)
Definition stream (data : bytes) : BytesIO := mkBytesIO data 0.

(** The node that the factory builds for a descriptor, decoded from a
    stream: [newDataFillObjectWithTD] followed by [initWithRSRC]. *)
Definition decode_new {ExtValue : Type} (vi : VI) (po : PO)
           (ext : External ExtValue) (depth : nat) (idx : Z)
           (flags : option Z) (t : TDObject) (bl : BytesIO)
  : BytesIO * result (DataFill ExtValue) :=
  match newDataFillObjectWithTD vi depth idx flags t with
  | Ok df => initWithRSRC vi po ext depth df bl
  | Err e => (bl, Err e)
  end.

(** The same for the special cluster, which has its own constructor. *)
Definition decode_new_special {ExtValue : Type} (vi : VI) (po : PO)
           (ext : External ExtValue) (depth : nat) (idx : Z)
           (flags : option Z) (t : TDObject) (bl : BytesIO)
  : BytesIO * result (DataFill ExtValue) :=
  match newSpecialDSTMClusterWithTD vi depth idx flags t with
  | Ok df => initWithRSRC vi po ext depth df bl
  | Err e => (bl, Err e)
  end.

(** A block node bound to a descriptor of 4 bytes and holding 3 bytes,
    and one holding 5 bytes. *)
Definition short_block : DataFill unit :=
  mkDataFill KBlock Block NoSubType 0 (Some 0) (Some (block_td 4))
             (VPy (PyBytes [x01; x02; x03])).

Definition long_block : DataFill unit :=
  mkDataFill KBlock Block NoSubType 0 (Some 0) (Some (block_td 4))
             (VPy (PyBytes [x01; x02; x03; x04; x05])).

(** Nodes as the factory builds and binds them, before any decode. *)
Definition fresh_node (k : DFClass) (t : TDObject) (sub : SubType)
  : DataFill unit :=
  mkDataFill k (fullType t) sub 0 (Some 0) (Some t) (VPy PyNone).

Definition fresh_bool (ty : TD_FULL_TYPE) : DataFill unit :=
  fresh_node (KBool None) (leaf_td ty) NoSubType.

Definition fresh_ptr : DataFill unit :=
  fresh_node KPtr (leaf_td Ptr) NoSubType.

Definition fresh_measure (f : MEASURE_DATA_FLAVOR) : DataFill unit :=
  fresh_node (KMeasureData None) (measure_td f) (FlavorSubType f).

Definition fresh_float_tag : DataFill unit :=
  fresh_node (KUDTagRefnum PyNone PyNone PyNone PyNone)
             (refnum_td UsrDefTagFlt) (RefSubType UsrDefTagFlt).

Definition fresh_array_2x3 : DataFill unit :=
  mkDataFill (KArray []) Array NoSubType 0 (Some 0)
             (Some (array_td 2 7 (leaf_td NumInt16))) (VNodes []).

(** Two extents, 2 and 3, six 2-byte elements and one byte more. *)
Definition array_2x3_bytes : bytes :=
  [x00; x00; x00; x02; x00; x00; x00; x03;
   x00; x01; x00; x02; x00; x03; x00; x04; x00; x05; xff; xfe;
   x33].

(** The encoding of a float tag refnum: the string, the three further
    strings and the bare integer between them. *)
Definition float_tag_bytes : bytes :=
  [x00; x00; x00; x01; x61;
   x00; x00; x00; x01; x62;
   x00; x00; x00; x01; x63;
   x00; x00; x00; x07;
   x00; x00; x00; x01; x64].


(** The indices in the type list that the children of a node are bound
    to, in the order of the value list. *)
Definition children_indices {ExtValue : Type} (df : DataFill ExtValue)
  : list Z :=
  match value df with
  | VNodes l => map index l
  | _ => []
  end.

(** ** Predicates on decoders and on trees of nodes *)

(** A decoder is forward-only when it leaves the bytes of the stream as
    they are and never ends before the position it started at. *)
Definition forward {A : Type} (m : Reader A) : Prop :=
  forall bl bl' r,
    m bl = (bl', r) ->
    getvalue bl' = getvalue bl /\ (tell bl <= tell bl')%nat.

(** The readers of the collaborating modules are forward-only. *)
Definition ext_forward {ExtValue : Type} (ext : External ExtValue) : Prop :=
  forward (readQuadFloat ext)
  /\ forall c, forward (LV_parseRSRCData ext c).

(** Every value that a decoder returns satisfies [P]. *)
Definition yields {A : Type} (P : A -> Prop) (m : Reader A) : Prop :=
  forall bl bl' a, m bl = (bl', Ok a) -> P a.

(** [p] holds of a node and of its descendants down to [depth] levels. *)
Fixpoint tree_all {ExtValue : Type} (p : DataFill ExtValue -> bool)
         (depth : nat) (df : DataFill ExtValue) : bool :=
  p df &&
  match depth with
  | O => true
  | S d =>
      match value df with
      | VNodes l => forallb (tree_all p d) l
      | _ => true
      end
  end.

(** The node is bound to a descriptor of its own type tag. *)
Definition bound_to_own_type {ExtValue : Type} (df : DataFill ExtValue)
  : bool :=
  match td df with
  | Some t => TD_FULL_TYPE_beq (tdType df) (fullType t)
  | None => false
  end.

(** The node is not an opaque block whose value has another length than
    the descriptor declares. *)
Definition block_has_declared_size {ExtValue : Type}
           (df : DataFill ExtValue) : bool :=
  match cls df, td df, value df with
  | KBlock, Some t, VPy (PyBytes v) => Z.of_nat (length v) =? blkSize t
  | _, _, _ => true
  end.

(** The node is of a class whose bytes are produced in this file, not
    by [struct] or [LVclasses]. *)
Definition encoded_here {ExtValue : Type} (df : DataFill ExtValue) : bool :=
  match cls df with
  | KFloat | KComplex | KPath | KLVVariant => false
  | _ => true
  end.

(** The two header fields and the binding that decode must not touch. *)
Definition same_binding {ExtValue : Type} (df df' : DataFill ExtValue)
  : Prop :=
  tdType df' = tdType df /\ tdSubType df' = tdSubType df
  /\ index df' = index df /\ tm_flags df' = tm_flags df /\ td df' = td df.

(** What a decoded node is to the node that decode was called on: the
    binding is the same, and every child satisfies [C]. *)
Definition decoded_from {ExtValue : Type} (C : DataFill ExtValue -> Prop)
           (df df' : DataFill ExtValue) : Prop :=
  same_binding df df'
  /\ forall l, value df' = VNodes l -> Forall C l.

(** Binding child by child: the child at each position is bound to the
    client at the same position, in order; a descriptor with more
    clients than there are children runs out of children. *)
Fixpoint bind_in_order {ExtValue : Type}
         (sub_setTD : DataFill ExtValue -> TDObject -> Z -> option Z ->
                      result (DataFill ExtValue))
         (cs : list (Z * TDObject * Z)) (l : list (DataFill ExtValue))
         (flags : option Z) : result (list (DataFill ExtValue)) :=
  match cs, l with
  | [], _ => Ok l
  | _ :: _, [] => Err IndexError
  | (td_idx, sub_td, _) :: cs', sub_df :: l' =>
      sub_df' <- sub_setTD sub_df sub_td td_idx flags ;;
      l'' <- bind_in_order sub_setTD cs' l' flags ;;
      Ok (sub_df' :: l'')
  end.

(** Whether the client at position [idx] has a child in a special
    cluster under the flag word [f]. *)
Definition special_position (vi : VI) (f idx : Z) : bool :=
  match isSpecialDSTMClusterElement vi idx (Some f) with
  | Ok b => b
  | Err _ => false
  end.

(** The clients of a special cluster that get a child: those at a
    special position, without the first of them when [skipNextEntry]. *)
Definition selected_clients (vi : VI) (f : Z) (skipNextEntry : bool)
           (cs : list (Z * Z * TDObject * Z)) : list (Z * Z * TDObject * Z) :=
  let special :=
    filter (fun c => match c with
                     | (cli_idx, _, _, _) => special_position vi f cli_idx
                     end) cs in
  if skipNextEntry then tl special else special.

(** ** Further concrete nodes and descriptors *)

(** A cluster descriptor with two 1-byte clients at [base] and
    [base + 1] of the type list. *)
Definition pair_td (base : Z) : TDObject :=
  mkTD Cluster (OtherRefnum 0) (OtherFlavor 0) [] 0 0 false
       [(base, leaf_td NumUInt8, 0); (base + 1, leaf_td NumUInt8, 0)].

(** An integer node bound to a descriptor of its type and holding [z]. *)
Definition int_node (ty : TD_FULL_TYPE) (size : Z) (signed : bool)
           (idx z : Z) : DataFill unit :=
  mkDataFill (KInt size signed) ty NoSubType idx (Some 0) (Some (leaf_td ty))
             (VPy (PyInt z)).

(** A cluster with two children, holding 200 and 7. *)
Definition filled_pair : DataFill unit :=
  mkDataFill KCluster Cluster NoSubType 0 (Some 0) (Some (pair_td 3))
             (VNodes [int_node NumUInt8 1 false 3 200;
                      int_node NumUInt8 1 false 4 7]).

(** A special cluster over eight clients, bound with the flag word [f]
    and not yet decoded. *)
Definition fresh_special (f : Z) : DataFill unit :=
  mkDataFill KSpecialDSTMCluster Cluster NoSubType 0 (Some f)
             (Some (cluster8_td 11)) (VNodes []).

(** A string node holding [v]. *)
Definition string_node (v : bytes) : DataFill unit :=
  mkDataFill KString String NoSubType 0 (Some 0) (Some (leaf_td String))
             (VPy (PyBytes v)).

(** A repeated block of [n] 1-byte elements, not yet decoded. *)
Definition repeated_td (n : Z) : TDObject :=
  mkTD RepeatedBlock (OtherRefnum 0) (OtherFlavor 0) [] n 0 false
       [(5, leaf_td NumUInt8, 0)].

Definition fresh_repeated (n : Z) : DataFill unit :=
  mkDataFill KRepeatedBlock RepeatedBlock NoSubType 0 (Some 0)
             (Some (repeated_td n)) (VNodes []).

(** A class-instance refnum, not yet decoded. *)
Definition fresh_class_inst : DataFill unit :=
  mkDataFill (KUDClassInst []) Refnum (RefSubType UDClassInst) 0 (Some 0)
             (Some (refnum_td UDClassInst)) (VPyList []).





(** The element that the factory makes for the 2 x 3 array, and the
    array filled with six of them. *)
Definition array_2x3_elem : DataFill unit :=
  mkDataFill (KInt 2 true) NumInt16 NoSubType 7 (Some 0)
             (Some (leaf_td NumInt16)) (VPy PyNone).

Definition filled_array_2x3 : DataFill unit :=
  mkDataFill (KArray [2; 3]) Array NoSubType 0 (Some 0)
             (Some (array_td 2 7 (leaf_td NumInt16)))
             (VNodes (map (fun z => set_value array_2x3_elem (VPy (PyInt z)))
                          [1; 2; 3; 4; 5; -2])).

(** A cluster and a type definition over a client of the external-data
    type, whose decode is not implemented; both bound, not yet decoded. *)
Definition failing_cluster_td : TDObject :=
  mkTD Cluster (OtherRefnum 0) (OtherFlavor 0) [] 0 0 false
       [(3, leaf_td NumUInt8, 0); (4, leaf_td ExtData, 0)].

Definition fresh_failing_cluster : DataFill unit :=
  mkDataFill KCluster Cluster NoSubType 0 (Some 0) (Some failing_cluster_td)
             (VNodes []).

Definition failing_typedef_td : TDObject :=
  mkTD TypeDef (OtherRefnum 0) (OtherFlavor 0) [] 0 0 false
       [(4, leaf_td ExtData, 0)].

Definition fresh_failing_typedef : DataFill unit :=
  mkDataFill KTypeDef TypeDef NoSubType 0 (Some 0) (Some failing_typedef_td)
             (VNodes []).

(** ** Reading back what was written *)

(** The decoder [one] reads back what [enc] writes: whenever [one] has
    returned [c] from some stream, [c] is [good] and [enc] turns [c] into
    the buffer [b], the decoder run on any stream that holds [b] at its
    position returns [c] again and stops right after [b]. *)
Definition reads_back {A : Type} (good : A -> bool)
           (enc : A -> result (bytes * A)) (one : Reader A) : Prop :=
  forall bl bl' c b c' pre rest,
    one bl = (bl', Ok c) ->
    good c = true ->
    enc c = Ok (b, c') ->
    one (mkBytesIO (pre ++ b ++ rest) (length pre))
    = (mkBytesIO (pre ++ b ++ rest) (length pre + length b), Ok c).

(** The bytes of the node do not depend on where it is placed and are
    produced in this file: it is no float, complex, path or variant, no
    class-instance refnum (whose padding is counted from the start of
    the stream), and no opaque block whose value has another length
    than declared. *)
Definition rereadable {ExtValue : Type} (df : DataFill ExtValue) : bool :=
  encoded_here df && block_has_declared_size df
  && match cls df with
     | KUDClassInst _ => false
     | _ => true
     end.

(** [rereadable] at the node and [good] at every child. *)
Definition rereadable_with {ExtValue : Type}
           (good : DataFill ExtValue -> bool) (df : DataFill ExtValue)
  : bool :=
  rereadable df
  && match value df with
     | VNodes l => forallb good l
     | _ => true
     end.

(** ** Writing back what was read *)

(** The bytes of the stream between the position of [bl] and the
    position of [bl']. *)
Definition consumed (bl bl' : BytesIO) : bytes :=
  firstn (tell bl' - tell bl) (skipn (tell bl) (getvalue bl)).

(** The encoder [enc] writes back what [one] reads: whenever [one] has
    returned [c] and has stopped before the end of the stream, and [c]
    is [good], the stream is as it was, the position has not moved
    backwards, and [enc] returns the bytes that [one] went over and
    leaves [c] as it is. *)
Definition writes_back {A : Type} (good : A -> bool)
           (enc : A -> result (bytes * A)) (one : Reader A) : Prop :=
  forall bl bl' c,
    one bl = (bl', Ok c) ->
    (tell bl' < length (getvalue bl'))%nat ->
    good c = true ->
    getvalue bl' = getvalue bl
    /\ (tell bl <= tell bl')%nat
    /\ enc c = Ok (consumed bl bl', c).

(** The bytes that encode produces for the node are the bytes that
    decode read: the class is encoded in this file, the node is no
    class-instance refnum (decode skips padding that encode computes
    anew) and no tag refnum of the float kind or with the padding byte
    (decode drops that byte). *)
Definition rewritable {ExtValue : Type} (vi : VI) (df : DataFill ExtValue)
  : bool :=
  encoded_here df
  && match cls df with
     | KUDClassInst _ => false
     | KUDTagRefnum _ _ _ _ =>
         negb (in_padding_window (getFileVersion vi))
         && match td df with
            | Some t => negb (is_UsrDefTagFlt (refType t))
            | None => false
            end
     | _ => true
     end.

(** [rewritable] at the node and [good] at every child. *)
Definition rewritable_with {ExtValue : Type} (vi : VI)
           (good : DataFill ExtValue -> bool) (df : DataFill ExtValue)
  : bool :=
  rewritable vi df
  && match value df with
     | VNodes l => forallb good l
     | _ => true
     end.

(** * Properties *)

(** ** Integers and their big-endian bytes *)

Lemma byte_val_range (b : byte) : 0 <= byte_val b < 256.
Proof.
  unfold byte_val. pose proof (Byte.to_N_bounded b). lia.
Qed.

Lemma byte_val_of_Z (z : Z) : byte_val (byte_of_Z z) = z mod 256.
Proof.
  unfold byte_of_Z, byte_val.
  assert (Hr : 0 <= z mod 256 < 256) by (apply Z.mod_pos_bound; lia).
  destruct (Byte.of_N (Z.to_N (z mod 256))) as [b|] eqn:E.
  - apply Byte.to_of_N in E. rewrite E. lia.
  - apply Byte.of_N_None_iff in E. lia.
Qed.

Lemma byte_of_Z_val (b : byte) : byte_of_Z (byte_val b) = b.
Proof.
  unfold byte_of_Z. pose proof (byte_val_range b) as Hr.
  rewrite Z.mod_small by exact Hr.
  unfold byte_val. rewrite N2Z.id, Byte.of_to_N. reflexivity.
Qed.

Lemma from_bytes_unsigned_app (a : bytes) (x : byte) :
  from_bytes_unsigned (a ++ [x]) = from_bytes_unsigned a * 256 + byte_val x.
Proof.
  unfold from_bytes_unsigned. rewrite fold_left_app. reflexivity.
Qed.

Lemma pow256_succ (n : nat) : 256 ^ Z.of_nat (S n) = 256 * 256 ^ Z.of_nat n.
Proof.
  rewrite Nat2Z.inj_succ, Z.pow_succ_r by lia. reflexivity.
Qed.

Lemma pow256_pos (n : Z) : 0 <= n -> 0 < 256 ^ n.
Proof. intros. apply Z.pow_pos_nonneg; lia. Qed.

Lemma from_bytes_unsigned_range (b : bytes) :
  0 <= from_bytes_unsigned b < 256 ^ Z.of_nat (length b).
Proof.
  induction b as [|x b IH] using rev_ind.
  - cbn. lia.
  - rewrite from_bytes_unsigned_app, length_app, Nat.add_comm.
    cbn [length Nat.add]. rewrite pow256_succ.
    pose proof (byte_val_range x). lia.
Qed.

Lemma be_bytes_length (n : nat) (z : Z) : length (be_bytes n z) = n.
Proof.
  revert z. induction n as [|n IH]; intro z; cbn.
  - reflexivity.
  - rewrite length_app, IH. cbn. lia.
Qed.

Lemma from_bytes_be_bytes (n : nat) (z : Z) :
  from_bytes_unsigned (be_bytes n z) = z mod 256 ^ Z.of_nat n.
Proof.
  revert z. induction n as [|n IH]; intro z.
  - cbn. rewrite Z.mod_1_r. reflexivity.
  - cbn [be_bytes]. rewrite from_bytes_unsigned_app, IH, byte_val_of_Z.
    rewrite pow256_succ.
    pose proof (pow256_pos (Z.of_nat n) ltac:(lia)) as Hp.
    rewrite Z.rem_mul_r by lia. lia.
Qed.

Lemma be_bytes_from_bytes (b : bytes) :
  be_bytes (length b) (from_bytes_unsigned b) = b.
Proof.
  induction b as [|x b IH] using rev_ind.
  - reflexivity.
  - rewrite length_app, Nat.add_comm. cbn [length Nat.add be_bytes].
    rewrite from_bytes_unsigned_app.
    pose proof (byte_val_range x) as Hx.
    replace ((from_bytes_unsigned b * 256 + byte_val x) / 256)
      with (from_bytes_unsigned b)
      by (apply Z.div_unique with (r := byte_val x); lia).
    rewrite IH. f_equal. f_equal.
    unfold byte_of_Z.
    replace ((from_bytes_unsigned b * 256 + byte_val x) mod 256)
      with (byte_val x)
      by (apply Z.mod_unique with (q := from_bytes_unsigned b); lia).
    unfold byte_val. rewrite N2Z.id, Byte.of_to_N. reflexivity.
Qed.

Lemma int_from_bytes_unsigned (b : bytes) :
  int_from_bytes b false = from_bytes_unsigned b.
Proof. reflexivity. Qed.

(** A successful [to_bytes] has the requested length. *)
Lemma int_to_bytes_length (z size : Z) (signed : bool) (b : bytes) :
  int_to_bytes z size signed = Ok b -> Z.of_nat (length b) = size.
Proof.
  unfold int_to_bytes.
  destruct (size <? 0) eqn:Hs; [discriminate|].
  destruct (if signed then _ else _); [|discriminate].
  intro H. injection H as <-. rewrite be_bytes_length. lia.
Qed.

(** [int.from_bytes] undoes [to_bytes]. *)
Lemma int_from_to_bytes (z size : Z) (signed : bool) (b : bytes) :
  int_to_bytes z size signed = Ok b -> int_from_bytes b signed = z.
Proof.
  unfold int_to_bytes.
  destruct (size <? 0) eqn:Hs; [discriminate|].
  apply Z.ltb_ge in Hs.
  pose proof (pow256_pos size Hs) as Hp.
  destruct signed; cbn [andb].
  - destruct ((- 256 ^ size <=? 2 * z) && (2 * z <? 256 ^ size)) eqn:Hf;
      [|discriminate].
    apply andb_true_iff in Hf. destruct Hf as [Hlo Hhi].
    apply Z.leb_le in Hlo. apply Z.ltb_lt in Hhi.
    intro H. injection H as <-.
    unfold int_from_bytes. cbn [andb].
    rewrite from_bytes_be_bytes, be_bytes_length, Z2Nat.id by lia.
    rewrite Z.mod_mod by lia.
    destruct (Z.ltb_spec z 0) as [Hneg|Hpos].
    + replace (z mod 256 ^ size) with (z + 256 ^ size)
        by (apply Z.mod_unique with (q := -1); lia).
      destruct (Z.leb_spec (256 ^ size) (2 * (z + 256 ^ size))); lia.
    + rewrite Z.mod_small by lia.
      destruct (Z.leb_spec (256 ^ size) (2 * z)); lia.
  - destruct ((0 <=? z) && (z <? 256 ^ size)) eqn:Hf; [|discriminate].
    apply andb_true_iff in Hf. destruct Hf as [Hlo Hhi].
    apply Z.leb_le in Hlo. apply Z.ltb_lt in Hhi.
    intro H. injection H as <-.
    unfold int_from_bytes. cbn [andb].
    rewrite from_bytes_be_bytes, Z2Nat.id by lia.
    rewrite Z.mod_mod by lia. apply Z.mod_small. lia.
Qed.

(** What an unsigned read produced always fits the width it was read
    with, also when the stream ended early. *)
Lemma int_to_bytes_unsigned_fits (b : bytes) (size : Z) :
  Z.of_nat (length b) <= size ->
  exists b', int_to_bytes (from_bytes_unsigned b) size false = Ok b'
             /\ Z.of_nat (length b') = size.
Proof.
  intro Hlen. unfold int_to_bytes.
  destruct (Z.ltb_spec size 0); [lia|].
  pose proof (from_bytes_unsigned_range b) as [Hlo Hhi].
  assert (256 ^ Z.of_nat (length b) <= 256 ^ size)
    by (apply Z.pow_le_mono_r; lia).
  destruct (Z.leb_spec 0 (from_bytes_unsigned b)); [|lia].
  destruct (Z.ltb_spec (from_bytes_unsigned b) (256 ^ size)); [|lia].
  cbn [andb]. eexists. split; [reflexivity|].
  rewrite be_bytes_length. lia.
Qed.

(** Writing back an unsigned value with the width it was read with
    gives the bytes that were read. *)
Lemma int_to_from_bytes_unsigned (b : bytes) :
  int_to_bytes (int_from_bytes b false) (Z.of_nat (length b)) false = Ok b.
Proof.
  unfold int_from_bytes, int_to_bytes. cbn [andb].
  destruct (Z.ltb_spec (Z.of_nat (length b)) 0); [lia|].
  pose proof (from_bytes_unsigned_range b) as [Hlo Hhi].
  destruct (Z.leb_spec 0 (from_bytes_unsigned b)); [|lia].
  destruct (Z.ltb_spec (from_bytes_unsigned b) (256 ^ Z.of_nat (length b)));
    [|lia].
  cbn [andb]. rewrite Z.mod_small, Nat2Z.id by lia.
  rewrite be_bytes_from_bytes. reflexivity.
Qed.

(** ** The stream *)

Lemma read_spec (size : Z) (bl : BytesIO) :
  exists got,
    read size bl = (mkBytesIO (getvalue bl) (tell bl + length got), Ok got)
    /\ (0 <= size -> Z.of_nat (length got) <= size).
Proof.
  unfold read. eexists. split; [reflexivity|].
  intro Hs. destruct (Z.ltb_spec size 0); [lia|].
  pose proof (firstn_le_length (Z.to_nat size)
                (skipn (tell bl) (getvalue bl))). lia.
Qed.

(** With enough bytes left, [read] returns exactly [size] of them. *)
Lemma read_enough (size : Z) (bl : BytesIO) :
  0 <= size ->
  (tell bl + Z.to_nat size <= length (getvalue bl))%nat ->
  exists got,
    read size bl
    = (mkBytesIO (getvalue bl) (tell bl + Z.to_nat size), Ok got)
    /\ length got = Z.to_nat size.
Proof.
  intros Hs Hlen. unfold read.
  destruct (Z.ltb_spec size 0); [lia|].
  assert (Hgot : length (firstn (Z.to_nat size)
                           (skipn (tell bl) (getvalue bl))) = Z.to_nat size).
  { rewrite length_firstn, length_skipn. lia. }
  eexists. split; [|exact Hgot]. rewrite Hgot. reflexivity.
Qed.

Lemma read_int_enough (size : Z) (bl : BytesIO) :
  0 <= size ->
  (tell bl + Z.to_nat size <= length (getvalue bl))%nat ->
  exists got,
    read_int size false bl
    = (mkBytesIO (getvalue bl) (tell bl + Z.to_nat size),
       Ok (int_from_bytes got false))
    /\ length got = Z.to_nat size.
Proof.
  intros Hs Hlen.
  destruct (read_enough size bl Hs Hlen) as (got & Hr & Hg).
  exists got. split; [|exact Hg].
  unfold read_int, rbind, ret. rewrite Hr. reflexivity.
Qed.

(** ** The version comparison *)

Lemma isSmallerVersion_negb (ver : Version) (ma mi bf st : Z) :
  isSmallerVersion ver ma mi bf st = negb (isGreaterOrEqVersion ver ma mi bf st).
Proof. reflexivity. Qed.

(** ** Special cluster elements *)

(** C1 (as the code has it): with flag bit 0x0004 set, only client
    position 2 is special when the file version is below 10.0.0.2, and
    only client position 1 when it is at or above 10.0.0.2; no other
    position qualifies under this flag. *)
Theorem isSpecialDSTMClusterElement_flag_0x0004 (vi : VI) (idx f : Z) :
  Z.land f 0x0004 <> 0 ->
  isSpecialDSTMClusterElement vi idx (Some f)
  = Ok (if isSmallerVersion (getFileVersion vi) 10 0 0 2
        then idx =? 2 else idx =? 1).
Proof.
  intro Hf. unfold isSpecialDSTMClusterElement, flags_and, bind.
  destruct (Z.eqb_spec (Z.land f 4) 0) as [E|_]; [contradiction|].
  cbn [negb].
  destruct (isSmallerVersion (getFileVersion vi) 10 0 0 2).
  - destruct (idx =? 2); reflexivity.
  - destruct (idx =? 1); reflexivity.
Qed.

(** Position 0 is special under no flag word and no version. *)
Lemma isSpecialDSTMClusterElement_0 (vi : VI) (f : Z) :
  isSpecialDSTMClusterElement vi 0 (Some f) = Ok false.
Proof.
  unfold isSpecialDSTMClusterElement, flags_and, bind.
  destruct (negb (Z.land f 4 =? 0)).
  - destruct (isSmallerVersion _ _ _ _ _); reflexivity.
  - destruct (negb (Z.land f 16 =? 0)); [reflexivity|].
    destruct (negb (Z.land f 32 =? 0)); [reflexivity|].
    destruct (negb (Z.land f 64 =? 0)); reflexivity.
Qed.

(** ** Opaque blocks *)

Section BlockFacts.

Context {ExtValue : Type}.
Variable vi : VI.
Variable ext : External ExtValue.

(** C10: binary encode of an opaque block whose stored value has not
    the declared size stores the padded or cut value back into the node:
    the node after the call differs from the node before, its value has
    the declared size, and a later encode and a later expectedSize see
    that value, while expectedSize before the call saw the old length. *)
Theorem DataFillBlock_prepareRSRCData_overwrites_value
        (depth : nat) (df : DataFill ExtValue) (t : TDObject) (v : bytes) :
  cls df = KBlock ->
  td df = Some t ->
  value df = VPy (PyBytes v) ->
  0 <= blkSize t ->
  Z.of_nat (length v) <> blkSize t ->
  exists v' df',
    prepareRSRCData vi ext (S depth) false df = Ok (v', df')
    /\ v' = (if Z.of_nat (length v) <? blkSize t
             then v ++ repeat x00 (Z.to_nat (blkSize t - Z.of_nat (length v)))
             else firstn (Z.to_nat (blkSize t)) v)
    /\ value df' = VPy (PyBytes v')
    /\ df' <> df
    /\ Z.of_nat (length v') = blkSize t
    /\ expectedRSRCSize vi ext (S depth) df = Ok (Some (Z.of_nat (length v)))
    /\ prepareRSRCData vi ext (S depth) false df' = Ok (v', df')
    /\ expectedRSRCSize vi ext (S depth) df' = Ok (Some (blkSize t)).
Proof.
  intros Hc Ht Hv Hb Hne.
  destruct df as [k ty sub idx fl otd val].
  cbn in Hc, Ht, Hv. subst k otd val.
  set (n := Z.of_nat (length v)) in *.
  set (v' := if n <? blkSize t
             then v ++ repeat x00 (Z.to_nat (blkSize t - n))
             else firstn (Z.to_nat (blkSize t)) v).
  assert (Hlen : Z.of_nat (length v') = blkSize t).
  { subst v'. destruct (Z.ltb_spec n (blkSize t)).
    - rewrite length_app, repeat_length. lia.
    - rewrite length_firstn. lia. }
  assert (Hv' : (if blkSize t - n >? 0
                 then v ++ repeat x00 (Z.to_nat (blkSize t - n))
                 else slice_to v (blkSize t)) = v').
  { subst v'. unfold slice_to.
    destruct (Z.gtb_spec (blkSize t - n) 0), (Z.ltb_spec n (blkSize t));
      try lia; try reflexivity.
    destruct (Z.ltb_spec (blkSize t) 0); [lia|reflexivity]. }
  exists v', (mkDataFill KBlock ty sub idx fl (Some t) (VPy (PyBytes v'))).
  cbn [prepareRSRCData prepareRSRCData_method expectedRSRCSize
       expectedRSRCSize_method cls].
  unfold DataFillBlock_prepareRSRCData, DataFillBlock_expectedRSRCSize.
  cbn [value td self_td len_value py_len bind set_value]. fold n.
  rewrite Hlen.
  destruct (Z.eqb_spec n (blkSize t)) as [E|_]; [contradiction|].
  rewrite Z.eqb_refl. cbn [negb]. rewrite Hv'.
  repeat split; try reflexivity.
  intro E. injection E as E. apply (f_equal (@length byte)) in E. lia.
Qed.

End BlockFacts.

(** ** Booleans and pointers *)

Section LeafFacts.

Context {ExtValue : Type}.
Variable vi : VI.
Variable po : PO.
Variable ext : External ExtValue.

(** C8: a node of the plain boolean tag is decoded from, and encoded
    to, 2 bytes when the file version is below 4.5.0 and 1 byte when it
    is at or above 4.5.0; a node of the 16-bit boolean tag uses 2 bytes
    whatever the version.  Decode advances the stream by that width,
    and encode and expectedSize of the decoded node give that width. *)
Theorem DataFillBool_width
        (depth : nat) (df : DataFill ExtValue) (bl : BytesIO)
        (s : option Z) (w : Z) :
  cls df = KBool s ->
  (tdType df = BooleanU16 /\ w = 2
   \/ tdType df = Boolean
      /\ w = if isSmallerVersion (getFileVersion vi) 4 5 0 0 then 2 else 1) ->
  (tell bl + Z.to_nat w <= length (getvalue bl))%nat ->
  exists df' data_buf,
    initWithRSRC vi po ext (S depth) df bl
    = (mkBytesIO (getvalue bl) (tell bl + Z.to_nat w), Ok df')
    /\ cls df' = KBool (Some w)
    /\ prepareRSRCData vi ext (S depth) false df' = Ok (data_buf, df')
    /\ Z.of_nat (length data_buf) = w
    /\ expectedRSRCSize vi ext (S depth) df' = Ok (Some w).
Proof.
  intros Hc Hty Hlen.
  destruct df as [k ty sub idx fl otd val]. cbn in Hc, Hty. subst k.
  assert (Hw : 0 <= w).
  { destruct Hty as [[_ ->]|[_ ->]]; [lia|].
    destruct (isSmallerVersion _ _ _ _ _); lia. }
  assert (Hv : DataFillBool_initVersion vi
                 (mkDataFill (KBool s) ty sub idx fl otd val)
               = Ok (mkDataFill (KBool (Some w)) ty sub idx fl otd val)).
  { unfold DataFillBool_initVersion. cbn [tdType].
    destruct Hty as [[-> ->]|[-> ->]]; [reflexivity|].
    rewrite isSmallerVersion_negb.
    destruct (isGreaterOrEqVersion _ _ _ _ _); reflexivity. }
  destruct (read_enough w bl Hw Hlen) as (got & Hr & Hg).
  destruct (int_to_bytes_unsigned_fits got w ltac:(lia)) as (b' & Hb & Hbl).
  exists (mkDataFill (KBool (Some w)) ty sub idx fl otd
                     (VPy (PyInt (int_from_bytes got false)))), b'.
  cbn [initWithRSRC initWithRSRCParse cls prepareRSRCData
       prepareRSRCData_method expectedRSRCSize expectedRSRCSize_method].
  unfold DataFillBool_initWithRSRCParse, DataFillBool_prepareRSRCData,
    DataFillBool_expectedRSRCSize, rbind, lift, ret.
  rewrite Hv. cbn [bool_size cls set_value value int_value py_int bind].
  rewrite Hr, !int_from_bytes_unsigned, Hb. cbn [bind].
  repeat split; try reflexivity. exact Hbl.
Qed.

Lemma decimal_not_None (z : Z) : decimal z <> "None"%string.
Proof.
  unfold decimal.
  destruct (Z.to_int z) as [d|d]; destruct d; cbn; discriminate.
Qed.

(** C9: a pointer node under a file version below 8.6.0.1 is decoded
    from 4 bytes and encoded to 4 bytes; under a version at or above
    8.6.0.1 decode consumes nothing, the value is [None], encode gives
    no byte, expectedSize is 0, and the text form is the marker [None],
    which the text of no integer equals. *)
Theorem DataFillPtr_by_version
        (depth : nat) (df : DataFill ExtValue) (bl : BytesIO) :
  cls df = KPtr ->
  (isSmallerVersion (getFileVersion vi) 8 6 0 1 = true ->
   (tell bl + 4 <= length (getvalue bl))%nat ->
   exists df' z data_buf,
     initWithRSRC vi po ext (S depth) df bl
     = (mkBytesIO (getvalue bl) (tell bl + 4), Ok df')
     /\ value df' = VPy (PyInt z)
     /\ prepareRSRCData vi ext (S depth) false df' = Ok (data_buf, df')
     /\ length data_buf = 4%nat
     /\ expectedRSRCSize vi ext (S depth) df' = Ok (Some 4)
     /\ DataFillPtr_exportXML df' = Some (decimal z))
  /\ (isSmallerVersion (getFileVersion vi) 8 6 0 1 = false ->
      exists df',
        initWithRSRC vi po ext (S depth) df bl = (bl, Ok df')
        /\ value df' = VPy PyNone
        /\ prepareRSRCData vi ext (S depth) false df' = Ok ([], df')
        /\ expectedRSRCSize vi ext (S depth) df' = Ok (Some 0)
        /\ DataFillPtr_exportXML df' = Some "None"%string
        /\ forall z, decimal z <> "None"%string).
Proof.
  intros Hc.
  destruct df as [k ty sub idx fl otd val]. cbn in Hc. subst k.
  split; intro Hver.
  - intro Hlen.
    destruct (read_int_enough 4 bl ltac:(lia) Hlen) as (got & Hr & Hg).
    change (Z.to_nat 4) with 4%nat in Hr, Hg.
    pose proof (int_to_from_bytes_unsigned got) as Hb.
    rewrite Hg in Hb. change (Z.of_nat 4) with 4 in Hb.
    exists (mkDataFill KPtr ty sub idx fl otd
                       (VPy (PyInt (int_from_bytes got false)))),
      (int_from_bytes got false), got.
    cbn [initWithRSRC initWithRSRCParse cls prepareRSRCData
         prepareRSRCData_method expectedRSRCSize expectedRSRCSize_method].
    unfold DataFillPtr_initWithRSRCParse, DataFillPtr_prepareRSRCData,
      DataFillPtr_expectedRSRCSize, UInt32_prepareRSRCData,
      DataFillPtr_exportXML, rbind, ret.
    rewrite Hver, Hr. cbn [set_value value int_value py_int bind].
    rewrite Hb. cbn [bind].
    repeat split; try reflexivity. exact Hg.
  - exists (mkDataFill KPtr ty sub idx fl otd (VPy PyNone)).
    cbn [initWithRSRC initWithRSRCParse cls prepareRSRCData
         prepareRSRCData_method expectedRSRCSize expectedRSRCSize_method].
    unfold DataFillPtr_initWithRSRCParse, DataFillPtr_prepareRSRCData,
      DataFillPtr_expectedRSRCSize, DataFillPtr_exportXML, ret.
    rewrite Hver. cbn [set_value value].
    repeat split; try reflexivity. exact decimal_not_None.
Qed.

End LeafFacts.

(** ** Arrays *)

Lemma read_int_spec (bl : BytesIO) :
  exists v bl',
    read_int 4 false bl = (bl', Ok v)
    /\ getvalue bl' = getvalue bl
    /\ (tell bl <= tell bl' <= tell bl + 4)%nat
    /\ ((tell bl + 4 <= length (getvalue bl))%nat ->
        tell bl' = (tell bl + 4)%nat).
Proof.
  destruct (read_spec 4 bl) as (got & Hr & Hle).
  exists (int_from_bytes got false), (mkBytesIO (getvalue bl) (tell bl + length got)).
  unfold read_int, rbind, ret. rewrite Hr. cbn [getvalue tell].
  repeat split; try lia.
  intro Hlen. destruct (read_enough 4 bl ltac:(lia) Hlen) as (got' & Hr' & Hg).
  rewrite Hr in Hr'. injection Hr' as Hpos _.
  change (Z.to_nat 4) with 4%nat in Hpos. exact Hpos.
Qed.

(** The extents: one 4-byte read per declared dimension, nothing else. *)
Lemma read_dimensions_spec (declared : list Z) (bl : BytesIO) :
  exists dims bl',
    read_dimensions declared bl = (bl', Ok dims)
    /\ length dims = length declared
    /\ getvalue bl' = getvalue bl
    /\ (tell bl <= tell bl' <= tell bl + 4 * length declared)%nat
    /\ ((tell bl + 4 * length declared <= length (getvalue bl))%nat ->
        tell bl' = (tell bl + 4 * length declared)%nat).
Proof.
  revert bl. induction declared as [|d ds IH]; intro bl.
  - exists [], bl. cbn. repeat split; lia.
  - destruct (read_int_spec bl) as (v & bl1 & Hr & Hg & Hb & He).
    destruct (IH bl1) as (vs & bl2 & Hr2 & Hl & Hg2 & Hb2 & He2).
    exists (v :: vs), bl2.
    cbn [read_dimensions]. unfold rbind at 1. rewrite Hr.
    unfold rbind at 1. rewrite Hr2. unfold ret. cbn [length].
    rewrite Hg in He2.
    repeat split; try congruence; try lia.
Qed.

Lemma totItems_of_nonneg (dims : list Z) : 0 <= totItems_of dims.
Proof.
  unfold totItems_of.
  assert (H : forall acc, 0 <= acc ->
            0 <= fold_left (fun tot dim => tot * Z.land dim 2147483647)
                           dims acc).
  { induction dims as [|d ds IH]; intros acc Hacc; cbn; [exact Hacc|].
    apply IH. apply Z.mul_nonneg_nonneg; [exact Hacc|].
    apply Z.land_nonneg. right. lia. }
  apply H. lia.
Qed.

Lemma repeat_read_length {A} (n : nat) (one : Reader A) (bl bl' : BytesIO)
      (l : list A) :
  repeat_read n one bl = (bl', Ok l) -> length l = n.
Proof.
  revert bl bl' l. induction n as [|n IH]; intros bl bl' l; cbn.
  - unfold ret. intro H. injection H as _ <-. reflexivity.
  - unfold rbind at 1. destruct (one bl) as [bl1 [x|e]]; [|discriminate].
    unfold rbind at 1.
    destruct (repeat_read n one bl1) as [bl2 [xs|e]] eqn:E; [|discriminate].
    unfold ret. intro H. injection H as _ <-. cbn.
    f_equal. exact (IH _ _ _ E).
Qed.

Lemma enumerate_from_length (i : Z) (cs : list (Z * TDObject * Z)) :
  length (enumerate_from i cs) = length cs.
Proof.
  revert i. induction cs as [|[[a b] c] cs IH]; intro i; cbn;
    [reflexivity | now rewrite IH].
Qed.

Lemma last_client_some (t : TDObject) :
  clients t <> [] -> exists sub_td_idx sub_td,
    last_client t = Some (sub_td_idx, sub_td).
Proof.
  intro Hne. unfold last_client.
  destruct (rev (clientsEnumerate t)) as [|[[[a b] c] d] r] eqn:E.
  - apply (f_equal (@length _)) in E.
    rewrite length_rev in E. unfold clientsEnumerate in E.
    rewrite enumerate_from_length in E.
    destruct (clients t); [contradiction|discriminate].
  - eauto.
Qed.

(** The descriptor of an array with one client is that client. *)
Lemma last_client_single (t : TDObject) (td_idx f : Z) (elem : TDObject) :
  clients t = [(td_idx, elem, f)] -> last_client t = Some (td_idx, elem).
Proof.
  intro H. unfold last_client, clientsEnumerate. rewrite H. reflexivity.
Qed.

(** The decoder of an array in terms of [totItems_of]: the extents are
    read first, the limit is tested on [totItems_of] of what was read,
    and the child descriptor is decoded that many times. *)
Lemma DataFillArray_initWithRSRCParse_totItems
        {ExtValue : Type} (po : PO)
        (sub_new : Z -> option Z -> TDObject -> result (DataFill ExtValue))
        (sub_initWithRSRC : DataFill ExtValue -> Reader (DataFill ExtValue))
        (df : DataFill ExtValue) (t : TDObject) (bl : BytesIO) :
  td df = Some t ->
  clients t <> [] ->
  exists dims bl1 sub_td_idx sub_td,
    read_dimensions (dimensions t) bl = (bl1, Ok dims)
    /\ length dims = length (dimensions t)
    /\ getvalue bl1 = getvalue bl
    /\ ((tell bl + 4 * length (dimensions t) <= length (getvalue bl))%nat ->
        tell bl1 = (tell bl + 4 * length (dimensions t))%nat)
    /\ last_client t = Some (sub_td_idx, sub_td)
    /\ (totItems_of dims > array_data_limit po ->
        DataFillArray_initWithRSRCParse po sub_new sub_initWithRSRC df bl
        = (bl1, Err (RuntimeError (ClaimsToContain (totItems_of dims)
                                                   (array_data_limit po)))))
    /\ (totItems_of dims <= array_data_limit po ->
        exists bl2 r,
          repeat_read (Z.to_nat (totItems_of dims))
            (decode_child sub_new sub_initWithRSRC sub_td_idx (tm_flags df)
               sub_td
               (fun e => RuntimeError (DataTypeFailed (fullType sub_td) e)))
            bl1 = (bl2, r)
          /\ match r with
             | Ok l =>
                 DataFillArray_initWithRSRCParse po sub_new sub_initWithRSRC
                                                 df bl
                 = (bl2, Ok (set_value (set_cls df (KArray dims)) (VNodes l)))
                 /\ Z.of_nat (length l) = totItems_of dims
             | Err e =>
                 DataFillArray_initWithRSRCParse po sub_new sub_initWithRSRC
                                                 df bl
                 = (bl2, Err e)
             end).
Proof.
  intros Htd Hcl.
  destruct (read_dimensions_spec (dimensions t) bl)
    as (dims & bl1 & Hr & Hl & Hg & _ & He).
  destruct (last_client_some t Hcl) as (sub_td_idx & sub_td & Hlast).
  exists dims, bl1, sub_td_idx, sub_td.
  assert (Hn : (Z.of_nat (length (clients t)) <? 1) = false).
  { apply Z.ltb_ge. destruct (clients t); [contradiction|cbn [length]; lia]. }
  assert (Hunfold :
    DataFillArray_initWithRSRCParse po sub_new sub_initWithRSRC df bl
    = if totItems_of dims >? array_data_limit po
      then (bl1, Err (RuntimeError (ClaimsToContain (totItems_of dims)
                                                    (array_data_limit po))))
      else
        match repeat_read (Z.to_nat (totItems_of dims))
                (decode_child sub_new sub_initWithRSRC sub_td_idx
                   (tm_flags df) sub_td
                   (fun e => RuntimeError (DataTypeFailed (fullType sub_td) e)))
                bl1 with
        | (bl2, Ok l) =>
            (bl2, Ok (set_value (set_cls df (KArray dims)) (VNodes l)))
        | (bl2, Err e) => (bl2, Err e)
        end).
  { unfold DataFillArray_initWithRSRCParse, self_td. rewrite Htd.
    unfold rbind at 1. unfold lift at 1.
    unfold rbind at 1. rewrite Hr, Hn, Hlast.
    destruct (totItems_of dims >? array_data_limit po); [reflexivity|].
    unfold rbind, ret. reflexivity. }
  repeat split; try assumption.
  - intro Hgt. rewrite Hunfold.
    destruct (Z.gtb_spec (totItems_of dims) (array_data_limit po));
      [reflexivity|lia].
  - intro Hle. rewrite Hunfold.
    destruct (Z.gtb_spec (totItems_of dims) (array_data_limit po)); [lia|].
    destruct (repeat_read _ _ bl1) as [bl2 r] eqn:E.
    exists bl2, r. split; [reflexivity|].
    destruct r as [l|e]; [|reflexivity].
    split; [reflexivity|].
    rewrite (repeat_read_length _ _ _ _ _ E).
    rewrite Z2Nat.id; [reflexivity|apply totItems_of_nonneg].
Qed.

(** [totItems_of] is the product of the extents, each with its top bit
    masked off. *)
Lemma fold_left_mul_masked (dims : list Z) (acc : Z) :
  fold_left (fun totItems dim => totItems * Z.land dim 0x7fffffff) dims acc
  = acc * fold_right Z.mul 1 (map (fun dim => Z.land dim 0x7FFFFFFF) dims).
Proof.
  revert acc. induction dims as [|dim dims IH]; intro acc;
    cbn [fold_left fold_right map].
  - lia.
  - rewrite IH. lia.
Qed.

Lemma totItems_of_masked_product (dims : list Z) :
  totItems_of dims
  = fold_right Z.mul 1 (map (fun dim => Z.land dim 0x7FFFFFFF) dims).
Proof.
  unfold totItems_of. rewrite fold_left_mul_masked. lia.
Qed.

(** Every extent that was read is a 4-byte unsigned integer. *)
Lemma read_dimensions_range (declared dims : list Z) (bl bl' : BytesIO) :
  read_dimensions declared bl = (bl', Ok dims) ->
  Forall (fun dim => 0 <= dim < 2 ^ 32) dims.
Proof.
  revert dims bl bl'. induction declared as [|d declared IH];
    intros dims bl bl' H; cbn [read_dimensions] in H.
  - unfold ret in H. injection H as _ <-. constructor.
  - unfold rbind at 1 in H. unfold read_int at 1 in H.
    unfold rbind at 1 in H.
    destruct (read_spec 4 bl) as (got & Hr & Hlen). rewrite Hr in H.
    unfold ret at 1 in H. unfold rbind at 1 in H.
    destruct (read_dimensions declared _) as [bl2 [vals|e]] eqn:E;
      [|discriminate H].
    unfold ret in H. injection H as _ <-.
    constructor; [|exact (IH _ _ _ E)].
    rewrite int_from_bytes_unsigned.
    pose proof (from_bytes_unsigned_range got) as [Hlo Hhi].
    split; [exact Hlo|].
    apply Z.lt_le_trans with (1 := Hhi).
    change (2 ^ 32) with (256 ^ 4).
    apply Z.pow_le_mono_r; [lia|apply Hlen; lia].
Qed.

(** C7: binary decode of an array reads one 4-byte unsigned extent per
    declared dimension, takes as element count the product of the
    extents, each with its top bit masked off ([extent & 0x7FFFFFFF]),
    fails with the size-limit error when that count exceeds
    [array_data_limit], the stream then standing right after the
    extents, and otherwise decodes the child descriptor that many times
    in sequence, the value list having exactly that many elements. *)
Theorem DataFillArray_initWithRSRCParse_count
        {ExtValue : Type} (po : PO)
        (sub_new : Z -> option Z -> TDObject -> result (DataFill ExtValue))
        (sub_initWithRSRC : DataFill ExtValue -> Reader (DataFill ExtValue))
        (df : DataFill ExtValue) (t : TDObject) (bl : BytesIO) :
  td df = Some t ->
  clients t <> [] ->
  exists dims bl1 sub_td_idx sub_td totItems,
    read_dimensions (dimensions t) bl = (bl1, Ok dims)
    /\ length dims = length (dimensions t)
    /\ Forall (fun dim => 0 <= dim < 2 ^ 32) dims
    /\ getvalue bl1 = getvalue bl
    /\ ((tell bl + 4 * length (dimensions t) <= length (getvalue bl))%nat ->
        tell bl1 = (tell bl + 4 * length (dimensions t))%nat)
    /\ last_client t = Some (sub_td_idx, sub_td)
    /\ totItems
       = fold_right Z.mul 1 (map (fun dim => Z.land dim 0x7FFFFFFF) dims)
    /\ (totItems > array_data_limit po ->
        DataFillArray_initWithRSRCParse po sub_new sub_initWithRSRC df bl
        = (bl1, Err (RuntimeError (ClaimsToContain totItems
                                                   (array_data_limit po)))))
    /\ (totItems <= array_data_limit po ->
        exists bl2 r,
          repeat_read (Z.to_nat totItems)
            (decode_child sub_new sub_initWithRSRC sub_td_idx (tm_flags df)
               sub_td
               (fun e => RuntimeError (DataTypeFailed (fullType sub_td) e)))
            bl1 = (bl2, r)
          /\ match r with
             | Ok l =>
                 DataFillArray_initWithRSRCParse po sub_new sub_initWithRSRC
                                                 df bl
                 = (bl2, Ok (set_value (set_cls df (KArray dims)) (VNodes l)))
                 /\ Z.of_nat (length l) = totItems
             | Err e =>
                 DataFillArray_initWithRSRCParse po sub_new sub_initWithRSRC
                                                 df bl
                 = (bl2, Err e)
             end).
Proof.
  intros Htd Hcl.
  destruct (DataFillArray_initWithRSRCParse_totItems
              po sub_new sub_initWithRSRC df t bl Htd Hcl)
    as (dims & bl1 & sub_td_idx & sub_td & Hr & Hl & Hg & He & Hlast
        & Hgt & Hle).
  exists dims, bl1, sub_td_idx, sub_td, (totItems_of dims).
  split; [exact Hr|]. split; [exact Hl|].
  split; [exact (read_dimensions_range _ _ _ _ Hr)|].
  split; [exact Hg|]. split; [exact He|]. split; [exact Hlast|].
  split; [apply totItems_of_masked_product|].
  split; assumption.
Qed.

(** ** Measurement data *)

(** C3 (what the code does): below version 7.0.0.2 binary decode of a
    measurement-data node ends in [NameError], since the message of the
    intended [NotImplementedError] names the undefined [sub_td]; at or
    above that version a flavor outside the listed ones ends in
    [NotImplementedError].  In both cases the stream is where it was. *)
Theorem DataFillMeasureData_decode_failures
        {ExtValue : Type} (vi : VI) (po : PO) (ext : External ExtValue)
        (depth : nat) (df : DataFill ExtValue) (bl : BytesIO)
        (c : option TDObject) :
  cls df = KMeasureData c ->
  (isSmallerVersion (getFileVersion vi) 7 0 0 2 = true ->
   initWithRSRC vi po ext (S depth) df bl = (bl, Err (NameError "sub_td")))
  /\ (isSmallerVersion (getFileVersion vi) 7 0 0 2 = false ->
      forall code, tdSubType df = FlavorSubType (OtherFlavor code) ->
      initWithRSRC vi po ext (S depth) df bl
      = (bl, Err (NotImplementedError UnsupportedFlavor))).
Proof.
  intro Hc. destruct df as [k ty sub idx fl otd val]. cbn in Hc. subst k.
  cbn [initWithRSRC initWithRSRCParse cls].
  unfold DataFillMeasureData_initWithRSRCParse,
    DataFillMeasureData_initVersion, rbind, lift.
  split.
  - intros ->. reflexivity.
  - intros -> code Hsub. cbn in Hsub. subst sub. reflexivity.
Qed.

(** ** User-defined tag refnums *)

Lemma rbind_ok {A B} (m : Reader A) (k : A -> Reader B)
      (bl bl1 : BytesIO) (a : A) :
  m bl = (bl1, Ok a) -> rbind m k bl = k a bl1.
Proof. intro H. unfold rbind. rewrite H. reflexivity. Qed.

Lemma read_ok (size : Z) (bl : BytesIO) :
  exists got bl', read size bl = (bl', Ok got).
Proof. unfold read. eauto. Qed.

Lemma read_int_ok (size : Z) (signed : bool) (bl : BytesIO) :
  exists v bl', read_int size signed bl = (bl', Ok v).
Proof.
  destruct (read_ok size bl) as (got & bl' & H).
  unfold read_int. rewrite (rbind_ok _ _ _ _ _ H). unfold ret. eauto.
Qed.

(** One step of a decoder whose next action is a read: reads never
    raise. *)
Ltac step_read :=
  match goal with
  | |- context [rbind (read_int ?s ?f) ?k ?bl] =>
      let v := fresh "v" in
      let b := fresh "bl" in
      let H := fresh "H" in
      destruct (read_int_ok s f bl) as (v & b & H);
      rewrite (rbind_ok (read_int s f) k bl b v H); clear H; cbv beta
  | |- context [rbind (read ?s) ?k ?bl] =>
      let v := fresh "got" in
      let b := fresh "bl" in
      let H := fresh "H" in
      destruct (read_ok s bl) as (v & b & H);
      rewrite (rbind_ok (read s) k bl b v H); clear H; cbv beta
  end.

Lemma lstr_bytes_ok (v : bytes) :
  Z.of_nat (length v) < 2 ^ 32 ->
  exists l, lstr_bytes (PyBytes v) = Ok (l ++ v) /\ length l = 4%nat.
Proof.
  intro Hlen. unfold lstr_bytes, py_len, bind, int_to_bytes.
  destruct (Z.ltb_spec 4 0); [lia|].
  destruct (Z.leb_spec 0 (Z.of_nat (length v))); [|lia].
  change (256 ^ 4) with (2 ^ 32).
  destruct (Z.ltb_spec (Z.of_nat (length v)) (2 ^ 32)); [|lia].
  cbn [andb]. eexists. split; [reflexivity|].
  rewrite be_bytes_length. reflexivity.
Qed.

Section TagRefnumFacts.

Context {ExtValue : Type}.
Variable vi : VI.
Variable po : PO.
Variable ext : External ExtValue.

(** Binary decode of a float tag refnum always succeeds and stores an
    integer in [usrdef3]. *)
Lemma DataFillUDTagRefnum_decode_float_tag
      (df : DataFill ExtValue) (t : TDObject) (bl : BytesIO) :
  td df = Some t ->
  refType t = UsrDefTagFlt ->
  exists bl' v s1 s2 z s4,
    DataFillUDTagRefnum_initWithRSRCParse vi df bl
    = (bl', Ok (set_value
                  (set_cls df (KUDTagRefnum (PyBytes s1) (PyBytes s2)
                                            (PyInt z) (PyBytes s4)))
                  (VPy (PyBytes v)))).
Proof.
  intros Htd Hrt. unfold DataFillUDTagRefnum_initWithRSRCParse.
  step_read. step_read.
  assert (Hpad : exists got bl',
             (if in_padding_window (getFileVersion vi)
              then read 1 else ret []) bl1 = (bl', Ok got)).
  { destruct (in_padding_window (getFileVersion vi)).
    - apply read_ok.
    - unfold ret. eauto. }
  destruct Hpad as (pad & bl2 & Hpad).
  rewrite (rbind_ok _ _ _ _ _ Hpad). cbv beta.
  unfold self_td. rewrite Htd.
  rewrite (rbind_ok (lift (Ok t)) _ bl2 bl2 t eq_refl). cbv beta.
  rewrite Hrt. cbn [is_UsrDefTagFlt].
  step_read. step_read. step_read. step_read. step_read. step_read.
  step_read.
  unfold ret. eauto 10.
Qed.

(** Binary encode of a float tag refnum whose [usrdef3] is an integer. *)
Lemma DataFillUDTagRefnum_prepare_int_usrdef3
      (df : DataFill ExtValue) (t : TDObject) (u1 u2 u4 : pyval) (z : Z) :
  td df = Some t ->
  refType t = UsrDefTagFlt ->
  (forall r,
      DataFillUDTagRefnum_prepareRSRCData vi u1 u2 (PyInt z) u4 df <> Ok r)
  /\ (forall v s1 s2,
         value df = VPy (PyBytes v) ->
         u1 = PyBytes s1 -> u2 = PyBytes s2 ->
         Z.of_nat (length v) < 2 ^ 32 ->
         Z.of_nat (length s1) < 2 ^ 32 ->
         Z.of_nat (length s2) < 2 ^ 32 ->
         DataFillUDTagRefnum_prepareRSRCData vi u1 u2 (PyInt z) u4 df
         = Err TypeError).
Proof.
  intros Htd Hrt. unfold DataFillUDTagRefnum_prepareRSRCData, self_td.
  rewrite Htd. split.
  - intro r. destruct (value df) as [p| | | |]; try discriminate.
    destruct (lstr_bytes p); [|discriminate]. cbn [bind].
    rewrite Hrt. cbn [is_UsrDefTagFlt].
    destruct (lstr_bytes u1); [|discriminate]. cbn [bind].
    destruct (lstr_bytes u2); discriminate.
  - intros v s1 s2 -> -> -> H0 H1 H2.
    destruct (lstr_bytes_ok _ H0) as (l0 & -> & _). cbn [bind].
    rewrite Hrt. cbn [is_UsrDefTagFlt].
    destruct (lstr_bytes_ok _ H1) as (l1 & -> & _). cbn [bind].
    destruct (lstr_bytes_ok _ H2) as (l2 & -> & _). reflexivity.
Qed.

(** C6 (what the code does): a tag refnum node of the float tag kind
    that binary decode has filled holds [usrdef3] as an integer, and
    binary encode of that node never returns a buffer: after the two
    length-prefixed strings it evaluates [len(self.usrdef3)], which
    raises [TypeError]. *)
Theorem DataFillUDTagRefnum_float_tag_encode_raises
        (depth depth' : nat) (df df' : DataFill ExtValue) (t : TDObject)
        (bl bl' : BytesIO) (u1 u2 u3 u4 : pyval) :
  cls df = KUDTagRefnum u1 u2 u3 u4 ->
  td df = Some t ->
  refType t = UsrDefTagFlt ->
  initWithRSRC vi po ext (S depth) df bl = (bl', Ok df') ->
  exists v s1 s2 z s4,
    value df' = VPy (PyBytes v)
    /\ cls df' = KUDTagRefnum (PyBytes s1) (PyBytes s2) (PyInt z) (PyBytes s4)
    /\ (forall r, prepareRSRCData vi ext depth' false df' <> Ok r)
    /\ (Z.of_nat (length v) < 2 ^ 32 ->
        Z.of_nat (length s1) < 2 ^ 32 ->
        Z.of_nat (length s2) < 2 ^ 32 ->
        prepareRSRCData vi ext (S depth') false df' = Err TypeError).
Proof.
  intros Hc Htd Hrt Hdec.
  destruct (DataFillUDTagRefnum_decode_float_tag df t bl Htd Hrt)
    as (bl1 & v & s1 & s2 & z & s4 & Hshape).
  destruct df as [k ty sub idx fl otd val]. cbn in Hc, Htd. subst k otd.
  cbn [initWithRSRC initWithRSRCParse cls] in Hdec.
  rewrite Hshape in Hdec. injection Hdec as _ <-.
  cbn [set_value set_cls].
  exists v, s1, s2, z, s4.
  split; [reflexivity|]. split; [reflexivity|].
  pose proof (DataFillUDTagRefnum_prepare_int_usrdef3
                (mkDataFill (KUDTagRefnum (PyBytes s1) (PyBytes s2) (PyInt z)
                                          (PyBytes s4))
                            ty sub idx fl (Some t) (VPy (PyBytes v)))
                t (PyBytes s1) (PyBytes s2) (PyBytes s4) z eq_refl Hrt)
    as [Hnever Htype].
  split.
  - intros r. destruct depth' as [|d]; [discriminate|].
    cbn [prepareRSRCData prepareRSRCData_method cls]. apply Hnever.
  - intros H0 H1 H2.
    cbn [prepareRSRCData prepareRSRCData_method cls].
    apply (Htype v s1 s2); auto.
Qed.

End TagRefnumFacts.

(** ** Special clusters *)

(** Whatever the flag word, the loop of [SpecialDSTMCluster.setTD]
    calls [setTD] on no child: it tests position 0 for every client,
    position 0 is never special, and the counter never moves. *)
Lemma SpecialDSTMCluster_setTD_loop_binds_nothing
      {ExtValue : Type} (vi : VI)
      (sub_setTD : DataFill ExtValue -> TDObject -> Z -> option Z ->
                   result (DataFill ExtValue))
      (cs : list (Z * Z * TDObject * Z)) (skipNextEntry : bool)
      (l : list (DataFill ExtValue)) (f : Z) :
  SpecialDSTMCluster_setTD_loop vi sub_setTD cs 0 skipNextEntry l (Some f)
  = Ok l.
Proof.
  induction cs as [|[[[cli_bad_idx td_idx] sub_td] td_flags] cs IH].
  - reflexivity.
  - cbn [SpecialDSTMCluster_setTD_loop].
    rewrite isSpecialDSTMClusterElement_0. cbn [bind negb]. exact IH.
Qed.

(** C2 (what the code does): with an 8-client descriptor and flag
    0x0010, decode creates 3 children for the clients at positions 1, 2
    and 3 (2 children, for positions 2 and 3, when 0x0200 is set as
    well); binding the decoded node to another 8-client descriptor then
    succeeds and leaves every child bound where it was, instead of
    binding the children to positions 1, 2 and 3 of that descriptor. *)
Theorem SpecialDSTMCluster_setTD_rebinds_no_child :
  let vi := file_version 14 0 0 0 in
  let bl := stream [x01; x02; x03; x04; x05] in
  exists df bl',
    decode_new_special vi default_po no_ext 2 0 (Some 0x0010)
                       (cluster8_td 10) bl = (bl', Ok df)
    /\ children_indices df = [11; 12; 13]
    /\ tell bl' = 3%nat
    /\ (exists df2 bl2,
           decode_new_special vi default_po no_ext 2 0 (Some 0x0210)
                              (cluster8_td 10) bl = (bl2, Ok df2)
           /\ children_indices df2 = [12; 13]
           /\ tell bl2 = 2%nat)
    /\ (exists df',
           setTD vi 2 df (cluster8_td 20) 0 (Some 0x0010) = Ok df'
           /\ td df' = Some (cluster8_td 20)
           /\ value df' = value df
           /\ children_indices df' = [11; 12; 13]).
Proof.
  cbv zeta. eexists _, _.
  split; [vm_compute; reflexivity|].
  split; [reflexivity|]. split; [reflexivity|].
  split.
  - eexists _, _. split; [vm_compute; reflexivity|].
    split; reflexivity.
  - eexists. split; [vm_compute; reflexivity|].
    split; [reflexivity|]. split; reflexivity.
Qed.

(** ** Size prediction against the encoder *)

(** C4 (what the code does): [expectedRSRCSize] of an I/O refnum of a
    tag kind at version 6.0.0 or later, and of a class-instance refnum,
    raises where [prepareRSRCData] returns a buffer, and for a block
    whose value has not the declared size it returns the length of the
    value, not the length of the buffer that [prepareRSRCData]
    returns. *)
Theorem expectedRSRCSize_against_prepareRSRCData :
  let vi := file_version 14 0 0 0 in
  (exists df bl' data_buf,
      decode_new vi default_po no_ext 2 0 (Some 0) (refnum_td IVIRef)
                 (stream [x00; x00; x00; x02; x61; x62]) = (bl', Ok df)
      /\ prepareRSRCData vi no_ext 1 false df = Ok (data_buf, df)
      /\ length data_buf = 6%nat
      /\ expectedRSRCSize vi no_ext 1 df = Err (UnboundLocalError "data_buf"))
  /\ (exists df bl' data_buf,
         decode_new vi default_po no_ext 2 0 (Some 0) (refnum_td UDClassInst)
                    (stream [x00; x00; x00; x01; x03; x6c; x69; x62;
                             x00; x00; x00; x01; x31]) = (bl', Ok df)
         /\ prepareRSRCData vi no_ext 1 false df = Ok (data_buf, df)
         /\ length data_buf = 13%nat
         /\ expectedRSRCSize vi no_ext 1 df
            = Err (UnboundLocalError "str_len"))
  /\ (exists data_buf df',
         expectedRSRCSize vi no_ext 1 short_block = Ok (Some 3)
         /\ prepareRSRCData vi no_ext 1 false short_block
            = Ok (data_buf, df')
         /\ length data_buf = 4%nat).
Proof.
  cbv zeta. split; [|split].
  - eexists _, _, _. split; [vm_compute; reflexivity|].
    split; [vm_compute; reflexivity|]. split; reflexivity.
  - eexists _, _, _. split; [vm_compute; reflexivity|].
    split; [vm_compute; reflexivity|]. split; reflexivity.
  - eexists _, _. split; [reflexivity|].
    split; [vm_compute; reflexivity|]. reflexivity.
Qed.

(** ** Round trips *)

Lemma read_at (pre b rest : bytes) :
  read (Z.of_nat (length b)) (mkBytesIO (pre ++ b ++ rest) (length pre))
  = (mkBytesIO (pre ++ b ++ rest) (length pre + length b), Ok b).
Proof.
  unfold read. cbn [getvalue tell].
  destruct (Z.ltb_spec (Z.of_nat (length b)) 0); [lia|].
  rewrite Nat2Z.id, skipn_app, Nat.sub_diag, skipn_all. cbn [skipn app].
  rewrite firstn_app, Nat.sub_diag, firstn_all. cbn [firstn].
  rewrite app_nil_r. reflexivity.
Qed.



(** The extents that [dims_bytes] wrote are read back one by one. *)
Lemma read_dimensions_dims_bytes
      (declared dims : list Z) (d pre rest : bytes) :
  length declared = length dims ->
  dims_bytes dims = Ok d ->
  read_dimensions declared (mkBytesIO (pre ++ d ++ rest) (length pre))
  = (mkBytesIO (pre ++ d ++ rest) (length pre + length d), Ok dims).
Proof.
  revert declared d pre.
  induction dims as [|dim dims IH]; intros declared d pre Hl Hd.
  - destruct declared; [|discriminate]. cbn in Hd. injection Hd as <-.
    cbn. unfold ret. rewrite Nat.add_0_r. reflexivity.
  - destruct declared as [|x declared]; [discriminate|].
    cbn [dims_bytes] in Hd.
    destruct (int_to_bytes dim 4 false) as [b|] eqn:Eb; [|discriminate].
    cbn [bind] in Hd.
    destruct (dims_bytes dims) as [bs|] eqn:Ebs; [|discriminate].
    cbn [bind] in Hd. injection Hd as <-.
    pose proof (int_to_bytes_length _ _ _ _ Eb) as Hb.
    pose proof (int_from_to_bytes _ _ _ _ Eb) as Hf.
    cbn [read_dimensions]. unfold read_int.
    rewrite <- Hb, <- app_assoc.
    unfold rbind at 1. unfold rbind at 1. rewrite read_at.
    unfold ret at 1. rewrite Hf.
    replace (pre ++ b ++ bs ++ rest) with ((pre ++ b) ++ bs ++ rest)
      by (rewrite <- app_assoc; reflexivity).
    unfold rbind. rewrite <- (length_app pre b).
    rewrite (IH declared bs (pre ++ b)); [|cbn in Hl; lia|reflexivity].
    unfold ret. rewrite !length_app, Nat.add_assoc. reflexivity.
Qed.

Section ArrayRoundTrip.

Context {ExtValue : Type}.
Variable po : PO.
Variable sub_new : Z -> option Z -> TDObject -> result (DataFill ExtValue).
Variable sub_initWithRSRC : DataFill ExtValue -> Reader (DataFill ExtValue).
Variable sub_prepareRSRCData :
  bool -> DataFill ExtValue -> result (bytes * DataFill ExtValue).



End ArrayRoundTrip.

(** C5 (what the code does): a tag refnum of the float tag kind that
    binary decode filled from 24 well-formed bytes cannot be encoded:
    [prepareRSRCData] raises [TypeError], so no decode of its encoding
    can give the value back. *)
Theorem float_tag_refnum_has_no_binary_round_trip :
  let vi := file_version 14 0 0 0 in
  exists df bl',
    decode_new vi default_po no_ext 2 0 (Some 0) (refnum_td UsrDefTagFlt)
               (stream float_tag_bytes) = (bl', Ok df)
    /\ tell bl' = 24%nat
    /\ cls df = KUDTagRefnum (PyBytes [x62]) (PyBytes [x63]) (PyInt 7)
                             (PyBytes [x64])
    /\ value df = VPy (PyBytes [x61])
    /\ prepareRSRCData vi no_ext 1 false df = Err TypeError.
Proof.
  cbv zeta. eexists _, _. split; [vm_compute; reflexivity|].
  split; [reflexivity|]. split; [reflexivity|]. split; reflexivity.
Qed.

(** * The properties at concrete inputs *)

(** C1 as the spec words it fails: under version 9.0.0.0 and flag
    0x0004 position 1 is not special and position 2 is; under version
    10.0.0.2 position 2 is not special and position 1 is. *)
Lemma isSpecialDSTMClusterElement_flag_0x0004_counterexample :
  isSmallerVersion (getFileVersion (file_version 9 0 0 0)) 10 0 0 2 = true
  /\ isSpecialDSTMClusterElement (file_version 9 0 0 0) 1 (Some 0x0004)
     = Ok false
  /\ isSpecialDSTMClusterElement (file_version 9 0 0 0) 2 (Some 0x0004)
     = Ok true
  /\ isSmallerVersion (getFileVersion (file_version 10 0 0 2)) 10 0 0 2
     = false
  /\ isSpecialDSTMClusterElement (file_version 10 0 0 2) 2 (Some 0x0004)
     = Ok false
  /\ isSpecialDSTMClusterElement (file_version 10 0 0 2) 1 (Some 0x0004)
     = Ok true.
Proof. repeat split; reflexivity. Qed.

Lemma isSpecialDSTMClusterElement_flag_0x0004_witness :
  Z.land 0x0004 0x0004 <> 0
  /\ isSpecialDSTMClusterElement (file_version 9 0 0 0) 2 (Some 0x0004)
     = Ok true.
Proof.
  split; [discriminate|].
  exact (isSpecialDSTMClusterElement_flag_0x0004
           (file_version 9 0 0 0) 2 0x0004 ltac:(discriminate)).
Defined.

Lemma DataFillMeasureData_decode_failures_witness :
  cls (fresh_measure Int16Waveform) = KMeasureData None
  /\ initWithRSRC (file_version 6 0 0 0) default_po no_ext 1
                  (fresh_measure Int16Waveform) (stream [x00; x01])
     = (stream [x00; x01], Err (NameError "sub_td"))
  /\ initWithRSRC (file_version 8 0 0 0) default_po no_ext 1
                  (fresh_measure (OtherFlavor 99)) (stream [x00; x01])
     = (stream [x00; x01], Err (NotImplementedError UnsupportedFlavor)).
Proof.
  split; [reflexivity|]. split.
  - exact (proj1 (DataFillMeasureData_decode_failures
                    (file_version 6 0 0 0) default_po no_ext 0
                    (fresh_measure Int16Waveform) (stream [x00; x01])
                    None eq_refl) eq_refl).
  - exact (proj2 (DataFillMeasureData_decode_failures
                    (file_version 8 0 0 0) default_po no_ext 0
                    (fresh_measure (OtherFlavor 99)) (stream [x00; x01])
                    None eq_refl) eq_refl 99 eq_refl).
Defined.

Lemma DataFillUDTagRefnum_float_tag_encode_raises_witness :
  exists df' bl',
    cls fresh_float_tag = KUDTagRefnum PyNone PyNone PyNone PyNone
    /\ td fresh_float_tag = Some (refnum_td UsrDefTagFlt)
    /\ refType (refnum_td UsrDefTagFlt) = UsrDefTagFlt
    /\ initWithRSRC (file_version 14 0 0 0) default_po no_ext 1
                    fresh_float_tag (stream float_tag_bytes) = (bl', Ok df')
    /\ forall r,
        prepareRSRCData (file_version 14 0 0 0) no_ext 1 false df' <> Ok r.
Proof.
  assert (Hd : exists df' bl',
             initWithRSRC (file_version 14 0 0 0) default_po no_ext 1
                          fresh_float_tag (stream float_tag_bytes)
             = (bl', Ok df'))
    by (eexists _, _; vm_compute; reflexivity).
  destruct Hd as (df' & bl' & Hd). exists df', bl'.
  split; [reflexivity|]. split; [reflexivity|]. split; [reflexivity|].
  split; [exact Hd|].
  destruct (DataFillUDTagRefnum_float_tag_encode_raises
              (file_version 14 0 0 0) default_po no_ext 0 1
              fresh_float_tag df' (refnum_td UsrDefTagFlt)
              (stream float_tag_bytes) bl' PyNone PyNone PyNone PyNone
              eq_refl eq_refl eq_refl Hd)
    as (v & s1 & s2 & z & s4 & _ & _ & Hnever & _).
  exact Hnever.
Defined.

Lemma DataFillArray_initWithRSRCParse_count_witness :
  td fresh_array_2x3 = Some (array_td 2 7 (leaf_td NumInt16))
  /\ clients (array_td 2 7 (leaf_td NumInt16)) <> []
  /\ (exists l bl',
         initWithRSRC (file_version 14 0 0 0) default_po no_ext 2
                      fresh_array_2x3 (stream array_2x3_bytes)
         = (bl', Ok (set_value (set_cls fresh_array_2x3 (KArray [2; 3]))
                               (VNodes l)))
         /\ length l = 6%nat
         /\ tell bl' = 20%nat)
  /\ (exists l bl',
         initWithRSRC (file_version 14 0 0 0) default_po no_ext 2
                      fresh_array_2x3
                      (stream ([x80; x00; x00; x02; x80; x00; x00; x03]
                               ++ skipn 8 array_2x3_bytes))
         = (bl', Ok (set_value
                       (set_cls fresh_array_2x3
                                (KArray [0x80000002; 0x80000003]))
                       (VNodes l)))
         /\ length l = 6%nat
         /\ tell bl' = 20%nat)
  /\ (exists bl',
         initWithRSRC (file_version 14 0 0 0) default_po no_ext 2
                      fresh_array_2x3
                      (stream ([x00; x00; x03; xe9; x80; x00; x00; x01]
                               ++ skipn 8 array_2x3_bytes))
         = (bl', Err (RuntimeError (ClaimsToContain 1001 1000)))
         /\ tell bl' = 8%nat).
Proof.
  split; [reflexivity|]. split; [discriminate|].
  split; [|split].
  - destruct (DataFillArray_initWithRSRCParse_count
                default_po
                (newDataFillObjectWithTD (file_version 14 0 0 0) 1)
                (initWithRSRC (file_version 14 0 0 0) default_po no_ext 1)
                fresh_array_2x3 (array_td 2 7 (leaf_td NumInt16))
                (stream array_2x3_bytes) eq_refl ltac:(discriminate))
      as (dims & bl1 & sub_td_idx & sub_td & totItems & Hr & _ & _ & _ & _
          & Hlast & Htot & _ & Hok).
    vm_compute in Hr. injection Hr as <- <-.
    vm_compute in Hlast. injection Hlast as <- <-.
    vm_compute in Htot. subst totItems.
    destruct (Hok ltac:(vm_compute; discriminate))
      as (bl2 & r & Hrep & Hres).
    vm_compute in Hrep. injection Hrep as <- <-.
    destruct Hres as [Hres Hlen].
    eexists _, _. split; [exact Hres|]. split; reflexivity.
  - destruct (DataFillArray_initWithRSRCParse_count
                default_po
                (newDataFillObjectWithTD (file_version 14 0 0 0) 1)
                (initWithRSRC (file_version 14 0 0 0) default_po no_ext 1)
                fresh_array_2x3 (array_td 2 7 (leaf_td NumInt16))
                (stream ([x80; x00; x00; x02; x80; x00; x00; x03]
                         ++ skipn 8 array_2x3_bytes))
                eq_refl ltac:(discriminate))
      as (dims & bl1 & sub_td_idx & sub_td & totItems & Hr & _ & _ & _ & _
          & Hlast & Htot & _ & Hok).
    vm_compute in Hr. injection Hr as <- <-.
    vm_compute in Hlast. injection Hlast as <- <-.
    vm_compute in Htot. subst totItems.
    destruct (Hok ltac:(vm_compute; discriminate))
      as (bl2 & r & Hrep & Hres).
    vm_compute in Hrep. injection Hrep as <- <-.
    destruct Hres as [Hres Hlen].
    eexists _, _. split; [exact Hres|]. split; reflexivity.
  - destruct (DataFillArray_initWithRSRCParse_count
                default_po
                (newDataFillObjectWithTD (file_version 14 0 0 0) 1)
                (initWithRSRC (file_version 14 0 0 0) default_po no_ext 1)
                fresh_array_2x3 (array_td 2 7 (leaf_td NumInt16))
                (stream ([x00; x00; x03; xe9; x80; x00; x00; x01]
                         ++ skipn 8 array_2x3_bytes))
                eq_refl ltac:(discriminate))
      as (dims & bl1 & sub_td_idx & sub_td & totItems & Hr & _ & _ & _ & _
          & _ & Htot & Hgt & _).
    vm_compute in Hr. injection Hr as <- <-.
    vm_compute in Htot. subst totItems.
    eexists. split; [exact (Hgt ltac:(vm_compute; reflexivity))|].
    reflexivity.
Defined.

Lemma DataFillBool_width_witness :
  (exists df' data_buf,
      initWithRSRC (file_version 4 0 0 0) default_po no_ext 1
                   (fresh_bool Boolean) (stream [x00; x01; x02])
      = (mkBytesIO [x00; x01; x02] 2, Ok df')
      /\ prepareRSRCData (file_version 4 0 0 0) no_ext 1 false df'
         = Ok (data_buf, df')
      /\ Z.of_nat (length data_buf) = 2)
  /\ (exists df' data_buf,
         initWithRSRC (file_version 5 0 0 0) default_po no_ext 1
                      (fresh_bool Boolean) (stream [x00; x01; x02])
         = (mkBytesIO [x00; x01; x02] 1, Ok df')
         /\ prepareRSRCData (file_version 5 0 0 0) no_ext 1 false df'
            = Ok (data_buf, df')
         /\ Z.of_nat (length data_buf) = 1)
  /\ (exists df' data_buf,
         initWithRSRC (file_version 5 0 0 0) default_po no_ext 1
                      (fresh_bool BooleanU16) (stream [x00; x01; x02])
         = (mkBytesIO [x00; x01; x02] 2, Ok df')
         /\ prepareRSRCData (file_version 5 0 0 0) no_ext 1 false df'
            = Ok (data_buf, df')
         /\ Z.of_nat (length data_buf) = 2).
Proof.
  split; [|split].
  - destruct (DataFillBool_width (file_version 4 0 0 0) default_po no_ext 0
                (fresh_bool Boolean) (stream [x00; x01; x02]) None 2
                eq_refl (or_intror (conj eq_refl eq_refl))
                ltac:(cbn; lia))
      as (df' & b & H1 & _ & H3 & H4 & _).
    exists df', b. split; [exact H1|]. split; assumption.
  - destruct (DataFillBool_width (file_version 5 0 0 0) default_po no_ext 0
                (fresh_bool Boolean) (stream [x00; x01; x02]) None 1
                eq_refl (or_intror (conj eq_refl eq_refl))
                ltac:(cbn; lia))
      as (df' & b & H1 & _ & H3 & H4 & _).
    exists df', b. split; [exact H1|]. split; assumption.
  - destruct (DataFillBool_width (file_version 5 0 0 0) default_po no_ext 0
                (fresh_bool BooleanU16) (stream [x00; x01; x02]) None 2
                eq_refl (or_introl (conj eq_refl eq_refl))
                ltac:(cbn; lia))
      as (df' & b & H1 & _ & H3 & H4 & _).
    exists df', b. split; [exact H1|]. split; assumption.
Defined.

Lemma DataFillPtr_by_version_witness :
  cls fresh_ptr = KPtr
  /\ (exists df' z data_buf,
         initWithRSRC (file_version 8 5 0 0) default_po no_ext 1 fresh_ptr
                      (stream [x00; x00; x01; x02; x03])
         = (mkBytesIO [x00; x00; x01; x02; x03] 4, Ok df')
         /\ value df' = VPy (PyInt z)
         /\ prepareRSRCData (file_version 8 5 0 0) no_ext 1 false df'
            = Ok (data_buf, df')
         /\ length data_buf = 4%nat)
  /\ (exists df',
         initWithRSRC (file_version 8 6 0 1) default_po no_ext 1 fresh_ptr
                      (stream [x00; x00; x01; x02; x03])
         = (stream [x00; x00; x01; x02; x03], Ok df')
         /\ prepareRSRCData (file_version 8 6 0 1) no_ext 1 false df'
            = Ok ([], df')
         /\ DataFillPtr_exportXML df' = Some "None"%string).
Proof.
  split; [reflexivity|]. split.
  - destruct (proj1 (DataFillPtr_by_version
                       (file_version 8 5 0 0) default_po no_ext 0 fresh_ptr
                       (stream [x00; x00; x01; x02; x03]) eq_refl)
                eq_refl ltac:(cbn; lia))
      as (df' & z & b & H1 & H2 & H3 & H4 & _).
    exists df', z, b. repeat split; assumption.
  - destruct (proj2 (DataFillPtr_by_version
                       (file_version 8 6 0 1) default_po no_ext 0 fresh_ptr
                       (stream [x00; x00; x01; x02; x03]) eq_refl)
                eq_refl)
      as (df' & H1 & _ & H3 & _ & H5 & _).
    exists df'. repeat split; assumption.
Defined.

Lemma DataFillBlock_prepareRSRCData_overwrites_value_witness :
  (exists v' df',
      prepareRSRCData (file_version 14 0 0 0) no_ext 1 false short_block
      = Ok (v', df')
      /\ v' = [x01; x02; x03; x00]
      /\ value df' = VPy (PyBytes v')
      /\ expectedRSRCSize (file_version 14 0 0 0) no_ext 1 df' = Ok (Some 4))
  /\ (exists v' df',
         prepareRSRCData (file_version 14 0 0 0) no_ext 1 false long_block
         = Ok (v', df')
         /\ v' = [x01; x02; x03; x04]
         /\ value df' = VPy (PyBytes v')
         /\ expectedRSRCSize (file_version 14 0 0 0) no_ext 1 df'
            = Ok (Some 4)).
Proof.
  split.
  - destruct (DataFillBlock_prepareRSRCData_overwrites_value
                (file_version 14 0 0 0) no_ext 0 short_block (block_td 4)
                [x01; x02; x03] eq_refl eq_refl eq_refl
                ltac:(cbn; lia) ltac:(cbn; lia))
      as (v' & df' & H1 & H2 & H3 & _ & _ & _ & _ & H8).
    exists v', df'. repeat split; assumption.
  - destruct (DataFillBlock_prepareRSRCData_overwrites_value
                (file_version 14 0 0 0) no_ext 0 long_block (block_td 4)
                [x01; x02; x03; x04; x05] eq_refl eq_refl eq_refl
                ltac:(cbn; lia) ltac:(cbn; lia))
      as (v' & df' & H1 & H2 & H3 & _ & _ & _ & _ & H8).
    exists v', df'. repeat split; assumption.
Defined.

(** * Further properties *)

(** * Further properties *)

(** ** Decoding only moves forward *)

Lemma forward_ret {A} (a : A) : forward (ret a).
Proof. intros bl bl' r H. injection H as <- _. split; [reflexivity|lia]. Qed.

Lemma forward_raise {A} (e : exn) : forward (@raise A e).
Proof. intros bl bl' r H. injection H as <- _. split; [reflexivity|lia]. Qed.

Lemma forward_lift {A} (m : result A) : forward (lift m).
Proof. intros bl bl' r H. injection H as <- _. split; [reflexivity|lia]. Qed.

Lemma forward_get_pos : forward get_pos.
Proof. intros bl bl' r H. injection H as <- _. split; [reflexivity|lia]. Qed.

Lemma forward_read (size : Z) : forward (read size).
Proof.
  intros bl bl' r H. unfold read in H. injection H as <- _.
  cbn [getvalue tell]. split; [reflexivity|lia].
Qed.

Lemma forward_rbind {A B} (m : Reader A) (k : A -> Reader B) :
  forward m -> (forall a, forward (k a)) -> forward (rbind m k).
Proof.
  intros Hm Hk bl bl' r H. unfold rbind in H.
  destruct (m bl) as [bl1 [a|e]] eqn:E.
  - destruct (Hm _ _ _ E) as [Hg Ht]. destruct (Hk a _ _ _ H) as [Hg' Ht'].
    split; [congruence|lia].
  - injection H as <- _. exact (Hm _ _ _ E).
Qed.

Lemma forward_read_int (size : Z) (signed : bool) :
  forward (read_int size signed).
Proof.
  unfold read_int. apply forward_rbind; [apply forward_read|].
  intro. apply forward_ret.
Qed.

Lemma forward_try_except {A} (m : Reader A) (h : exn -> exn) :
  forward m -> forward (try_except m h).
Proof.
  intros Hm bl bl' r H. unfold try_except in H.
  destruct (m bl) as [bl1 [a|e]] eqn:E; injection H as <- _;
    exact (Hm _ _ _ E).
Qed.

Lemma forward_repeat_read {A} (n : nat) (one : Reader A) :
  forward one -> forward (repeat_read n one).
Proof.
  intro H1. induction n as [|n IH]; cbn.
  - apply forward_ret.
  - apply forward_rbind; [exact H1|]. intro.
    apply forward_rbind; [exact IH|]. intro. apply forward_ret.
Qed.

Ltac fwd :=
  repeat match goal with
    | H : forward ?m |- forward ?m => exact H
    | H : forall x, forward (?f x) |- forward (?f _) => apply H
    | |- forward (ret _) => apply forward_ret
    | |- forward (raise _) => apply forward_raise
    | |- forward (lift _) => apply forward_lift
    | |- forward (read _) => apply forward_read
    | |- forward (read_int _ _) => apply forward_read_int
    | |- forward get_pos => apply forward_get_pos
    | |- forward (try_except _ _) => apply forward_try_except
    | |- forward (repeat_read _ _) => apply forward_repeat_read
    | |- forward (rbind _ _) => apply forward_rbind; [| intro]
    | |- forward (if ?c then _ else _) => destruct c
    | |- forward (match ?x with _ => _ end) => destruct x
    end.

Lemma forward_read_dimensions (declared : list Z) :
  forward (read_dimensions declared).
Proof. induction declared as [|d ds IH]; cbn; fwd. Qed.

Section ForwardOnly.

Context {ExtValue : Type}.
Variable vi : VI.
Variable po : PO.
Variable ext : External ExtValue.
Variable sub_new : Z -> option Z -> TDObject -> result (DataFill ExtValue).
Variable sub_initWithRSRC : DataFill ExtValue -> Reader (DataFill ExtValue).

Hypothesis ext_ok : ext_forward ext.
Hypothesis sub_ok : forall df, forward (sub_initWithRSRC df).

Lemma forward_decode_child (idx : Z) (flags : option Z) (sub_td : TDObject)
      (h : exn -> exn) :
  forward (decode_child sub_new sub_initWithRSRC idx flags sub_td h).
Proof. unfold decode_child. fwd. Qed.

Lemma forward_Cluster_init_loop (cs : list (Z * Z * TDObject * Z))
      (flags : option Z) :
  forward (Cluster_init_loop sub_new sub_initWithRSRC cs flags).
Proof.
  induction cs as [|[[[a b] c] d] cs IH]; cbn; fwd.
  apply forward_decode_child.
Qed.

Lemma forward_TypeDef_init_loop (cs : list (Z * Z * TDObject * Z))
      (flags : option Z) :
  forward (TypeDef_init_loop sub_new sub_initWithRSRC cs flags).
Proof.
  induction cs as [|[[[a b] c] d] cs IH]; cbn; fwd.
  apply forward_decode_child.
Qed.

Lemma forward_SpecialDSTMCluster_init_loop
      (cs : list (Z * Z * TDObject * Z)) (skip : bool) (flags : option Z) :
  forward (SpecialDSTMCluster_init_loop vi sub_new sub_initWithRSRC cs skip
                                        flags).
Proof.
  revert skip. induction cs as [|[[[a b] c] d] cs IH]; intro skip; cbn.
  - fwd.
  - apply forward_rbind; [fwd|]. intro special.
    destruct (negb special); [apply IH|].
    destruct skip; [apply IH|].
    apply forward_rbind; [apply forward_decode_child|]. intro.
    apply forward_rbind; [apply IH|]. intro. fwd.
Qed.

(** The path decoder peeks at 4 bytes and seeks back to where it was
    before it hands the stream to the path object. *)
Lemma forward_DataFillPath (df : DataFill ExtValue) :
  forward (DataFillPath_initWithRSRCParse ext df).
Proof.
  destruct ext_ok as [_ Hlv].
  intros bl bl' r H. unfold DataFillPath_initWithRSRCParse in H.
  rewrite (rbind_ok get_pos _ bl bl (tell bl) eq_refl) in H.
  destruct (read_spec 4 bl) as (got & Hr & _).
  rewrite (rbind_ok (read 4) _ _ _ _ Hr) in H.
  assert (Hseek : forall (c : LVclass) (b0 : BytesIO),
             getvalue b0 = getvalue bl ->
             rbind (seek (tell bl))
               (fun _ => x <~ LV_parseRSRCData ext c ;;
                         ret (set_value df (VExt x))) b0 = (bl', r) ->
             getvalue bl' = getvalue bl /\ (tell bl <= tell bl')%nat).
  { intros c b0 Hb0 Hs. unfold rbind at 1 in Hs. unfold seek in Hs.
    assert (Hf : forward (x <~ LV_parseRSRCData ext c ;;
                          ret (set_value df (VExt x)))) by fwd.
    destruct (Hf _ _ _ Hs) as [Hg Ht]. cbn in Hg, Ht.
    split; [congruence|exact Ht]. }
  destruct (bytes_eqb got PTH0).
  - exact (Hseek LVPath0 _ eq_refl H).
  - destruct (bytes_eqb got PTH1 || bytes_eqb got PTH2).
    + exact (Hseek LVPath1 _ eq_refl H).
    + injection H as <- _. cbn. split; [reflexivity|lia].
Qed.

Lemma forward_initWithRSRCParse (df : DataFill ExtValue) :
  forward (initWithRSRCParse vi po ext sub_new sub_initWithRSRC df).
Proof.
  pose proof ext_ok as [Hq Hlv].
  unfold initWithRSRCParse. destruct (cls df).
  all: try (unfold DataFillVoid_initWithRSRCParse,
      DataFillInt_initWithRSRCParse, DataFillFloat_initWithRSRCParse,
      DataFillComplex_initWithRSRCParse, DataFillBool_initWithRSRCParse,
      DataFillString_initWithRSRCParse, DataFillCString_initWithRSRCParse,
      DataFillArrayDataPtr_initWithRSRCParse,
      DataFillSimpleRefnum_initWithRSRCParse,
      DataFillUDRefnum_initWithRSRCParse, DataFillPtrTo_initWithRSRCParse,
      UInt32_initWithRSRCParse, DataFillLVVariant_initWithRSRCParse,
      DataFillComplexFixedPt_initWithRSRCParse,
      DataFillFixedPoint_initWithRSRCParse, read_fixed_point,
      DataFillBlock_initWithRSRCParse, DataFillIORefnum_initWithRSRCParse,
      DataFillUDTagRefnum_initWithRSRCParse,
      DataFillUDClassInst_initWithRSRCParse, DataFillPtr_initWithRSRCParse,
      DataFillExtData_initWithRSRCParse,
      DataFillUnexpected_initWithRSRCParse;
    cbv zeta; solve [fwd; try apply Hlv]).
  - apply forward_DataFillPath.
  - unfold DataFillArray_initWithRSRCParse. fwd.
    + apply forward_read_dimensions.
    + apply forward_decode_child.
  - unfold DataFillCluster_initWithRSRCParse. fwd.
    apply forward_Cluster_init_loop.
  - unfold DataFillMeasureData_initWithRSRCParse. fwd.
    apply forward_decode_child.
  - unfold DataFillRepeatedBlock_initWithRSRCParse. fwd.
    apply forward_decode_child.
  - unfold DataFillTypeDef_initWithRSRCParse. fwd.
    apply forward_TypeDef_init_loop.
  - unfold SpecialDSTMCluster_initWithRSRCParse. fwd.
    apply forward_SpecialDSTMCluster_init_loop.
Qed.

End ForwardOnly.

(** X1: binary decode of a node of any class, at any nesting depth,
    whether it succeeds or raises, leaves the bytes of the stream as
    they are and leaves the position at or after where it started (the
    look at the 4-byte magic of a path is undone by a seek back to the
    start), provided the readers of the collaborating modules do so. *)
Theorem initWithRSRC_forward
        {ExtValue : Type} (vi : VI) (po : PO) (ext : External ExtValue)
        (depth : nat) (df : DataFill ExtValue) :
  ext_forward ext -> forward (initWithRSRC vi po ext depth df).
Proof.
  intro Hext. revert df. induction depth as [|d IH]; intro df; cbn.
  - apply forward_raise.
  - apply forward_initWithRSRCParse; assumption.
Qed.

(** ** Binding *)

Lemma TD_FULL_TYPE_beq_eq (x y : TD_FULL_TYPE) :
  TD_FULL_TYPE_beq x y = true <-> x = y.
Proof.
  split; [apply internal_TD_FULL_TYPE_dec_bl
         | apply internal_TD_FULL_TYPE_dec_lb].
Qed.

Lemma DataFill_setTD_Ok {ExtValue : Type} (df df1 : DataFill ExtValue)
      (t : TDObject) (idx : Z) (flags : option Z) :
  DataFill_setTD df t idx flags = Ok df1 ->
  tdType df = fullType t
  /\ df1 = mkDataFill (cls df) (tdType df) (tdSubType df) idx flags (Some t)
                      (value df).
Proof.
  unfold DataFill_setTD.
  destruct (TD_FULL_TYPE_beq (tdType df) (fullType t)) eqn:E; cbn [negb];
    [|discriminate].
  intro H. injection H as <-. split; [|reflexivity].
  apply TD_FULL_TYPE_beq_eq. exact E.
Qed.

Lemma DataFill_setTD_mismatch {ExtValue : Type} (df : DataFill ExtValue)
      (t : TDObject) (idx : Z) (flags : option Z) :
  tdType df <> fullType t ->
  DataFill_setTD df t idx flags
  = Err (RuntimeError (CannotBeLinked (tdType df) (fullType t))).
Proof.
  intro Hne. unfold DataFill_setTD.
  destruct (TD_FULL_TYPE_beq (tdType df) (fullType t)) eqn:E;
    [|reflexivity].
  apply TD_FULL_TYPE_beq_eq in E. contradiction.
Qed.

(** X3: binding a node of any class to a descriptor of another type tag
    raises the RuntimeError of the type check, whatever the node holds:
    every override of [setTD] runs the check of the base class first. *)
Theorem setTD_type_mismatch
        {ExtValue : Type} (vi : VI) (depth : nat) (df : DataFill ExtValue)
        (t : TDObject) (idx : Z) (flags : option Z) :
  tdType df <> fullType t ->
  setTD vi (S depth) df t idx flags
  = Err (RuntimeError (CannotBeLinked (tdType df) (fullType t))).
Proof.
  intro Hne. cbn [setTD]. unfold setTD_method.
  pose proof (DataFill_setTD_mismatch df t idx flags Hne) as H.
  destruct (cls df);
    unfold DataFillArray_setTD, DataFillTypeDef_setTD,
      DataFillRepeatedBlock_setTD, setTD_all_to_last, DataFillCluster_setTD,
      SpecialDSTMCluster_setTD;
    rewrite H; reflexivity.
Qed.

Lemma setTD_method_Ok_binding
        {ExtValue : Type} (vi : VI)
        (sub_setTD : DataFill ExtValue -> TDObject -> Z -> option Z ->
                     result (DataFill ExtValue))
        (df df' : DataFill ExtValue)
        (t : TDObject) (idx : Z) (flags : option Z) :
  setTD_method vi sub_setTD df t idx flags = Ok df' ->
  tdType df = fullType t
  /\ td df' = Some t /\ index df' = idx /\ tm_flags df' = flags
  /\ cls df' = cls df /\ tdType df' = tdType df
  /\ tdSubType df' = tdSubType df.
Proof.
  unfold setTD_method. intro H.
  assert (Hbase : forall df1,
             DataFill_setTD df t idx flags = Ok df1 ->
             (df' = df1 \/ exists v, df' = set_value df1 v) ->
             tdType df = fullType t
             /\ td df' = Some t /\ index df' = idx /\ tm_flags df' = flags
             /\ cls df' = cls df /\ tdType df' = tdType df
             /\ tdSubType df' = tdSubType df).
  { intros df1 H1 Hd. apply DataFill_setTD_Ok in H1. destruct H1 as [Hty ->].
    destruct Hd as [->|[v ->]]; cbn; auto 10. }
  assert (Hcomp : forall k,
             (df1 <- DataFill_setTD df t idx flags ;;
              n <- len_value (value df1) ;;
              if n <? 1 then Ok df1
              else l' <- k df1 ;; Ok (set_value df1 (VNodes l'))) = Ok df' ->
             tdType df = fullType t
             /\ td df' = Some t /\ index df' = idx /\ tm_flags df' = flags
             /\ cls df' = cls df /\ tdType df' = tdType df
             /\ tdSubType df' = tdSubType df).
  { intros k Hk.
    destruct (DataFill_setTD df t idx flags) as [df1|] eqn:E1;
      [|discriminate].
    cbn [bind] in Hk.
    destruct (len_value (value df1)) as [n|]; [|discriminate].
    cbn [bind] in Hk. apply (Hbase df1 eq_refl).
    destruct (n <? 1).
    - injection Hk as <-. left. reflexivity.
    - destruct (k df1) as [l'|]; [|discriminate].
      cbn [bind] in Hk. injection Hk as <-. right. eauto. }
  destruct (cls df) eqn:Ec;
    try (apply (Hbase df' H); left; reflexivity).
  - apply (Hcomp (fun df1 =>
      l <- sub_nodes (value df1) ;;
      match last_client t with
      | None => Err (UnboundLocalError "sub_td")
      | Some (sub_td_idx, sub_td) =>
          setTD_each sub_setTD l sub_td (-1) (tm_flags df1)
      end)).
    unfold DataFillArray_setTD, setTD_all_to_last in H.
    rewrite <- H. clear.
    destruct (DataFill_setTD df t idx flags) as [df1|]; [|reflexivity].
    cbn [bind]. destruct (len_value (value df1)) as [n|]; [|reflexivity].
    cbn [bind]. destruct (n <? 1); [reflexivity|].
    destruct (sub_nodes (value df1)); [|reflexivity]. cbn [bind].
    destruct (last_client t) as [[i s]|]; reflexivity.
  - apply (Hcomp (fun df1 =>
      l <- sub_nodes (value df1) ;;
      Cluster_setTD_loop sub_setTD (clientsEnumerate t) l (tm_flags df1))).
    unfold DataFillCluster_setTD in H. rewrite <- H. clear.
    destruct (DataFill_setTD df t idx flags) as [df1|]; [|reflexivity].
    cbn [bind]. destruct (len_value (value df1)) as [n|]; [|reflexivity].
    cbn [bind]. destruct (n <? 1); [reflexivity|].
    destruct (sub_nodes (value df1)); reflexivity.
  - apply (Hcomp (fun df1 =>
      l <- sub_nodes (value df1) ;;
      match last_client t with
      | None => Err (UnboundLocalError "sub_td")
      | Some (sub_td_idx, sub_td) =>
          setTD_each sub_setTD l sub_td sub_td_idx (tm_flags df1)
      end)).
    unfold DataFillRepeatedBlock_setTD, setTD_all_to_last in H.
    rewrite <- H. clear.
    destruct (DataFill_setTD df t idx flags) as [df1|]; [|reflexivity].
    cbn [bind]. destruct (len_value (value df1)) as [n|]; [|reflexivity].
    cbn [bind]. destruct (n <? 1); [reflexivity|].
    destruct (sub_nodes (value df1)); [|reflexivity]. cbn [bind].
    destruct (last_client t) as [[i s]|]; reflexivity.
  - apply (Hcomp (fun df1 =>
      l <- sub_nodes (value df1) ;;
      match last_client t with
      | None => Err (UnboundLocalError "sub_td")
      | Some (sub_td_idx, sub_td) =>
          setTD_each sub_setTD l sub_td (-1) (tm_flags df1)
      end)).
    unfold DataFillTypeDef_setTD, setTD_all_to_last in H.
    rewrite <- H. clear.
    destruct (DataFill_setTD df t idx flags) as [df1|]; [|reflexivity].
    cbn [bind]. destruct (len_value (value df1)) as [n|]; [|reflexivity].
    cbn [bind]. destruct (n <? 1); [reflexivity|].
    destruct (sub_nodes (value df1)); [|reflexivity]. cbn [bind].
    destruct (last_client t) as [[i s]|]; reflexivity.
  - apply (Hcomp (fun df1 =>
      f200 <- flags_and (tm_flags df1) 512 ;;
      l <- sub_nodes (value df1) ;;
      SpecialDSTMCluster_setTD_loop vi sub_setTD (clientsEnumerate t) 0
        (negb (f200 =? 0)) l (tm_flags df1))).
    unfold SpecialDSTMCluster_setTD in H. rewrite <- H. clear.
    destruct (DataFill_setTD df t idx flags) as [df1|]; [|reflexivity].
    cbn [bind]. destruct (len_value (value df1)) as [n|]; [|reflexivity].
    cbn [bind]. destruct (n <? 1); [reflexivity|].
    destruct (flags_and (tm_flags df1) 512); [|reflexivity]. cbn [bind].
    destruct (sub_nodes (value df1)); reflexivity.
Qed.

(** X4: a bind that returns has found the type tags equal and has
    recorded the descriptor, the index and the flag word on the node; the
    class, the type tag and the subtype of the node are as before. *)
Theorem setTD_records_binding
        {ExtValue : Type} (vi : VI) (depth : nat) (df df' : DataFill ExtValue)
        (t : TDObject) (idx : Z) (flags : option Z) :
  setTD vi depth df t idx flags = Ok df' ->
  tdType df = fullType t
  /\ td df' = Some t /\ index df' = idx /\ tm_flags df' = flags
  /\ cls df' = cls df /\ tdType df' = tdType df
  /\ tdSubType df' = tdSubType df.
Proof.
  destruct depth as [|d]; [discriminate|].
  cbn [setTD]. apply setTD_method_Ok_binding.
Qed.

(** ** Clusters: children and clients position by position *)

Section ClusterBinding.

Context {ExtValue : Type}.
Variable sub_setTD :
  DataFill ExtValue -> TDObject -> Z -> option Z -> result (DataFill ExtValue).

Lemma list_get_app_length (pre l : list (DataFill ExtValue)) :
  list_get (pre ++ l) (Z.of_nat (length pre))
  = match l with
    | x :: _ => Ok x
    | [] => Err IndexError
    end.
Proof.
  unfold list_get.
  destruct (Z.ltb_spec (Z.of_nat (length pre)) 0); [lia|].
  destruct (Z.ltb_spec (Z.of_nat (length pre)) 0); [lia|].
  rewrite Nat2Z.id, nth_error_app2, Nat.sub_diag by lia.
  destruct l; reflexivity.
Qed.

Lemma list_set_app_length (pre l : list (DataFill ExtValue))
      (x y : DataFill ExtValue) :
  list_set (pre ++ x :: l) (length pre) y = pre ++ y :: l.
Proof.
  induction pre as [|p pre IH]; cbn; [reflexivity|]. now rewrite IH.
Qed.

(** The loop that indexes [self.value] by the position of the client is
    the child-by-child binding. *)
Lemma Cluster_setTD_loop_in_order
      (cs : list (Z * TDObject * Z)) (pre l : list (DataFill ExtValue))
      (flags : option Z) :
  Cluster_setTD_loop sub_setTD (enumerate_from (Z.of_nat (length pre)) cs)
                     (pre ++ l) flags
  = match bind_in_order sub_setTD cs l flags with
    | Ok r => Ok (pre ++ r)
    | Err e => Err e
    end.
Proof.
  revert pre l. induction cs as [|[[td_idx sub_td] f] cs IH]; intros pre l.
  - reflexivity.
  - cbn [enumerate_from Cluster_setTD_loop bind_in_order].
    rewrite list_get_app_length.
    destruct l as [|x l]; [reflexivity|]. cbn [bind].
    destruct (sub_setTD x sub_td td_idx flags) as [x'|e]; [|reflexivity].
    cbn [bind]. rewrite Nat2Z.id, list_set_app_length.
    replace (Z.of_nat (length pre) + 1) with (Z.of_nat (length (pre ++ [x'])))
      by (rewrite length_app; cbn; lia).
    replace (pre ++ x' :: l) with ((pre ++ [x']) ++ l)
      by (rewrite <- app_assoc; reflexivity).
    rewrite IH.
    destruct (bind_in_order sub_setTD cs l flags) as [r|e]; cbn [bind];
      [|reflexivity].
    rewrite <- app_assoc. reflexivity.
Qed.

Lemma bind_in_order_Ok (cs : list (Z * TDObject * Z))
      (l l' : list (DataFill ExtValue)) (flags : option Z) :
  bind_in_order sub_setTD cs l flags = Ok l' ->
  length l' = length l
  /\ (length cs <= length l)%nat
  /\ (forall i td_idx sub_td f,
         nth_error cs i = Some (td_idx, sub_td, f) ->
         exists x x',
           nth_error l i = Some x /\ nth_error l' i = Some x'
           /\ sub_setTD x sub_td td_idx flags = Ok x')
  /\ (forall i, (length cs <= i)%nat -> nth_error l' i = nth_error l i).
Proof.
  revert l l'. induction cs as [|[[td_idx sub_td] f] cs IH]; intros l l' H.
  - cbn in H. injection H as <-. cbn.
    repeat split; try lia. intros [|i] ? ? ? Hn; discriminate.
  - cbn [bind_in_order] in H. destruct l as [|x l]; [discriminate|].
    destruct (sub_setTD x sub_td td_idx flags) as [x'|] eqn:E; [|discriminate].
    cbn [bind] in H.
    destruct (bind_in_order sub_setTD cs l flags) as [r|] eqn:Er;
      [|discriminate].
    cbn [bind] in H. injection H as <-.
    destruct (IH l r Er) as (Hlen & Hle & Hpos & Hrest).
    cbn [length]. repeat split; try lia.
    + intros [|i] a b c Hn; cbn in Hn |- *.
      * injection Hn as <- <- <-. eauto.
      * apply (Hpos i a b c Hn).
    + intros [|i] Hi; cbn in Hi |- *; [lia|]. apply Hrest. lia.
Qed.

Lemma bind_in_order_too_few (cs : list (Z * TDObject * Z))
      (l : list (DataFill ExtValue)) (flags : option Z) :
  (length l < length cs)%nat ->
  (forall i x td_idx sub_td f,
      nth_error l i = Some x ->
      nth_error cs i = Some (td_idx, sub_td, f) ->
      exists x', sub_setTD x sub_td td_idx flags = Ok x') ->
  bind_in_order sub_setTD cs l flags = Err IndexError.
Proof.
  revert l. induction cs as [|[[td_idx sub_td] f] cs IH]; intros l Hlt Hall.
  - cbn in Hlt. lia.
  - destruct l as [|x l]; [reflexivity|]. cbn [bind_in_order].
    destruct (Hall 0%nat x td_idx sub_td f eq_refl eq_refl) as (x' & ->).
    cbn [bind]. rewrite IH; [reflexivity|cbn in Hlt; lia|].
    intros i y a b c Hy Hc. exact (Hall (S i) y a b c Hy Hc).
Qed.

Lemma DataFillCluster_setTD_in_order
      (df : DataFill ExtValue) (t : TDObject) (idx : Z) (flags : option Z)
      (l : list (DataFill ExtValue)) :
  value df = VNodes l -> l <> [] ->
  DataFillCluster_setTD sub_setTD df t idx flags
  = (df1 <- DataFill_setTD df t idx flags ;;
     l' <- bind_in_order sub_setTD (clients t) l flags ;;
     Ok (set_value df1 (VNodes l'))).
Proof.
  intros Hv Hne. unfold DataFillCluster_setTD.
  destruct (DataFill_setTD df t idx flags) as [df1|] eqn:E; [|reflexivity].
  apply DataFill_setTD_Ok in E. destruct E as [_ ->]. cbn [bind value].
  rewrite Hv. cbn [len_value sub_nodes bind tm_flags].
  destruct (Z.ltb_spec (Z.of_nat (length l)) 1) as [Hl|_].
  { destruct l; [contradiction|cbn [length] in Hl; lia]. }
  pose proof (Cluster_setTD_loop_in_order (clients t) [] l flags) as H.
  cbn [length app] in H. change (Z.of_nat 0) with 0 in H.
  unfold clientsEnumerate. rewrite H.
  destruct (bind_in_order sub_setTD (clients t) l flags); reflexivity.
Qed.

End ClusterBinding.

(** X5: re-binding a filled cluster binds the child at each position to
    the client at the same position, in client order, with that client's
    index and the flag word of the parent; it needs at least as many
    children as clients and leaves further children as they were. *)
Theorem DataFillCluster_setTD_binds_in_order
        {ExtValue : Type} (vi : VI) (depth : nat)
        (df df' : DataFill ExtValue) (t : TDObject) (idx : Z)
        (flags : option Z) (l : list (DataFill ExtValue)) :
  cls df = KCluster ->
  value df = VNodes l ->
  l <> [] ->
  setTD vi (S depth) df t idx flags = Ok df' ->
  exists l',
    value df' = VNodes l'
    /\ length l' = length l
    /\ (length (clients t) <= length l)%nat
    /\ (forall i td_idx sub_td f,
           nth_error (clients t) i = Some (td_idx, sub_td, f) ->
           exists x x',
             nth_error l i = Some x /\ nth_error l' i = Some x'
             /\ setTD vi depth x sub_td td_idx flags = Ok x')
    /\ (forall i, (length (clients t) <= i)%nat ->
                  nth_error l' i = nth_error l i).
Proof.
  intros Hc Hv Hne H. cbn [setTD] in H. unfold setTD_method in H.
  rewrite Hc in H.
  rewrite (DataFillCluster_setTD_in_order _ df t idx flags l Hv Hne) in H.
  destruct (DataFill_setTD df t idx flags) as [df1|]; [|discriminate].
  cbn [bind] in H.
  destruct (bind_in_order (setTD vi depth) (clients t) l flags) as [l'|]
    eqn:E; [|discriminate].
  cbn [bind] in H. injection H as <-.
  exists l'. split; [destruct df1; reflexivity|].
  exact (bind_in_order_Ok _ _ _ _ _ E).
Qed.

(** X6: re-binding a filled cluster to a descriptor with more clients
    than the cluster has children raises IndexError once the children
    that are there have been bound. *)
Theorem DataFillCluster_setTD_too_few_children
        {ExtValue : Type} (vi : VI) (depth : nat) (df : DataFill ExtValue)
        (t : TDObject) (idx : Z) (flags : option Z)
        (l : list (DataFill ExtValue)) :
  cls df = KCluster ->
  value df = VNodes l ->
  l <> [] ->
  tdType df = fullType t ->
  (length l < length (clients t))%nat ->
  (forall i x td_idx sub_td f,
      nth_error l i = Some x ->
      nth_error (clients t) i = Some (td_idx, sub_td, f) ->
      exists x', setTD vi depth x sub_td td_idx flags = Ok x') ->
  setTD vi (S depth) df t idx flags = Err IndexError.
Proof.
  intros Hc Hv Hne Hty Hlt Hall. cbn [setTD]. unfold setTD_method.
  rewrite Hc.
  rewrite (DataFillCluster_setTD_in_order _ df t idx flags l Hv Hne).
  unfold DataFill_setTD.
  rewrite (proj2 (TD_FULL_TYPE_beq_eq _ _) Hty). cbn [negb bind].
  rewrite (bind_in_order_too_few _ _ _ _ Hlt Hall). reflexivity.
Qed.

(** ** Special clusters: which clients get a child *)

Lemma isSpecialDSTMClusterElement_Some (vi : VI) (f idx : Z) :
  isSpecialDSTMClusterElement vi idx (Some f)
  = Ok (special_position vi f idx).
Proof.
  unfold special_position.
  destruct (isSpecialDSTMClusterElement vi idx (Some f)) eqn:E;
    [reflexivity|].
  unfold isSpecialDSTMClusterElement, flags_and, bind in E.
  repeat match type of E with
         | (if ?c then _ else _) = _ => destruct c
         end; discriminate.
Qed.

(** Only positions 1, 2 and 3 can be special. *)
Lemma special_position_range (vi : VI) (f idx : Z) :
  special_position vi f idx = true -> 1 <= idx <= 3.
Proof.
  unfold special_position, isSpecialDSTMClusterElement, flags_and, bind.
  destruct (Z.eqb_spec idx 1), (Z.eqb_spec idx 2), (Z.eqb_spec idx 3);
    try lia.
  cbn [orb].
  destruct (negb (Z.land f 4 =? 0)).
  - destruct (isSmallerVersion _ _ _ _ _); discriminate.
  - destruct (negb (Z.land f 16 =? 0)); [discriminate|].
    destruct (negb (Z.land f 32 =? 0)); [discriminate|].
    destruct (negb (Z.land f 64 =? 0)); discriminate.
Qed.

Section SpecialDecoding.

Context {ExtValue : Type}.
Variable vi : VI.
Variable sub_new : Z -> option Z -> TDObject -> result (DataFill ExtValue).
Variable sub_initWithRSRC : DataFill ExtValue -> Reader (DataFill ExtValue).

Lemma SpecialDSTMCluster_init_loop_selected
      (f : Z) (cs : list (Z * Z * TDObject * Z)) (skip : bool) :
  SpecialDSTMCluster_init_loop vi sub_new sub_initWithRSRC cs skip (Some f)
  = Cluster_init_loop sub_new sub_initWithRSRC
                      (selected_clients vi f skip cs) (Some f).
Proof.
  revert skip.
  induction cs as [|[[[cli_idx td_idx] sub_td] fl] cs IH]; intro skip.
  - destruct skip; reflexivity.
  - cbn [SpecialDSTMCluster_init_loop].
    rewrite isSpecialDSTMClusterElement_Some.
    unfold selected_clients in *. cbn [filter].
    destruct (special_position vi f cli_idx).
    + destruct skip.
      * change (SpecialDSTMCluster_init_loop vi sub_new sub_initWithRSRC cs
                  false (Some f)
                = Cluster_init_loop sub_new sub_initWithRSRC
                    (filter (fun c => let '(i, _, _, _) := c in
                                      special_position vi f i) cs) (Some f)).
        apply (IH false).
      * cbn [Cluster_init_loop].
        rewrite <- (IH false). reflexivity.
    + change (SpecialDSTMCluster_init_loop vi sub_new sub_initWithRSRC cs
                skip (Some f)
              = Cluster_init_loop sub_new sub_initWithRSRC
                  (if skip
                   then tl (filter (fun c => let '(i, _, _, _) := c in
                                             special_position vi f i) cs)
                   else filter (fun c => let '(i, _, _, _) := c in
                                         special_position vi f i) cs)
                  (Some f)).
      apply IH.
Qed.

Lemma Cluster_init_loop_length
      (cs : list (Z * Z * TDObject * Z)) (flags : option Z)
      (bl bl' : BytesIO) (l : list (DataFill ExtValue)) :
  Cluster_init_loop sub_new sub_initWithRSRC cs flags bl = (bl', Ok l) ->
  length l = length cs.
Proof.
  revert bl bl' l.
  induction cs as [|[[[a b] c] d] cs IH]; intros bl bl' l; cbn.
  - unfold ret. intro H. injection H as _ <-. reflexivity.
  - unfold rbind at 1.
    destruct (decode_child _ _ _ _ _ _ bl) as [bl1 [x|e]]; [|discriminate].
    unfold rbind at 1.
    destruct (Cluster_init_loop _ _ cs flags bl1) as [bl2 [xs|e]] eqn:E;
      [|discriminate].
    unfold ret. intro H. injection H as _ <-. cbn. f_equal.
    exact (IH _ _ _ E).
Qed.

End SpecialDecoding.

Lemma filter_special_beyond (vi : VI) (f : Z)
      (cs : list (Z * TDObject * Z)) (i : Z) :
  4 <= i ->
  filter (fun c : Z * Z * TDObject * Z =>
            let '(cli_idx, _, _, _) := c in special_position vi f cli_idx)
         (enumerate_from i cs) = [].
Proof.
  revert i. induction cs as [|[[a b] c] cs IH]; intros i Hi; cbn.
  - reflexivity.
  - destruct (special_position vi f i) eqn:E.
    + apply special_position_range in E. lia.
    + apply IH. lia.
Qed.

Lemma selected_clients_length (vi : VI) (f : Z) (skip : bool)
      (t : TDObject) :
  (length (selected_clients vi f skip (clientsEnumerate t))
   <= if skip then 2 else 3)%nat.
Proof.
  unfold selected_clients, clientsEnumerate.
  assert (H0 : special_position vi f 0 = false).
  { destruct (special_position vi f 0) eqn:E; [|reflexivity].
    apply special_position_range in E. lia. }
  destruct (clients t) as [|[[a0 b0] c0] [|[[a1 b1] c1] [|[[a2 b2] c2]
                           [|[[a3 b3] c3] rest]]]];
    cbn [enumerate_from];
    change (0 + 1) with 1; change (1 + 1) with 2; change (2 + 1) with 3;
    change (3 + 1) with 4;
    cbn [filter]; rewrite ?H0;
    rewrite ?(filter_special_beyond vi f rest 4) by lia;
    repeat match goal with
           | |- context [special_position vi f ?i] =>
               destruct (special_position vi f i)
           end;
    destruct skip; cbn [tl length]; lia.
Qed.

Section SpecialDecodingNode.

Context {ExtValue : Type}.
Variable vi : VI.
Variable sub_new : Z -> option Z -> TDObject -> result (DataFill ExtValue).
Variable sub_initWithRSRC : DataFill ExtValue -> Reader (DataFill ExtValue).

Lemma SpecialDSTMCluster_initWithRSRCParse_selected
      (df : DataFill ExtValue) (t : TDObject) (f : Z) (bl : BytesIO) :
  tm_flags df = Some f ->
  td df = Some t ->
  SpecialDSTMCluster_initWithRSRCParse vi sub_new sub_initWithRSRC df bl
  = (l <~ Cluster_init_loop sub_new sub_initWithRSRC
            (selected_clients vi f (negb (Z.land f 0x0200 =? 0))
                              (clientsEnumerate t))
            (Some f) ;;
     ret (set_value df (VNodes l))) bl.
Proof.
  intros Hf Ht. unfold SpecialDSTMCluster_initWithRSRCParse, self_td.
  rewrite Hf, Ht. cbn [flags_and].
  rewrite (rbind_ok (lift (Ok (Z.land f 512))) _ bl bl _ eq_refl).
  rewrite (rbind_ok (lift (Ok t)) _ bl bl _ eq_refl).
  rewrite SpecialDSTMCluster_init_loop_selected. reflexivity.
Qed.

End SpecialDecodingNode.

(** X7: binary decode of a special cluster is the decode of a plain
    cluster over the selected clients only: the clients at a special
    position, in client order, without the first of them when flag
    0x0200 is set; each child gets the index of its client. *)
Theorem SpecialDSTMCluster_decodes_selected_clients
        {ExtValue : Type} (vi : VI) (po : PO) (ext : External ExtValue)
        (depth : nat) (df : DataFill ExtValue) (t : TDObject) (f : Z)
        (bl : BytesIO) :
  cls df = KSpecialDSTMCluster ->
  tm_flags df = Some f ->
  td df = Some t ->
  initWithRSRC vi po ext (S depth) df bl
  = (l <~ Cluster_init_loop (newDataFillObjectWithTD vi depth)
            (initWithRSRC vi po ext depth)
            (selected_clients vi f (negb (Z.land f 0x0200 =? 0))
                              (clientsEnumerate t))
            (Some f) ;;
     ret (set_value df (VNodes l))) bl.
Proof.
  intros Hc Hf Ht. cbn [initWithRSRC]. unfold initWithRSRCParse.
  rewrite Hc.
  exact (SpecialDSTMCluster_initWithRSRCParse_selected vi _ _ df t f bl
           Hf Ht).
Qed.

(** X8: a decoded special cluster has at most three children, and at
    most two when flag 0x0200 is set, however many clients the
    descriptor has. *)
Theorem SpecialDSTMCluster_at_most_three_children
        {ExtValue : Type} (vi : VI) (po : PO) (ext : External ExtValue)
        (depth : nat) (df df' : DataFill ExtValue) (t : TDObject) (f : Z)
        (bl bl' : BytesIO) :
  cls df = KSpecialDSTMCluster ->
  tm_flags df = Some f ->
  td df = Some t ->
  initWithRSRC vi po ext (S depth) df bl = (bl', Ok df') ->
  exists l,
    value df' = VNodes l
    /\ (length l <= 3)%nat
    /\ (Z.land f 0x0200 <> 0 -> (length l <= 2)%nat).
Proof.
  intros Hc Hf Ht H. cbn [initWithRSRC] in H. unfold initWithRSRCParse in H.
  rewrite Hc in H.
  rewrite (SpecialDSTMCluster_initWithRSRCParse_selected vi _ _ df t f bl
             Hf Ht) in H.
  unfold rbind in H.
  destruct (Cluster_init_loop _ _ _ _ bl) as [bl1 [l|e]] eqn:E;
    [|discriminate].
  unfold ret in H. injection H as _ <-.
  exists l. split; [destruct df; reflexivity|].
  apply Cluster_init_loop_length in E. rewrite E.
  pose proof (selected_clients_length vi f (negb (Z.land f 512 =? 0)) t) as Hl.
  revert Hl.
  destruct (Z.eqb_spec (Z.land f 512) 0); cbn [negb]; intro Hl; split; lia.
Qed.

(** ** The encoder against the size prediction, on whole trees *)

Lemma tree_all_S {ExtValue : Type} (p : DataFill ExtValue -> bool)
      (d : nat) (df : DataFill ExtValue) :
  tree_all p (S d) df = true ->
  p df = true
  /\ forall l, value df = VNodes l -> Forall (fun c => tree_all p d c = true) l.
Proof.
  cbn [tree_all]. intro H. apply andb_true_iff in H. destruct H as [Hp Hc].
  split; [exact Hp|]. intros l Hv. rewrite Hv in Hc.
  apply Forall_forall. intros c Hin.
  exact (proj1 (forallb_forall _ _) Hc c Hin).
Qed.

Lemma dims_bytes_length (dims : list Z) (d : bytes) :
  dims_bytes dims = Ok d -> Z.of_nat (length d) = 4 * Z.of_nat (length dims).
Proof.
  revert d. induction dims as [|dim dims IH]; intros d H;
    cbn [dims_bytes] in H.
  - injection H as <-. reflexivity.
  - destruct (int_to_bytes dim 4 false) as [b|] eqn:Eb; [|discriminate].
    cbn [bind] in H. destruct (dims_bytes dims) as [bs|]; [|discriminate].
    cbn [bind] in H. injection H as <-.
    apply int_to_bytes_length in Eb. rewrite length_app.
    specialize (IH bs eq_refl). cbn [length]. lia.
Qed.

Lemma lstr_bytes_length (v : pyval) (b : bytes) (n : Z) :
  lstr_bytes v = Ok b -> py_len v = Ok n -> Z.of_nat (length b) = 4 + n.
Proof.
  unfold lstr_bytes. intros H Hn. rewrite Hn in H. cbn [bind] in H.
  destruct (int_to_bytes n 4 false) as [l|] eqn:El; [|discriminate].
  cbn [bind] in H. destruct v as [|z|s]; try discriminate.
  injection H as <-. apply int_to_bytes_length in El.
  cbn in Hn. injection Hn as <-. rewrite length_app. lia.
Qed.

Lemma fixed_point_bytes_length {ExtValue : Type} (df : DataFill ExtValue)
      (t : TDObject) (v f : result pyval) (b : bytes) :
  td df = Some t ->
  fixed_point_bytes df v f = Ok b ->
  Z.of_nat (length b) = 8 + (if allocOv t then 1 else 0).
Proof.
  intros Ht H. unfold fixed_point_bytes, self_td in H. rewrite Ht in H.
  destruct v as [v'|]; [|discriminate]. cbn [bind] in H.
  destruct (py_int v') as [z|]; [|discriminate]. cbn [bind] in H.
  destruct (int_to_bytes z 8 false) as [b8|] eqn:E8; [|discriminate].
  cbn [bind] in H. apply int_to_bytes_length in E8.
  destruct (allocOv t).
  - destruct f as [f'|]; [|discriminate]. cbn [bind] in H.
    destruct (py_int f') as [fz|]; [|discriminate]. cbn [bind] in H.
    destruct (int_to_bytes fz 1 false) as [b1|] eqn:E1; [|discriminate].
    cbn [bind] in H. injection H as <-. apply int_to_bytes_length in E1.
    rewrite length_app. lia.
  - injection H as <-. lia.
Qed.

Section WholeTrees.

Context {ExtValue : Type}.
Variable vi : VI.
Variable ext : External ExtValue.

Lemma UInt32_prepareRSRCData_length (df df' : DataFill ExtValue) (b : bytes) :
  UInt32_prepareRSRCData df = Ok (b, df') ->
  Z.of_nat (length b) = 4 /\ df' = df.
Proof.
  unfold UInt32_prepareRSRCData. intro H.
  destruct (int_value (value df)) as [v|]; [|discriminate]. cbn [bind] in H.
  destruct (int_to_bytes v 4 false) as [b4|] eqn:E; [|discriminate].
  cbn [bind] in H. injection H as <- <-.
  split; [exact (int_to_bytes_length _ _ _ _ E)|reflexivity].
Qed.

(** The loops over the children, given the two facts for each child. *)
Lemma prepare_each_sizes
      (sub_p : bool -> DataFill ExtValue -> result (bytes * DataFill ExtValue))
      (sub_e : DataFill ExtValue -> result (option Z))
      (P : DataFill ExtValue -> Prop) (a : bool) :
  (forall c n b c', P c -> sub_e c = Ok (Some n) ->
                    sub_p a c = Ok (b, c') -> Z.of_nat (length b) = n) ->
  forall l start n body l',
    Forall P l ->
    expected_each sub_e start l = Ok (Some n) ->
    prepare_each sub_p a l = Ok (body, l') ->
    start + Z.of_nat (length body) = n.
Proof.
  intros Hsub l. induction l as [|c l IH]; intros start n body l' HP He Hp.
  - cbn in He, Hp. injection He as <-. injection Hp as <- _. cbn. lia.
  - cbn [expected_each prepare_each] in He, Hp.
    inversion HP as [|? ? Hc Hl]; subst.
    destruct (sub_e c) as [[m|]|] eqn:Ee; try discriminate.
    cbn [bind] in He.
    destruct (sub_p a c) as [[b c']|] eqn:Ep; [|discriminate].
    cbn [bind] in Hp.
    destruct (prepare_each sub_p a l) as [[bs cs]|] eqn:Eps; [|discriminate].
    cbn [bind fst snd] in Hp. injection Hp as <- _.
    pose proof (Hsub c m b c' Hc Ee Ep) as Hb.
    pose proof (IH (start + m) n bs cs Hl He eq_refl) as Hrest.
    rewrite length_app. lia.
Qed.

Lemma prepare_each_keeps
      (sub_p : bool -> DataFill ExtValue -> result (bytes * DataFill ExtValue))
      (P : DataFill ExtValue -> Prop) (a : bool) :
  (forall c b c', P c -> sub_p a c = Ok (b, c') -> c' = c) ->
  forall l body l',
    Forall P l -> prepare_each sub_p a l = Ok (body, l') -> l' = l.
Proof.
  intros Hsub l. induction l as [|c l IH]; intros body l' HP Hp.
  - cbn in Hp. injection Hp as _ <-. reflexivity.
  - cbn [prepare_each] in Hp. inversion HP as [|? ? Hc Hl]; subst.
    destruct (sub_p a c) as [[b c']|] eqn:Ep; [|discriminate].
    cbn [bind] in Hp.
    destruct (prepare_each sub_p a l) as [[bs cs]|] eqn:Eps; [|discriminate].
    cbn [bind fst snd] in Hp. injection Hp as _ <-.
    rewrite (Hsub c b c' Hc Ep), (IH bs cs Hl eq_refl). reflexivity.
Qed.

Lemma children_prepareRSRCData_keeps
      (sub_p : bool -> DataFill ExtValue -> result (bytes * DataFill ExtValue))
      (P : DataFill ExtValue -> Prop) (a : bool)
      (df df' : DataFill ExtValue) (b : bytes) :
  (forall c b c', P c -> sub_p a c = Ok (b, c') -> c' = c) ->
  (forall l, value df = VNodes l -> Forall P l) ->
  children_prepareRSRCData sub_p a df = Ok (b, df') -> df' = df.
Proof.
  intros Hsub HP H. unfold children_prepareRSRCData in H.
  destruct (sub_nodes (value df)) as [l|] eqn:El; [|discriminate].
  cbn [bind] in H.
  destruct (prepare_each sub_p a l) as [[body l']|] eqn:Ep; [|discriminate].
  cbn [bind fst snd] in H. injection H as _ <-.
  destruct (value df) as [| | | |l0] eqn:Ev; try reflexivity.
  cbn in El. injection El as <-.
  rewrite (prepare_each_keeps sub_p P a Hsub l0 body l' (HP l0 eq_refl) Ep).
  destruct df. cbn in Ev. subst. reflexivity.
Qed.

Lemma children_sizes
      (sub_p : bool -> DataFill ExtValue -> result (bytes * DataFill ExtValue))
      (sub_e : DataFill ExtValue -> result (option Z))
      (P : DataFill ExtValue -> Prop) (a : bool)
      (df df' : DataFill ExtValue) (start n : Z) (b : bytes) :
  (forall c n b c', P c -> sub_e c = Ok (Some n) ->
                    sub_p a c = Ok (b, c') -> Z.of_nat (length b) = n) ->
  (forall l, value df = VNodes l -> Forall P l) ->
  children_expectedRSRCSize sub_e start df = Ok (Some n) ->
  children_prepareRSRCData sub_p a df = Ok (b, df') ->
  start + Z.of_nat (length b) = n.
Proof.
  intros Hsub HP He Hp.
  unfold children_expectedRSRCSize in He.
  unfold children_prepareRSRCData in Hp.
  destruct (sub_nodes (value df)) as [l|] eqn:El; [|discriminate].
  cbn [bind] in He, Hp.
  destruct (prepare_each sub_p a l) as [[body l']|] eqn:Ep; [|discriminate].
  cbn [bind fst snd] in Hp. injection Hp as <- _.
  assert (HPl : Forall P l).
  { destruct (value df) as [| [|? ?] | | [|? ?] |l0] eqn:Ev;
      try discriminate; cbn in El; injection El as <-;
      [constructor|constructor|exact (HP l0 eq_refl)]. }
  exact (prepare_each_sizes sub_p sub_e P a Hsub l start n body l' HPl He Ep).
Qed.

End WholeTrees.

(** X9: binary encode gives back the node it was called on, at every
    level of the tree, unless the tree holds an opaque block whose value
    has not the declared size: the overwrite of such a block is the only
    assignment the encoder makes. *)
Theorem prepareRSRCData_keeps_node
        {ExtValue : Type} (vi : VI) (ext : External ExtValue)
        (depth : nat) (avoid_recompute : bool)
        (df df' : DataFill ExtValue) (data_buf : bytes) :
  tree_all block_has_declared_size depth df = true ->
  prepareRSRCData vi ext depth avoid_recompute df = Ok (data_buf, df') ->
  df' = df.
Proof.
  revert df df' data_buf.
  induction depth as [|d IH]; intros df df' b Ht H; [discriminate|].
  apply tree_all_S in Ht. destruct Ht as [Hblk Hch].
  cbn [prepareRSRCData] in H. unfold prepareRSRCData_method in H.
  assert (Hkids : forall b0 df0,
             children_prepareRSRCData (prepareRSRCData vi ext d)
                                      avoid_recompute df = Ok (b0, df0) ->
             df0 = df).
  { intros b0 df0.
    apply (children_prepareRSRCData_keeps _
             (fun c => tree_all block_has_declared_size d c = true)).
    - intros c b1 c' Hc Hp. exact (IH c c' b1 Hc Hp).
    - exact Hch. }
  unfold block_has_declared_size in Hblk.
  destruct (cls df) eqn:Ec;
    unfold DataFill_prepareRSRCData, DataFillInt_prepareRSRCData,
      DataFillFloat_prepareRSRCData, DataFillComplex_prepareRSRCData,
      DataFillBool_prepareRSRCData, DataFillString_prepareRSRCData,
      LV_object_prepareRSRCData, UInt32_prepareRSRCData,
      DataFillArray_prepareRSRCData, DataFillCluster_prepareRSRCData,
      DataFillMeasureData_prepareRSRCData,
      DataFillRepeatedBlock_prepareRSRCData,
      DataFillTypeDef_prepareRSRCData, SpecialDSTMCluster_prepareRSRCData,
      DataFillComplexFixedPt_prepareRSRCData,
      DataFillFixedPoint_prepareRSRCData, DataFillBlock_prepareRSRCData,
      DataFillIORefnum_prepareRSRCData, UInt32_prepareRSRCData,
      DataFillUDTagRefnum_prepareRSRCData,
      DataFillUDClassInst_prepareRSRCData, DataFillPtr_prepareRSRCData,
      UInt32_prepareRSRCData in H;
    try (apply (Hkids _ _ H));
    repeat match type of H with
           | Ok _ = Ok _ => injection H as ? ?; subst; try reflexivity
           | Err _ = Ok _ => discriminate H
           | bind ?m _ = Ok _ =>
               let E := fresh "E" in
               destruct m eqn:E; cbn [bind] in H; [|discriminate H]
           | (let _ := _ in _) = Ok _ => cbv zeta in H
           | (if ?c then _ else _) = Ok _ => destruct c eqn:?
           | match ?x with _ => _ end = Ok _ => destruct x eqn:?
           end;
    try reflexivity; try discriminate.
  - (* array *)
    match goal with
    | p : (bytes * DataFill ExtValue)%type |- snd ?p = df =>
        destruct p as [b0 df0]; cbn [snd]; exact (Hkids _ _ eq_refl)
    end.
  - (* a block of another length than declared is excluded *)
    exfalso.
    match goal with
    | E1 : self_td df = Ok ?t, E3 : len_value _ = Ok ?n,
      E4 : negb (?n =? _) = true |- _ =>
        unfold self_td in E1; destruct (td df); [|discriminate E1];
        injection E1 as ->; cbn in E3; injection E3 as <-;
        rewrite Hblk in E4; discriminate E4
    end.
Qed.

(** X10: whenever [expectedRSRCSize] returns a number and
    [prepareRSRCData] returns a buffer for the same node, the number is
    the length of the buffer, for every tree built from the classes
    whose bytes are produced in this file and holding no block of
    another length than declared. *)
Theorem expectedRSRCSize_is_length_of_prepareRSRCData
        {ExtValue : Type} (vi : VI) (ext : External ExtValue)
        (depth : nat) (avoid_recompute : bool)
        (df df' : DataFill ExtValue) (n : Z) (data_buf : bytes) :
  tree_all (fun c => encoded_here c && block_has_declared_size c) depth df
  = true ->
  expectedRSRCSize vi ext depth df = Ok (Some n) ->
  prepareRSRCData vi ext depth avoid_recompute df = Ok (data_buf, df') ->
  Z.of_nat (length data_buf) = n.
Proof.
  revert df df' n data_buf.
  induction depth as [|d IH]; intros df df' n b Ht He Hp; [discriminate|].
  apply tree_all_S in Ht. destruct Ht as [Hnode Hch].
  apply andb_true_iff in Hnode. destruct Hnode as [Hhere Hblk].
  cbn [expectedRSRCSize] in He. unfold expectedRSRCSize_method in He.
  cbn [prepareRSRCData] in Hp. unfold prepareRSRCData_method in Hp.
  assert (Hkids : forall start b0 df0,
             children_expectedRSRCSize (expectedRSRCSize vi ext d) start df
             = Ok (Some n) ->
             children_prepareRSRCData (prepareRSRCData vi ext d)
                                      avoid_recompute df = Ok (b0, df0) ->
             start + Z.of_nat (length b0) = n).
  { intros start b0 df0.
    apply (children_sizes _ _
             (fun c => tree_all (fun c => encoded_here c
                                          && block_has_declared_size c) d c
                       = true)).
    - intros c m b1 c' Hc Hce Hcp. exact (IH c c' m b1 Hc Hce Hcp).
    - exact Hch. }
  unfold encoded_here in Hhere. unfold block_has_declared_size in Hblk.
  destruct (cls df) eqn:Ec; try discriminate Hhere.
  - (* void *) injection He as <-. injection Hp as <- _. reflexivity.
  - (* integer *)
    injection He as <-. unfold DataFillInt_prepareRSRCData in Hp.
    destruct (int_value (value df)); [|discriminate]. cbn [bind] in Hp.
    destruct (int_to_bytes _ size signed) eqn:E; [|discriminate].
    cbn [bind] in Hp. injection Hp as <- _.
    exact (int_to_bytes_length _ _ _ _ E).
  - (* boolean *)
    unfold DataFillBool_expectedRSRCSize in He.
    unfold DataFillBool_prepareRSRCData in Hp.
    destruct (bool_size df) as [s|]; [|discriminate]. injection He as <-.
    destruct (int_value (value df)); [|discriminate]. cbn [bind] in Hp.
    destruct (int_to_bytes _ s false) eqn:E; [|discriminate].
    cbn [bind] in Hp. injection Hp as <- _.
    exact (int_to_bytes_length _ _ _ _ E).
  - (* string *)
    unfold DataFillString_expectedRSRCSize in He.
    unfold DataFillString_prepareRSRCData in Hp.
    destruct (value df) as [v| | | |]; try discriminate.
    cbn [len_value] in He.
    destruct (py_len v) as [m|] eqn:El; [|discriminate].
    cbn [bind] in He. injection He as <-.
    destruct (lstr_bytes v) eqn:E; [|discriminate]. cbn [bind] in Hp.
    injection Hp as <- _. exact (lstr_bytes_length _ _ _ E El).
  - (* C string *)
    injection He as <-. exact (proj1 (UInt32_prepareRSRCData_length _ _ _ Hp)).
  - (* array *)
    unfold DataFillArray_expectedRSRCSize in He.
    unfold DataFillArray_prepareRSRCData in Hp.
    destruct (dims_bytes dims) as [db|] eqn:Ed; [|discriminate].
    cbn [bind] in Hp.
    destruct (children_prepareRSRCData _ _ df) as [[b0 df0]|] eqn:Ek;
      [|discriminate].
    cbn [bind fst snd] in Hp. injection Hp as <- _.
    pose proof (Hkids _ _ _ He eq_refl) as Hsum.
    apply dims_bytes_length in Ed. rewrite length_app. lia.
  - (* array data pointer *)
    injection He as <-. exact (proj1 (UInt32_prepareRSRCData_length _ _ _ Hp)).
  - (* cluster *)
    exact (Hkids 0 _ _ He Hp).
  - (* measurement data *)
    exact (Hkids 0 _ _ He Hp).
  - (* complex fixed point *)
    unfold DataFillComplexFixedPt_expectedRSRCSize, self_td in He.
    unfold DataFillComplexFixedPt_prepareRSRCData in Hp.
    destruct (td df) as [t|] eqn:Etd; [|discriminate]. cbn [bind] in He.
    injection He as <-.
    destruct (fixed_point_bytes df _ _) as [b0|] eqn:E0 in Hp; [|discriminate].
    cbn [bind] in Hp.
    destruct (fixed_point_bytes df _ _) as [b1|] eqn:E1 in Hp; [|discriminate].
    cbn [bind] in Hp. injection Hp as <- _.
    apply (fixed_point_bytes_length df t _ _ _ Etd) in E0.
    apply (fixed_point_bytes_length df t _ _ _ Etd) in E1.
    rewrite length_app. destruct (allocOv t); lia.
  - (* fixed point *)
    unfold DataFillFixedPoint_expectedRSRCSize, self_td in He.
    unfold DataFillFixedPoint_prepareRSRCData in Hp.
    destruct (td df) as [t|] eqn:Etd; [|discriminate]. cbn [bind] in He.
    injection He as <-.
    destruct (value df) as [v| | | |]; try discriminate.
    destruct (fixed_point_bytes df _ _) as [b0|] eqn:E0; [|discriminate].
    cbn [bind] in Hp. injection Hp as <- _.
    apply (fixed_point_bytes_length df t _ _ _ Etd) in E0.
    destruct (allocOv t); lia.
  - (* block *)
    unfold DataFillBlock_expectedRSRCSize in He.
    unfold DataFillBlock_prepareRSRCData, self_td in Hp.
    destruct (len_value (value df)) as [m|] eqn:El; [|discriminate].
    cbn [bind] in He, Hp. injection He as <-.
    destruct (td df) as [t|]; [|discriminate]. cbn [bind] in Hp.
    destruct (value df) as [[| |v]| | | |]; try discriminate.
    cbn in El. injection El as <-. rewrite Hblk in Hp. cbn [negb] in Hp.
    injection Hp as <- _. lia.
  - (* repeated block *)
    exact (Hkids 0 _ _ He Hp).
  - (* simple refnum *)
    injection He as <-. exact (proj1 (UInt32_prepareRSRCData_length _ _ _ Hp)).
  - (* I/O refnum *)
    unfold DataFillIORefnum_expectedRSRCSize in He.
    unfold DataFillIORefnum_prepareRSRCData in Hp. cbv zeta in He, Hp.
    destruct (isGreaterOrEqVersion _ 6 0 0 0).
    + destruct (self_td df) as [t|]; [|discriminate]. cbn [bind] in He, Hp.
      destruct (isRefnumTag t); [discriminate|]. injection He as <-.
      exact (proj1 (UInt32_prepareRSRCData_length _ _ _ Hp)).
    + injection He as <-.
      exact (proj1 (UInt32_prepareRSRCData_length _ _ _ Hp)).
  - (* user-defined refnum *)
    injection He as <-. exact (proj1 (UInt32_prepareRSRCData_length _ _ _ Hp)).
  - (* user-defined tag refnum *)
    unfold DataFillUDTagRefnum_expectedRSRCSize in He.
    destruct (len_value (value df)); [|discriminate]. cbn [bind] in He.
    destruct (self_td df); discriminate.
  - (* class instance *) discriminate.
  - (* pointer *)
    unfold DataFillPtr_expectedRSRCSize in He.
    unfold DataFillPtr_prepareRSRCData in Hp. cbv zeta in He, Hp.
    destruct (isSmallerVersion _ 8 6 0 1).
    + injection He as <-.
      exact (proj1 (UInt32_prepareRSRCData_length _ _ _ Hp)).
    + injection He as <-. injection Hp as <- _. reflexivity.
  - (* pointer to *)
    injection He as <-. exact (proj1 (UInt32_prepareRSRCData_length _ _ _ Hp)).
  - (* external data *) discriminate.
  - (* unexpected *) discriminate.
  - (* type definition *)
    exact (Hkids 0 _ _ He Hp).
  - (* special cluster *)
    exact (Hkids 0 _ _ He Hp).
Qed.

(** ** What decode leaves on the node, and the binding of the children *)

Lemma yields_ret {A} (P : A -> Prop) (a : A) : P a -> yields P (ret a).
Proof. intros H bl bl' x E. injection E as _ <-. exact H. Qed.

Lemma yields_raise {A} (P : A -> Prop) (e : exn) : yields P (raise e).
Proof. intros bl bl' x E. discriminate E. Qed.

Lemma yields_rbind_with {A B} (Q : A -> Prop) (P : B -> Prop)
      (m : Reader A) (k : A -> Reader B) :
  yields Q m -> (forall a, Q a -> yields P (k a)) -> yields P (rbind m k).
Proof.
  intros Hm Hk bl bl' b E. unfold rbind in E.
  destruct (m bl) as [bl1 [a|e]] eqn:Em; [|discriminate].
  exact (Hk a (Hm _ _ _ Em) _ _ _ E).
Qed.

Lemma yields_rbind {A B} (P : B -> Prop) (m : Reader A) (k : A -> Reader B) :
  (forall a, yields P (k a)) -> yields P (rbind m k).
Proof.
  intro Hk. apply (yields_rbind_with (fun _ => True)); [|auto].
  intros ? ? ? ?. exact I.
Qed.

Lemma yields_try_except {A} (P : A -> Prop) (m : Reader A) (h : exn -> exn) :
  yields P m -> yields P (try_except m h).
Proof.
  intros Hm bl bl' a E. unfold try_except in E.
  destruct (m bl) as [bl1 [x|e]] eqn:Em; [|discriminate].
  injection E as _ <-. exact (Hm _ _ _ Em).
Qed.

Lemma yields_repeat_read {A} (P : A -> Prop) (n : nat) (one : Reader A) :
  yields P one -> yields (Forall P) (repeat_read n one).
Proof.
  intro H1. induction n as [|n IH]; cbn.
  - apply yields_ret. constructor.
  - apply (yields_rbind_with P); [exact H1|]. intros x Hx.
    apply (yields_rbind_with (Forall P)); [exact IH|]. intros xs Hxs.
    apply yields_ret. constructor; assumption.
Qed.

Lemma same_binding_refl {ExtValue : Type} (df : DataFill ExtValue) :
  same_binding df df.
Proof. repeat split. Qed.

Lemma same_binding_set {ExtValue : Type} (df df1 : DataFill ExtValue)
      (k : DFClass) (v : Value ExtValue) :
  same_binding df df1 ->
  same_binding df (set_value df1 v)
  /\ same_binding df (set_value (set_cls df1 k) v).
Proof. destruct df1. cbn. auto. Qed.

Lemma value_set_value {ExtValue : Type} (df : DataFill ExtValue)
      (v : Value ExtValue) :
  value (set_value df v) = v.
Proof. destruct df. reflexivity. Qed.

Section DecodedNode.

Context {ExtValue : Type}.
Variable vi : VI.
Variable po : PO.
Variable ext : External ExtValue.
Variable sub_new : Z -> option Z -> TDObject -> result (DataFill ExtValue).
Variable sub_initWithRSRC : DataFill ExtValue -> Reader (DataFill ExtValue).

(** What is known of every child that the composite decoders create. *)
Variable C : DataFill ExtValue -> Prop.
Hypothesis child_ok :
  forall idx flags sub_td h,
    yields C (decode_child sub_new sub_initWithRSRC idx flags sub_td h).

Lemma decoded_leaf (df : DataFill ExtValue) (k : DFClass)
      (v : Value ExtValue) :
  (forall l, v <> VNodes l) ->
  decoded_from C df (set_value df v)
  /\ decoded_from C df (set_value (set_cls df k) v).
Proof.
  intro Hv. unfold decoded_from.
  destruct (same_binding_set df df k v (same_binding_refl df)) as [H1 H2].
  rewrite !value_set_value.
  split; (split; [assumption|]); intros l E; destruct (Hv l E).
Qed.

Lemma decoded_nodes (df : DataFill ExtValue) (k : DFClass)
      (l : list (DataFill ExtValue)) :
  Forall C l ->
  decoded_from C df (set_value df (VNodes l))
  /\ decoded_from C df (set_value (set_cls df k) (VNodes l)).
Proof.
  intro Hl. unfold decoded_from.
  destruct (same_binding_set df df k (VNodes l) (same_binding_refl df))
    as [H1 H2].
  rewrite !value_set_value.
  split; (split; [assumption|]); intros l' E; injection E as <-; exact Hl.
Qed.

Ltac leaf :=
  repeat match goal with
    | |- yields _ (raise _) => apply yields_raise
    | |- yields _ (rbind _ _) => apply yields_rbind; intro
    | |- yields _ (if ?c then _ else _) => destruct c
    | |- yields _ (match ?x with _ => _ end) => destruct x
    | |- yields _ (ret (set_value (set_cls _ _) _)) =>
        apply yields_ret; apply decoded_leaf; intros ? ?; discriminate
    | |- yields _ (ret (set_value _ _)) =>
        apply yields_ret; apply decoded_leaf; try exact KVoid;
        intros ? ?; discriminate
    end.

Lemma yields_Cluster_init_loop (cs : list (Z * Z * TDObject * Z))
      (flags : option Z) :
  yields (Forall C) (Cluster_init_loop sub_new sub_initWithRSRC cs flags).
Proof.
  induction cs as [|[[[a b] c] d] cs IH]; cbn.
  - apply yields_ret. constructor.
  - apply (yields_rbind_with C); [apply child_ok|]. intros x Hx.
    apply (yields_rbind_with (Forall C)); [exact IH|]. intros xs Hxs.
    apply yields_ret. constructor; assumption.
Qed.

Lemma yields_TypeDef_init_loop (cs : list (Z * Z * TDObject * Z))
      (flags : option Z) :
  yields (Forall C) (TypeDef_init_loop sub_new sub_initWithRSRC cs flags).
Proof.
  induction cs as [|[[[a b] c] d] cs IH]; cbn.
  - apply yields_ret. constructor.
  - apply (yields_rbind_with C); [apply child_ok|]. intros x Hx.
    apply (yields_rbind_with (Forall C)); [exact IH|]. intros xs Hxs.
    apply yields_ret. constructor; assumption.
Qed.

Lemma yields_SpecialDSTMCluster_init_loop
      (cs : list (Z * Z * TDObject * Z)) (skip : bool) (flags : option Z) :
  yields (Forall C)
         (SpecialDSTMCluster_init_loop vi sub_new sub_initWithRSRC cs skip
                                       flags).
Proof.
  revert skip. induction cs as [|[[[a b] c] d] cs IH]; intro skip; cbn.
  - apply yields_ret. constructor.
  - apply yields_rbind. intro special.
    destruct (negb special); [apply IH|]. destruct skip; [apply IH|].
    apply (yields_rbind_with C); [apply child_ok|]. intros x Hx.
    apply (yields_rbind_with (Forall C)); [apply IH|]. intros xs Hxs.
    apply yields_ret. constructor; assumption.
Qed.

Lemma initWithRSRCParse_decoded_from (df : DataFill ExtValue) :
  yields (decoded_from C df)
         (initWithRSRCParse vi po ext sub_new sub_initWithRSRC df).
Proof.
  unfold initWithRSRCParse. destruct (cls df).
  all: try (unfold DataFillVoid_initWithRSRCParse,
      DataFillInt_initWithRSRCParse, DataFillFloat_initWithRSRCParse,
      DataFillComplex_initWithRSRCParse,
      DataFillString_initWithRSRCParse, DataFillPath_initWithRSRCParse,
      DataFillCString_initWithRSRCParse,
      DataFillArrayDataPtr_initWithRSRCParse,
      DataFillSimpleRefnum_initWithRSRCParse,
      DataFillUDRefnum_initWithRSRCParse, DataFillPtrTo_initWithRSRCParse,
      UInt32_initWithRSRCParse, DataFillLVVariant_initWithRSRCParse,
      DataFillComplexFixedPt_initWithRSRCParse,
      DataFillFixedPoint_initWithRSRCParse,
      DataFillBlock_initWithRSRCParse, DataFillIORefnum_initWithRSRCParse,
      DataFillUDTagRefnum_initWithRSRCParse,
      DataFillUDClassInst_initWithRSRCParse, DataFillPtr_initWithRSRCParse,
      DataFillExtData_initWithRSRCParse,
      DataFillUnexpected_initWithRSRCParse;
    cbv zeta; solve [leaf]).
  - (* boolean: the node after initVersion *)
    unfold DataFillBool_initWithRSRCParse.
    apply (yields_rbind_with (fun df1 => exists k, df1 = set_cls df k)).
    + intros bl bl' df1 E. unfold lift in E. injection E as _ E.
      unfold DataFillBool_initVersion in E.
      destruct (tdType df); try discriminate;
        try destruct (isGreaterOrEqVersion _ _ _ _ _);
        injection E as <-; eauto.
    + intros df1 [k ->]. apply yields_rbind. intro.
      apply yields_ret. apply decoded_leaf. intros ? ?; discriminate.
  - (* array *)
    unfold DataFillArray_initWithRSRCParse.
    apply yields_rbind. intro t. apply yields_rbind. intro ds.
    destruct (_ <? 1); [apply yields_raise|].
    destruct (last_client t) as [[i st]|]; [|apply yields_raise].
    destruct (_ >? _); [apply yields_raise|].
    apply (yields_rbind_with (Forall C)).
    + apply yields_repeat_read. apply child_ok.
    + intros l Hl. apply yields_ret. apply decoded_nodes. exact Hl.
  - (* cluster *)
    unfold DataFillCluster_initWithRSRCParse. apply yields_rbind. intro t.
    apply (yields_rbind_with (Forall C)); [apply yields_Cluster_init_loop|].
    intros l Hl. apply yields_ret. apply (decoded_nodes df KVoid). exact Hl.
  - (* measurement data *)
    unfold DataFillMeasureData_initWithRSRCParse.
    apply yields_rbind. intro t.
    apply (yields_rbind_with C); [apply child_ok|].
    intros c Hc. apply yields_ret. apply decoded_nodes.
    constructor; [exact Hc|constructor].
  - (* repeated block *)
    unfold DataFillRepeatedBlock_initWithRSRCParse.
    apply yields_rbind. intro. apply yields_rbind. intro t.
    destruct (_ >? _); [apply yields_raise|].
    apply (yields_rbind_with (Forall C)).
    + apply yields_repeat_read.
      destruct (last_client t) as [[i st]|];
        [apply child_ok|apply yields_raise].
    + intros l Hl. apply yields_ret. apply (decoded_nodes df KVoid). exact Hl.
  - (* type definition *)
    unfold DataFillTypeDef_initWithRSRCParse. apply yields_rbind. intro t.
    apply (yields_rbind_with (Forall C)); [apply yields_TypeDef_init_loop|].
    intros l Hl. apply yields_ret. apply (decoded_nodes df KVoid). exact Hl.
  - (* special cluster *)
    unfold SpecialDSTMCluster_initWithRSRCParse.
    apply yields_rbind. intro. apply yields_rbind. intro t.
    apply (yields_rbind_with (Forall C));
      [apply yields_SpecialDSTMCluster_init_loop|].
    intros l Hl. apply yields_ret. apply (decoded_nodes df KVoid). exact Hl.
Qed.

End DecodedNode.

Lemma newDataFillObjectWithTD_bound
      {ExtValue : Type} (vi : VI) (depth : nat) (idx : Z) (flags : option Z)
      (t : TDObject) (df : DataFill ExtValue) :
  newDataFillObjectWithTD vi depth idx flags t = Ok df ->
  bound_to_own_type df = true.
Proof.
  unfold newDataFillObjectWithTD. intro H.
  destruct (newDataFillObject (fullType t) _) as [df0|]; [|discriminate].
  cbn [bind] in H.
  destruct depth as [|d]; [discriminate|]. cbn [setTD] in H.
  destruct (setTD_method_Ok_binding vi _ df0 df t idx flags H)
    as (Hty & Htd & _ & _ & _ & Hty' & _).
  unfold bound_to_own_type. rewrite Htd, Hty', Hty.
  apply TD_FULL_TYPE_beq_eq. reflexivity.
Qed.

Lemma tree_all_of_children {ExtValue : Type} (p : DataFill ExtValue -> bool)
      (df : DataFill ExtValue) :
  p df = true ->
  (forall l, value df = VNodes l ->
             Forall (fun c => forall n, tree_all p n c = true) l) ->
  forall n, tree_all p n df = true.
Proof.
  intros Hp Hch [|n]; cbn [tree_all]; rewrite Hp; cbn [andb]; [reflexivity|].
  destruct (value df) as [| | | |l] eqn:Ev; try reflexivity.
  apply forallb_forall. intros c Hin.
  specialize (Hch l eq_refl). rewrite Forall_forall in Hch.
  exact (Hch c Hin n).
Qed.

(** X2: binary decode changes neither the type tag, the subtype, the
    index, the flag word nor the descriptor of the node it fills, and
    in the tree it builds every descendant, at every level, is bound to
    a descriptor of the descendant's own type tag. *)
Theorem initWithRSRC_keeps_binding
        {ExtValue : Type} (vi : VI) (po : PO) (ext : External ExtValue)
        (depth : nat) (df df' : DataFill ExtValue) (bl bl' : BytesIO) :
  initWithRSRC vi po ext depth df bl = (bl', Ok df') ->
  same_binding df df'
  /\ forall l, value df' = VNodes l ->
               Forall (fun c => forall n,
                           tree_all bound_to_own_type n c = true) l.
Proof.
  revert df df' bl bl'.
  induction depth as [|d IH]; intros df df' bl bl' H; [discriminate|].
  cbn [initWithRSRC] in H.
  refine (initWithRSRCParse_decoded_from vi po ext
            (newDataFillObjectWithTD vi d) (initWithRSRC vi po ext d)
            (fun c => forall n, tree_all bound_to_own_type n c = true)
            _ df bl bl' df' H).
  intros idx flags sub_td h. unfold decode_child.
  apply yields_try_except.
  apply (yields_rbind_with (fun c => bound_to_own_type c = true)).
  - intros b b' c E. unfold lift in E. injection E as _ E.
    exact (newDataFillObjectWithTD_bound vi d idx flags sub_td c E).
  - intros c0 Hb b b' c E. destruct (IH c0 c b b' E) as [Hs Hch].
    apply tree_all_of_children; [|exact Hch].
    destruct Hs as (Hty & _ & _ & _ & Htd).
    unfold bound_to_own_type in *. rewrite Htd, Hty. exact Hb.
Qed.

(** ** Integers: what encode accepts, and the round trip *)

(** X11: binary encode of an integer node holding [z] returns exactly
    [size] bytes when [z] fits the width and signedness of the node, and
    raises OverflowError when it does not. *)
Theorem DataFillInt_prepareRSRCData_range
        {ExtValue : Type} (vi : VI) (ext : External ExtValue) (depth : nat)
        (a : bool) (df : DataFill ExtValue) (size z : Z) (signed : bool) :
  cls df = KInt size signed ->
  value df = VPy (PyInt z) ->
  0 <= size ->
  let fits := if signed then - 256 ^ size <= 2 * z < 256 ^ size
              else 0 <= z < 256 ^ size in
  (fits ->
   exists data_buf,
     prepareRSRCData vi ext (S depth) a df = Ok (data_buf, df)
     /\ Z.of_nat (length data_buf) = size
     /\ int_from_bytes data_buf signed = z)
  /\ (~ fits -> prepareRSRCData vi ext (S depth) a df = Err OverflowError).
Proof.
  intros Hc Hv Hs fits. subst fits.
  cbn [prepareRSRCData]. unfold prepareRSRCData_method. rewrite Hc.
  unfold DataFillInt_prepareRSRCData. rewrite Hv.
  cbn [int_value py_int bind].
  assert (Hcases :
    (if signed then - 256 ^ size <= 2 * z < 256 ^ size
     else 0 <= z < 256 ^ size)
    -> exists b, int_to_bytes z size signed = Ok b).
  { unfold int_to_bytes. destruct (Z.ltb_spec size 0); [lia|].
    destruct signed; intro Hf.
    - destruct (Z.leb_spec (- 256 ^ size) (2 * z)); [|lia].
      destruct (Z.ltb_spec (2 * z) (256 ^ size)); [|lia]. cbn. eauto.
    - destruct (Z.leb_spec 0 z); [|lia].
      destruct (Z.ltb_spec z (256 ^ size)); [|lia]. cbn. eauto. }
  split.
  - intro Hf. destruct (Hcases Hf) as (b & Hb). rewrite Hb. cbn [bind].
    exists b. split; [reflexivity|].
    split; [exact (int_to_bytes_length _ _ _ _ Hb)
           |exact (int_from_to_bytes _ _ _ _ Hb)].
  - intro Hnf. unfold int_to_bytes. destruct (Z.ltb_spec size 0); [lia|].
    destruct signed.
    + destruct (Z.leb_spec (- 256 ^ size) (2 * z));
        destruct (Z.ltb_spec (2 * z) (256 ^ size)); cbn; try reflexivity.
      exfalso. apply Hnf. lia.
    + destruct (Z.leb_spec 0 z);
        destruct (Z.ltb_spec z (256 ^ size)); cbn; try reflexivity.
      exfalso. apply Hnf. lia.
Qed.



(** ** The end of the stream *)

Lemma read_at_end (size : Z) (bl : BytesIO) :
  (length (getvalue bl) <= tell bl)%nat ->
  read size bl = (bl, Ok []).
Proof.
  intro H. unfold read. rewrite skipn_all2 by exact H.
  rewrite firstn_nil. destruct (size <? 0); cbn [length];
    rewrite Nat.add_0_r; destruct bl; reflexivity.
Qed.

(** X14: at the end of the stream decode does not raise: a node of an
    integer class is filled with 0 and a string node with the empty
    string, and the position stays where it is. *)
Theorem initWithRSRC_at_end_of_stream
        {ExtValue : Type} (vi : VI) (po : PO) (ext : External ExtValue)
        (depth : nat) (df : DataFill ExtValue) (bl : BytesIO) :
  (length (getvalue bl) <= tell bl)%nat ->
  (forall size signed,
      cls df = KInt size signed ->
      initWithRSRC vi po ext (S depth) df bl
      = (bl, Ok (set_value df (VPy (PyInt 0)))))
  /\ (cls df = KString ->
      initWithRSRC vi po ext (S depth) df bl
      = (bl, Ok (set_value df (VPy (PyBytes []))))).
Proof.
  intro Hend. split.
  - intros size signed Hc. cbn [initWithRSRC]. unfold initWithRSRCParse.
    rewrite Hc. unfold DataFillInt_initWithRSRCParse, read_int.
    rewrite (rbind_ok _ _ _ _ _
               (rbind_ok _ _ _ _ _ (read_at_end size bl Hend))).
    unfold ret. destruct signed; reflexivity.
  - intro Hc. cbn [initWithRSRC]. unfold initWithRSRCParse. rewrite Hc.
    unfold DataFillString_initWithRSRCParse, read_int.
    rewrite (rbind_ok _ _ _ _ _
               (rbind_ok _ _ _ _ _ (read_at_end 4 bl Hend))).
    unfold ret at 1.
    rewrite (rbind_ok _ _ _ _ _ (read_at_end _ bl Hend)).
    reflexivity.
Qed.

(** ** Repeated blocks and class instances: the limits *)

(** X15: a repeated block whose declared repeat count exceeds
    [array_data_limit] is refused before any byte is read; otherwise a
    decode that returns has created exactly that many children. *)
Theorem DataFillRepeatedBlock_count
        {ExtValue : Type} (vi : VI) (po : PO) (ext : External ExtValue)
        (depth : nat) (df : DataFill ExtValue) (t : TDObject)
        (bl : BytesIO) :
  cls df = KRepeatedBlock ->
  td df = Some t ->
  get_or_raise_VCTP ext = Ok tt ->
  (numRepeats t > array_data_limit po ->
   initWithRSRC vi po ext (S depth) df bl
   = (bl, Err (RuntimeError (ClaimsToContain (numRepeats t)
                                             (array_data_limit po)))))
  /\ (numRepeats t <= array_data_limit po ->
      forall bl' df',
        initWithRSRC vi po ext (S depth) df bl = (bl', Ok df') ->
        exists l, value df' = VNodes l
                  /\ length l = Z.to_nat (numRepeats t)).
Proof.
  intros Hc Ht Hv. cbn [initWithRSRC]. unfold initWithRSRCParse.
  rewrite Hc. unfold DataFillRepeatedBlock_initWithRSRCParse, self_td.
  rewrite Hv, Ht.
  rewrite (rbind_ok (lift (Ok tt)) _ bl bl tt eq_refl).
  rewrite (rbind_ok (lift (Ok t)) _ bl bl t eq_refl).
  split; intro Hn.
  - destruct (Z.gtb_spec (numRepeats t) (array_data_limit po)); [|lia].
    reflexivity.
  - destruct (Z.gtb_spec (numRepeats t) (array_data_limit po)); [lia|].
    intros bl' df' Hrun. unfold rbind in Hrun.
    destruct (repeat_read _ _ bl) as [bl1 [l|e]] eqn:E; [|discriminate].
    unfold ret in Hrun. injection Hrun as _ <-.
    exists l. split; [destruct df; reflexivity|].
    exact (repeat_read_length _ _ _ _ _ E).
Qed.

(** X16: decode of a class-instance refnum reads the 4-byte level count,
    the 1-byte length of the library name, the name, and the padding to
    a multiple of 4, in that order; a level count that exceeds
    [typedesc_list_limit] is then refused, the stream standing right
    after the name and its padding; otherwise that many version strings
    are read from there, and decode returns the node with the name that
    was read and the list of exactly that many strings. *)
Theorem DataFillUDClassInst_levels
        {ExtValue : Type} (vi : VI) (po : PO) (ext : External ExtValue)
        (depth : nat) (df : DataFill ExtValue) (libName : bytes)
        (bl : BytesIO) :
  cls df = KUDClassInst libName ->
  exists numLevels bl1 strlen bl2 name bl3 pad bl4,
    read_int 4 false bl = (bl1, Ok numLevels)
    /\ read_int 1 false bl1 = (bl2, Ok strlen)
    /\ read strlen bl2 = (bl3, Ok name)
    /\ (if Z.of_nat (tell bl3) mod 4 >? 0
        then read (4 - Z.of_nat (tell bl3) mod 4) else ret []) bl3
       = (bl4, Ok pad)
    /\ 0 <= numLevels
    /\ (numLevels > typedesc_list_limit po ->
        initWithRSRC vi po ext (S depth) df bl
        = (bl4, Err (RuntimeError
                       (ClaimsToContain numLevels
                                        (typedesc_list_limit po)))))
    /\ (numLevels <= typedesc_list_limit po ->
        exists bl5 l,
          repeat_read (Z.to_nat numLevels)
            (datalen <~ read_int 4 false ;;
             libVersion <~ read datalen ;;
             ret (PyBytes libVersion)) bl4 = (bl5, Ok l)
          /\ initWithRSRC vi po ext (S depth) df bl
             = (bl5, Ok (set_value (set_cls df (KUDClassInst name))
                                   (VPyList l)))
          /\ length l = Z.to_nat numLevels
          /\ Forall (fun x => exists b, x = PyBytes b) l).
Proof.
  intro Hc.
  destruct (read_int_ok 4 false bl) as (numLevels & bl1 & H1).
  destruct (read_int_ok 1 false bl1) as (strlen & bl2 & H2).
  destruct (read_ok strlen bl2) as (name & bl3 & H3).
  assert (Hpad : exists pad bl4,
             (if Z.of_nat (tell bl3) mod 4 >? 0
              then read (4 - Z.of_nat (tell bl3) mod 4) else ret []) bl3
             = (bl4, Ok pad)).
  { destruct (_ >? 0); [apply read_ok|unfold ret; eauto]. }
  destruct Hpad as (pad & bl4 & H4).
  exists numLevels, bl1, strlen, bl2, name, bl3, pad, bl4.
  split; [exact H1|]. split; [exact H2|]. split; [exact H3|].
  split; [exact H4|].
  assert (Hpos : 0 <= numLevels).
  { unfold read_int, rbind, read, ret in H1. injection H1 as _ <-.
    rewrite int_from_bytes_unsigned.
    apply from_bytes_unsigned_range. }
  split; [exact Hpos|].
  cbn [initWithRSRC]. unfold initWithRSRCParse. rewrite Hc.
  unfold DataFillUDClassInst_initWithRSRCParse.
  rewrite (rbind_ok _ _ _ _ _ H1).
  rewrite (rbind_ok _ _ _ _ _ H2).
  rewrite (rbind_ok _ _ _ _ _ H3).
  rewrite (rbind_ok get_pos _ bl3 bl3 (tell bl3) eq_refl).
  rewrite (rbind_ok _ _ _ _ _ H4).
  split; intro Hn.
  - destruct (Z.gtb_spec numLevels (typedesc_list_limit po)); [|lia].
    reflexivity.
  - destruct (Z.gtb_spec numLevels (typedesc_list_limit po)); [lia|].
    assert (Hrep : forall n b,
               exists b' l,
                 repeat_read n
                   (datalen <~ read_int 4 false ;;
                    libVersion <~ read datalen ;;
                    ret (PyBytes libVersion)) b = (b', Ok l)
                 /\ length l = n
                 /\ Forall (fun x => exists s, x = PyBytes s) l).
    { induction n as [|n IH]; intro b.
      - exists b, []. cbn. unfold ret. repeat split. constructor.
      - cbn [repeat_read].
        destruct (read_int_ok 4 false b) as (dl & b1 & Hd).
        destruct (read_ok dl b1) as (lv & b2 & Hlv).
        destruct (IH b2) as (b3 & l & Hr & Hl & Hf).
        exists b3, (PyBytes lv :: l).
        rewrite (rbind_ok _ _ b b2 (PyBytes lv)).
        + rewrite (rbind_ok _ _ _ _ _ Hr). unfold ret. cbn [length].
          repeat split; [lia|]. constructor; [eauto|exact Hf].
        + rewrite (rbind_ok _ _ _ _ _ Hd), (rbind_ok _ _ _ _ _ Hlv).
          reflexivity. }
    destruct (Hrep (Z.to_nat numLevels) bl4) as (bl5 & l & Hr & Hl & Hf).
    exists bl5, l. split; [exact Hr|]. rewrite (rbind_ok _ _ _ _ _ Hr).
    unfold ret. repeat split; assumption.
Qed.

(** ** Round trips of the refnum and fixed-point classes *)

Lemma read_int_at (z size : Z) (signed : bool) (b pre rest : bytes) :
  int_to_bytes z size signed = Ok b ->
  read_int size signed (mkBytesIO (pre ++ b ++ rest) (length pre))
  = (mkBytesIO (pre ++ b ++ rest) (length pre + length b), Ok z).
Proof.
  intro Hb. unfold read_int.
  rewrite <- (int_to_bytes_length _ _ _ _ Hb).
  rewrite (rbind_ok _ _ _ _ _ (read_at pre b rest)).
  unfold ret. rewrite (int_from_to_bytes _ _ _ _ Hb). reflexivity.
Qed.

Lemma read_lstr_at (v b pre rest : bytes) :
  lstr_bytes (PyBytes v) = Ok b ->
  length b = (4 + length v)%nat
  /\ forall {A} (k : bytes -> Reader A),
      (strlen <~ read_int 4 false ;; got <~ read strlen ;; k got)
        (mkBytesIO (pre ++ b ++ rest) (length pre))
      = k v (mkBytesIO (pre ++ b ++ rest) (length pre + length b)).
Proof.
  intro Hb. unfold lstr_bytes in Hb. cbn [py_len bind] in Hb.
  destruct (int_to_bytes (Z.of_nat (length v)) 4 false) as [l|] eqn:E;
    [|discriminate].
  cbn [bind] in Hb. injection Hb as <-.
  pose proof (int_to_bytes_length _ _ _ _ E) as Hl.
  split; [rewrite length_app; lia|].
  intros A k. rewrite <- app_assoc.
  rewrite (rbind_ok _ _ _ _ _ (read_int_at _ _ _ l pre (v ++ rest) E)).
  replace (pre ++ l ++ v ++ rest) with ((pre ++ l) ++ v ++ rest)
    by (rewrite <- app_assoc; reflexivity).
  rewrite <- (length_app pre l).
  rewrite (rbind_ok _ _ _ _ _ (read_at (pre ++ l) v rest)).
  rewrite !length_app, Nat.add_assoc. reflexivity.
Qed.


Lemma set_cls_same {ExtValue : Type} (df : DataFill ExtValue) (k : DFClass) :
  cls df = k -> set_cls df k = df.
Proof. destruct df. cbn. intros <-. reflexivity. Qed.




(** ** Arrays of integers *)





(** ** Decoding into a node that was decoded before *)

Section DecodingAgain.

Context {ExtValue : Type}.
Variable vi : VI.
Variable po : PO.
Variable ext : External ExtValue.
Variable sub_new : Z -> option Z -> TDObject -> result (DataFill ExtValue).
Variable sub_initWithRSRC : DataFill ExtValue -> Reader (DataFill ExtValue).

Ltac again :=
  repeat match goal with
    | |- yields _ (raise _) => apply yields_raise
    | |- yields _ (rbind _ _) => apply yields_rbind; intro
    | |- yields _ (if ?c then _ else _) => destruct c
    | |- yields _ (match ?x with _ => _ end) => destruct x
    | |- yields _ (ret _) => apply yields_ret; intro; reflexivity
    end.

(** What decode leaves of the node it was called on does not show in a
    later decode: the value and the fields that decode assigns are
    overwritten. *)
Lemma initWithRSRCParse_of_decoded (df : DataFill ExtValue) :
  yields (fun df' =>
            forall bl,
              initWithRSRCParse vi po ext sub_new sub_initWithRSRC df' bl
              = initWithRSRCParse vi po ext sub_new sub_initWithRSRC df bl)
         (initWithRSRCParse vi po ext sub_new sub_initWithRSRC df).
Proof.
  destruct df as [k ty sub idx fl otd val].
  unfold initWithRSRCParse at 3. cbn [cls]. destruct k.
  all: try (unfold DataFillVoid_initWithRSRCParse,
      DataFillInt_initWithRSRCParse, DataFillFloat_initWithRSRCParse,
      DataFillComplex_initWithRSRCParse,
      DataFillString_initWithRSRCParse, DataFillPath_initWithRSRCParse,
      DataFillCString_initWithRSRCParse,
      DataFillArrayDataPtr_initWithRSRCParse,
      DataFillSimpleRefnum_initWithRSRCParse,
      DataFillUDRefnum_initWithRSRCParse, DataFillPtrTo_initWithRSRCParse,
      UInt32_initWithRSRCParse, DataFillLVVariant_initWithRSRCParse,
      DataFillComplexFixedPt_initWithRSRCParse,
      DataFillFixedPoint_initWithRSRCParse,
      DataFillBlock_initWithRSRCParse, DataFillIORefnum_initWithRSRCParse,
      DataFillUDTagRefnum_initWithRSRCParse,
      DataFillUDClassInst_initWithRSRCParse, DataFillPtr_initWithRSRCParse,
      DataFillExtData_initWithRSRCParse,
      DataFillUnexpected_initWithRSRCParse,
      DataFillArray_initWithRSRCParse, DataFillCluster_initWithRSRCParse,
      DataFillMeasureData_initWithRSRCParse,
      DataFillRepeatedBlock_initWithRSRCParse,
      DataFillTypeDef_initWithRSRCParse,
      SpecialDSTMCluster_initWithRSRCParse;
    cbv zeta; cbn [tdType]; solve [again]).
  (* boolean: the node after initVersion *)
  unfold DataFillBool_initWithRSRCParse.
  apply (yields_rbind_with
           (fun df1 => exists s,
                df1 = mkDataFill (KBool (Some s)) ty sub idx fl otd val)).
  - intros bl bl' df1 E. unfold lift in E. injection E as _ E.
    unfold DataFillBool_initVersion in E. cbn [tdType set_cls] in E.
    destruct ty; try discriminate;
      try destruct (isGreaterOrEqVersion _ _ _ _ _);
      injection E as <-; eauto.
  - intros df1 [s1 ->]. apply yields_rbind. intro b. apply yields_ret.
    intro bl. unfold initWithRSRCParse. cbn [cls set_value].
    unfold DataFillBool_initWithRSRCParse, DataFillBool_initVersion.
    cbn [tdType set_cls].
    destruct ty; try reflexivity;
      destruct (isGreaterOrEqVersion _ _ _ _ _); reflexivity.
Qed.

End DecodingAgain.

(** X21: binary decode does not depend on what the node held before:
    decoding into the node that an earlier decode has returned gives, on
    every stream, the result of decoding into the node the earlier
    decode was called on. *)
Theorem initWithRSRC_overwrites_decoded_node
        {ExtValue : Type} (vi : VI) (po : PO) (ext : External ExtValue)
        (depth : nat) (df df' : DataFill ExtValue) (bl bl' bl2 : BytesIO) :
  initWithRSRC vi po ext depth df bl = (bl', Ok df') ->
  initWithRSRC vi po ext depth df' bl2 = initWithRSRC vi po ext depth df bl2.
Proof.
  destruct depth as [|d]; [discriminate|]. cbn [initWithRSRC]. intro H.
  exact (initWithRSRCParse_of_decoded vi po ext _ _ df _ _ _ H bl2).
Qed.

(** ** Decoding again what encode wrote for a decoded tree *)

Lemma rbind_Ok_inv {A B} (m : Reader A) (k : A -> Reader B)
      (bl bl' : BytesIO) (b : B) :
  rbind m k bl = (bl', Ok b) ->
  exists bl1 a, m bl = (bl1, Ok a) /\ k a bl1 = (bl', Ok b).
Proof.
  unfold rbind. destruct (m bl) as [bl1 [a|e]]; [eauto|discriminate].
Qed.

Lemma lift_Ok_inv {A} (r : result A) (bl bl' : BytesIO) (a : A) :
  lift r bl = (bl', Ok a) -> r = Ok a /\ bl' = bl.
Proof. unfold lift. intro H. injection H as <- ->. auto. Qed.

Lemma ret_Ok_inv {A} (x a : A) (bl bl' : BytesIO) :
  ret x bl = (bl', Ok a) -> a = x.
Proof. unfold ret. intro H. injection H as _ <-. reflexivity. Qed.

Lemma bind_Ok_inv {A B} (m : result A) (k : A -> result B) (b : B) :
  bind m k = Ok b -> exists a, m = Ok a /\ k a = Ok b.
Proof. destruct m as [a|e]; cbn; [eauto|discriminate]. Qed.

Lemma stream_after (pre b rest : bytes) :
  mkBytesIO (pre ++ b ++ rest) (length pre + length b)
  = mkBytesIO ((pre ++ b) ++ rest) (length (pre ++ b)).
Proof. rewrite length_app, <- app_assoc. reflexivity. Qed.

Section ReadingBack.

Context {ExtValue : Type}.
Variable vi : VI.
Variable po : PO.
Variable ext : External ExtValue.
Variable sub_new : Z -> option Z -> TDObject -> result (DataFill ExtValue).
Variable sub_initWithRSRC : DataFill ExtValue -> Reader (DataFill ExtValue).
Variable sub_prepareRSRCData :
  bool -> DataFill ExtValue -> result (bytes * DataFill ExtValue).
Variable good : DataFill ExtValue -> bool.
Variable a : bool.

Hypothesis sub_reads_back :
  forall df, reads_back good (sub_prepareRSRCData a) (sub_initWithRSRC df).

Lemma reads_back_decode_child (idx : Z) (flags : option Z)
      (sub_td : TDObject) (h : exn -> exn) :
  reads_back good (sub_prepareRSRCData a)
             (decode_child sub_new sub_initWithRSRC idx flags sub_td h).
Proof.
  intros bl bl' c b c' pre rest Hrun Hgood Henc.
  unfold decode_child, try_except, rbind, lift in *.
  destruct (sub_new idx flags sub_td) as [c0|e]; [|discriminate].
  destruct (sub_initWithRSRC c0 bl) as [bl1 [x|e]] eqn:E; [|discriminate].
  injection Hrun as _ <-.
  rewrite (sub_reads_back c0 _ _ _ _ _ pre rest E Hgood Henc). reflexivity.
Qed.

(** A decoder that returns lists, made of a first element read by
    [one] and the rest read by [more]. *)
Lemma reads_back_cons (one : Reader (DataFill ExtValue))
      (more : Reader (list (DataFill ExtValue))) :
  reads_back good (sub_prepareRSRCData a) one ->
  reads_back (forallb good) (prepare_each sub_prepareRSRCData a) more ->
  reads_back (forallb good) (prepare_each sub_prepareRSRCData a)
             (x <~ one ;; xs <~ more ;; ret (x :: xs)).
Proof.
  intros Hone Hmore bl bl' l body l' pre rest Hrun Hgood Henc.
  apply rbind_Ok_inv in Hrun. destruct Hrun as (bl1 & x & Hx & Hrun).
  apply rbind_Ok_inv in Hrun. destruct Hrun as (bl2 & xs & Hxs & Hrun).
  apply ret_Ok_inv in Hrun. subst l.
  cbn [forallb] in Hgood. apply andb_true_iff in Hgood.
  destruct Hgood as [Hgx Hgxs].
  cbn [prepare_each] in Henc.
  apply bind_Ok_inv in Henc. destruct Henc as ([b x'] & Hb & Henc).
  apply bind_Ok_inv in Henc. destruct Henc as ([bs xs'] & Hbs & Henc).
  cbn [fst snd] in Henc. injection Henc as <- <-.
  rewrite <- app_assoc.
  rewrite (rbind_ok _ _ _ _ _
             (Hone _ _ _ _ _ pre (bs ++ rest) Hx Hgx Hb)).
  rewrite stream_after.
  rewrite (rbind_ok _ _ _ _ _
             (Hmore _ _ _ _ _ (pre ++ b) rest Hxs Hgxs Hbs)).
  unfold ret. rewrite !length_app, <- !app_assoc, Nat.add_assoc.
  reflexivity.
Qed.

Lemma reads_back_nil :
  reads_back (forallb good) (prepare_each sub_prepareRSRCData a) (ret []).
Proof.
  intros bl bl' l body l' pre rest Hrun _ Henc.
  apply ret_Ok_inv in Hrun. subst l. cbn in Henc. injection Henc as <- _.
  unfold ret. cbn [app length]. rewrite Nat.add_0_r. reflexivity.
Qed.

Lemma reads_back_raise {A} (g : A -> bool) (enc : A -> result (bytes * A))
      (e : exn) :
  reads_back g enc (raise e).
Proof. intros bl bl' c b c' pre rest Hrun. discriminate Hrun. Qed.

Lemma reads_back_repeat_read (n : nat) (one : Reader (DataFill ExtValue)) :
  reads_back good (sub_prepareRSRCData a) one ->
  reads_back (forallb good) (prepare_each sub_prepareRSRCData a)
             (repeat_read n one).
Proof.
  intro Hone. induction n as [|n IH]; cbn [repeat_read].
  - apply reads_back_nil.
  - apply reads_back_cons; assumption.
Qed.

Lemma reads_back_Cluster_init_loop (cs : list (Z * Z * TDObject * Z))
      (flags : option Z) :
  reads_back (forallb good) (prepare_each sub_prepareRSRCData a)
             (Cluster_init_loop sub_new sub_initWithRSRC cs flags).
Proof.
  induction cs as [|[[[cli_idx td_idx] sub_td] f] cs IH];
    cbn [Cluster_init_loop].
  - apply reads_back_nil.
  - apply reads_back_cons; [apply reads_back_decode_child|exact IH].
Qed.

Lemma reads_back_TypeDef_init_loop (cs : list (Z * Z * TDObject * Z))
      (flags : option Z) :
  reads_back (forallb good) (prepare_each sub_prepareRSRCData a)
             (TypeDef_init_loop sub_new sub_initWithRSRC cs flags).
Proof.
  induction cs as [|[[[cli_idx td_idx] sub_td] f] cs IH];
    cbn [TypeDef_init_loop].
  - apply reads_back_nil.
  - apply reads_back_cons; [apply reads_back_decode_child|exact IH].
Qed.

Lemma reads_back_SpecialDSTMCluster_init_loop
      (cs : list (Z * Z * TDObject * Z)) (skipNextEntry : bool)
      (flags : option Z) :
  reads_back (forallb good) (prepare_each sub_prepareRSRCData a)
             (SpecialDSTMCluster_init_loop vi sub_new sub_initWithRSRC cs
                                           skipNextEntry flags).
Proof.
  revert skipNextEntry.
  induction cs as [|[[[cli_idx td_idx] sub_td] f] cs IH];
    intro skipNextEntry; cbn [SpecialDSTMCluster_init_loop].
  - apply reads_back_nil.
  - destruct (isSpecialDSTMClusterElement vi cli_idx flags) as [special|e].
    + intros bl bl' l body l' pre rest Hrun.
      rewrite (rbind_ok (lift (Ok special)) _ _ _ special eq_refl) in Hrun.
      rewrite (rbind_ok (lift (Ok special)) _ _ _ special eq_refl).
      revert Hrun. destruct special; cbn [negb].
      * destruct skipNextEntry; [apply IH|].
        apply reads_back_cons; [apply reads_back_decode_child|apply IH].
      * apply IH.
    + intros bl bl' l body l' pre rest Hrun. discriminate Hrun.
Qed.

(** The encoder of a composite node writes its children one after the
    other. *)
Lemma children_prepareRSRCData_nodes
      (df df' : DataFill ExtValue) (l : list (DataFill ExtValue))
      (b : bytes) :
  value df = VNodes l ->
  children_prepareRSRCData sub_prepareRSRCData a df = Ok (b, df') ->
  exists l', prepare_each sub_prepareRSRCData a l = Ok (b, l').
Proof.
  intros Hv H. unfold children_prepareRSRCData in H. rewrite Hv in H.
  cbn [sub_nodes bind] in H.
  destruct (prepare_each sub_prepareRSRCData a l) as [[b0 l0]|];
    [|discriminate].
  cbn [bind fst snd] in H. injection H as <- _. eauto.
Qed.

Lemma rereadable_with_children (df : DataFill ExtValue)
      (l : list (DataFill ExtValue)) :
  rereadable_with good df = true -> value df = VNodes l ->
  forallb good l = true.
Proof.
  unfold rereadable_with. intros H Hv. rewrite Hv in H.
  apply andb_true_iff in H. exact (proj2 H).
Qed.

Ltac inv_bind H :=
  let bl1 := fresh "bl" in
  let x := fresh "x" in
  let Hm := fresh "Hm" in
  apply rbind_Ok_inv in H; destruct H as (bl1 & x & Hm & H).

Ltac inv_lift H :=
  let E := fresh "E" in
  apply lift_Ok_inv in H; destruct H as (E & ->).

Lemma reads_back_DataFillVoid (df : DataFill ExtValue) :
  cls df = KVoid \/ cls df = KUnexpected ->
  reads_back (rereadable_with good)
             (prepareRSRCData_method vi ext sub_prepareRSRCData a)
             (ret (set_value df (VPy PyNone))).
Proof.
  intros Hc bl bl' df' b df'' pre rest Hrun _ Henc.
  apply ret_Ok_inv in Hrun. subst df'.
  unfold prepareRSRCData_method in Henc.
  destruct df as [k ty sub idx fl otd val]. cbn in Hc.
  cbn [cls set_value] in Henc.
  destruct Hc as [-> | ->]; injection Henc as <- _;
    unfold ret; cbn [app length]; rewrite Nat.add_0_r; reflexivity.
Qed.

Lemma reads_back_DataFillInt (df : DataFill ExtValue) (size : Z)
      (signed : bool) :
  cls df = KInt size signed ->
  reads_back (rereadable_with good)
             (prepareRSRCData_method vi ext sub_prepareRSRCData a)
             (DataFillInt_initWithRSRCParse size signed df).
Proof.
  intros Hc bl bl' df' b df'' pre rest Hrun _ Henc.
  unfold DataFillInt_initWithRSRCParse in *.
  inv_bind Hrun. apply ret_Ok_inv in Hrun. subst df'.
  unfold prepareRSRCData_method in Henc.
  destruct df as [k ty sub idx fl otd val]. cbn in Hc. subst k.
  cbn [cls set_value] in Henc. unfold DataFillInt_prepareRSRCData in Henc.
  cbn [value int_value py_int bind] in Henc.
  destruct (int_to_bytes x size signed) as [d|] eqn:E; [|discriminate].
  cbn [bind] in Henc. injection Henc as <- _.
  rewrite (rbind_ok _ _ _ _ _ (read_int_at _ _ _ d pre rest E)).
  reflexivity.
Qed.

Lemma reads_back_UInt32 (df : DataFill ExtValue) :
  (forall v,
      prepareRSRCData_method vi ext sub_prepareRSRCData a (set_value df v)
      = UInt32_prepareRSRCData (set_value df v)) ->
  reads_back (rereadable_with good)
             (prepareRSRCData_method vi ext sub_prepareRSRCData a)
             (UInt32_initWithRSRCParse df).
Proof.
  intros Hm bl bl' df' b df'' pre rest Hrun _ Henc.
  unfold UInt32_initWithRSRCParse in *.
  inv_bind Hrun. apply ret_Ok_inv in Hrun. subst df'.
  rewrite Hm in Henc. unfold UInt32_prepareRSRCData in Henc.
  rewrite value_set_value in Henc. cbn [int_value py_int bind] in Henc.
  destruct (int_to_bytes x 4 false) as [d|] eqn:E; [|discriminate].
  cbn [bind] in Henc. injection Henc as <- _.
  rewrite (rbind_ok _ _ _ _ _ (read_int_at _ _ _ d pre rest E)).
  reflexivity.
Qed.

Lemma reads_back_DataFillBool (df : DataFill ExtValue) (s : option Z) :
  cls df = KBool s ->
  reads_back (rereadable_with good)
             (prepareRSRCData_method vi ext sub_prepareRSRCData a)
             (DataFillBool_initWithRSRCParse vi df).
Proof.
  intros Hc bl bl' df' b df'' pre rest Hrun _ Henc.
  unfold DataFillBool_initWithRSRCParse in *.
  inv_bind Hrun. inv_lift Hm. inv_bind Hrun. apply ret_Ok_inv in Hrun.
  subst df'. rewrite E.
  rewrite (rbind_ok (lift (Ok x)) _ _ _ x eq_refl).
  assert (Hx : exists size, cls x = KBool (Some size)).
  { unfold DataFillBool_initVersion in E.
    destruct df as [k ty sub idx fl otd val].
    cbn [tdType] in E.
    destruct ty; try discriminate;
      try (destruct (isGreaterOrEqVersion _ _ _ _ _));
      injection E as <-; cbn; eauto. }
  destruct Hx as (size & Hx).
  unfold prepareRSRCData_method in Henc.
  destruct x as [k ty sub idx fl otd val]. cbn in Hx. subst k.
  cbn [cls set_value] in Henc. unfold DataFillBool_prepareRSRCData in Henc.
  cbn [value int_value py_int bind bool_size cls] in Henc.
  destruct (int_to_bytes (int_from_bytes x0 false) size false) as [d|] eqn:Ed;
    [|discriminate].
  cbn [bind] in Henc. injection Henc as <- _.
  cbn [bool_size cls].
  rewrite <- (int_to_bytes_length _ _ _ _ Ed).
  rewrite (rbind_ok _ _ _ _ _ (read_at pre d rest)).
  unfold ret. rewrite (int_from_to_bytes _ _ _ _ Ed). reflexivity.
Qed.

Lemma reads_back_DataFillString (df : DataFill ExtValue) :
  cls df = KString ->
  reads_back (rereadable_with good)
             (prepareRSRCData_method vi ext sub_prepareRSRCData a)
             (DataFillString_initWithRSRCParse df).
Proof.
  intros Hc bl bl' df' b df'' pre rest Hrun _ Henc.
  unfold DataFillString_initWithRSRCParse in *.
  inv_bind Hrun. inv_bind Hrun. apply ret_Ok_inv in Hrun. subst df'.
  unfold prepareRSRCData_method in Henc.
  destruct df as [k ty sub idx fl otd val]. cbn in Hc. subst k.
  cbn [cls set_value] in Henc. unfold DataFillString_prepareRSRCData in Henc.
  cbn [value] in Henc.
  destruct (lstr_bytes (PyBytes x0)) as [d|] eqn:E; [|discriminate].
  cbn [bind] in Henc. injection Henc as <- _.
  destruct (read_lstr_at x0 d pre rest E) as (_ & Hr).
  rewrite Hr. reflexivity.
Qed.

Lemma reads_back_DataFillBlock (df : DataFill ExtValue) :
  cls df = KBlock ->
  reads_back (rereadable_with good)
             (prepareRSRCData_method vi ext sub_prepareRSRCData a)
             (DataFillBlock_initWithRSRCParse df).
Proof.
  intros Hc bl bl' df' b df'' pre rest Hrun Hgood Henc.
  unfold DataFillBlock_initWithRSRCParse in *.
  inv_bind Hrun. inv_lift Hm. inv_bind Hrun. apply ret_Ok_inv in Hrun.
  subst df'. rewrite E.
  rewrite (rbind_ok (lift (Ok x)) _ _ _ x eq_refl).
  unfold prepareRSRCData_method in Henc.
  unfold rereadable_with, rereadable, block_has_declared_size in Hgood.
  destruct df as [k ty sub idx fl otd val]. cbn in Hc. subst k.
  unfold self_td in E. cbn [td] in E.
  destruct otd as [t|]; [|discriminate]. injection E as <-.
  cbn [cls set_value td value encoded_here] in Hgood, Henc.
  cbn [andb] in Hgood. rewrite !andb_true_r in Hgood.
  apply Z.eqb_eq in Hgood.
  unfold DataFillBlock_prepareRSRCData, self_td in Henc.
  cbn [value len_value py_len td bind] in Henc.
  rewrite Hgood, Z.eqb_refl in Henc. cbn [negb] in Henc.
  injection Henc as <- _.
  rewrite <- Hgood.
  rewrite (rbind_ok _ _ _ _ _ (read_at pre x0 rest)). reflexivity.
Qed.

Lemma reads_back_DataFillPtr (df : DataFill ExtValue) :
  cls df = KPtr ->
  reads_back (rereadable_with good)
             (prepareRSRCData_method vi ext sub_prepareRSRCData a)
             (DataFillPtr_initWithRSRCParse vi df).
Proof.
  intros Hc bl bl' df' b df'' pre rest Hrun _ Henc.
  unfold DataFillPtr_initWithRSRCParse in *.
  unfold prepareRSRCData_method in Henc.
  destruct df as [k ty sub idx fl otd val]. cbn in Hc. subst k.
  destruct (isSmallerVersion (getFileVersion vi) 8 6 0 1) eqn:Ev.
  - inv_bind Hrun. apply ret_Ok_inv in Hrun. subst df'.
    cbn [cls set_value] in Henc.
    unfold DataFillPtr_prepareRSRCData, UInt32_prepareRSRCData in Henc.
    rewrite Ev in Henc. cbn [value int_value py_int bind] in Henc.
    destruct (int_to_bytes x 4 false) as [d|] eqn:E; [|discriminate].
    cbn [bind] in Henc. injection Henc as <- _.
    rewrite (rbind_ok _ _ _ _ _ (read_int_at _ _ _ d pre rest E)).
    reflexivity.
  - apply ret_Ok_inv in Hrun. subst df'.
    cbn [cls set_value] in Henc.
    unfold DataFillPtr_prepareRSRCData in Henc. rewrite Ev in Henc.
    injection Henc as <- _.
    unfold ret; cbn [app length]; rewrite Nat.add_0_r; reflexivity.
Qed.

Lemma reads_back_DataFillIORefnum (df : DataFill ExtValue) :
  cls df = KIORefnum ->
  reads_back (rereadable_with good)
             (prepareRSRCData_method vi ext sub_prepareRSRCData a)
             (DataFillIORefnum_initWithRSRCParse vi df).
Proof.
  intros Hc bl bl' df' b df'' pre rest Hrun _ Henc.
  unfold DataFillIORefnum_initWithRSRCParse in *.
  unfold prepareRSRCData_method in Henc.
  destruct df as [k ty sub idx fl otd val]. cbn in Hc. subst k.
  assert (Hint : forall z,
             UInt32_prepareRSRCData
               (mkDataFill KIORefnum ty sub idx fl otd (VPy (PyInt z)))
             = Ok (b, df'') ->
             (v <~ read_int 4 false ;;
              ret (set_value (mkDataFill KIORefnum ty sub idx fl otd val)
                             (VPy (PyInt v))))
               (mkBytesIO (pre ++ b ++ rest) (length pre))
             = (mkBytesIO (pre ++ b ++ rest) (length pre + length b),
                Ok (mkDataFill KIORefnum ty sub idx fl otd (VPy (PyInt z))))).
  { intros z Hu. unfold UInt32_prepareRSRCData in Hu.
    cbn [value int_value py_int bind] in Hu.
    destruct (int_to_bytes z 4 false) as [d|] eqn:E; [|discriminate].
    cbn [bind] in Hu. injection Hu as <- _.
    rewrite (rbind_ok _ _ _ _ _ (read_int_at _ _ _ d pre rest E)).
    reflexivity. }
  destruct (isGreaterOrEqVersion (getFileVersion vi) 6 0 0 0) eqn:Ev.
  - inv_bind Hrun. inv_lift Hm. rewrite E.
    rewrite (rbind_ok (lift (Ok x)) _ _ _ x eq_refl).
    unfold self_td in E. cbn [td] in E.
    destruct otd as [t|]; [|discriminate]. injection E as <-.
    destruct (isRefnumTag t) eqn:Et.
    + inv_bind Hrun. inv_bind Hrun. apply ret_Ok_inv in Hrun. subst df'.
      cbn [cls set_value] in Henc.
      unfold DataFillIORefnum_prepareRSRCData, self_td in Henc.
      rewrite Ev in Henc. cbn [td bind value] in Henc. rewrite Et in Henc.
      destruct (lstr_bytes (PyBytes x0)) as [d|] eqn:E; [|discriminate].
      cbn [bind] in Henc. injection Henc as <- _.
      destruct (read_lstr_at x0 d pre rest E) as (_ & Hr).
      rewrite Hr. reflexivity.
    + inv_bind Hrun. apply ret_Ok_inv in Hrun. subst df'.
      cbn [cls set_value] in Henc.
      unfold DataFillIORefnum_prepareRSRCData, self_td in Henc.
      rewrite Ev in Henc. cbn [td bind value] in Henc. rewrite Et in Henc.
      exact (Hint _ Henc).
  - inv_bind Hrun. apply ret_Ok_inv in Hrun. subst df'.
    cbn [cls set_value] in Henc.
    unfold DataFillIORefnum_prepareRSRCData in Henc.
    rewrite Ev in Henc. exact (Hint _ Henc).
Qed.

Lemma reads_back_DataFillUDTagRefnum (df : DataFill ExtValue)
      (u1 u2 u3 u4 : pyval) :
  cls df = KUDTagRefnum u1 u2 u3 u4 ->
  reads_back (rereadable_with good)
             (prepareRSRCData_method vi ext sub_prepareRSRCData a)
             (DataFillUDTagRefnum_initWithRSRCParse vi df).
Proof.
  intros Hc bl bl' df' b df'' pre rest Hrun _ Henc.
  unfold DataFillUDTagRefnum_initWithRSRCParse in *.
  unfold prepareRSRCData_method in Henc.
  destruct df as [k ty sub idx fl otd val]. cbn in Hc. subst k.
  inv_bind Hrun. inv_bind Hrun. inv_bind Hrun. inv_bind Hrun. inv_lift Hm2.
  unfold self_td in E. cbn [td] in E.
  destruct otd as [t|]; [|discriminate]. injection E as <-.
  destruct (is_UsrDefTagFlt (refType t)) eqn:Ek.
  - exfalso.
    do 7 inv_bind Hrun. apply ret_Ok_inv in Hrun. subst df'.
    cbn [cls set_value set_cls] in Henc.
    unfold DataFillUDTagRefnum_prepareRSRCData, self_td in Henc.
    cbn [value td] in Henc.
    destruct (lstr_bytes (PyBytes x0)); [|discriminate].
    cbn [bind] in Henc. rewrite Ek in Henc.
    destruct (lstr_bytes (PyBytes _)); [|discriminate]. cbn [bind] in Henc.
    destruct (lstr_bytes (PyBytes _)); [|discriminate]. cbn [bind] in Henc.
    discriminate Henc.
  - apply ret_Ok_inv in Hrun. subst df'.
    cbn [cls set_value set_cls] in Henc.
    unfold DataFillUDTagRefnum_prepareRSRCData, self_td in Henc.
    cbn [value td] in Henc.
    destruct (lstr_bytes (PyBytes x0)) as [d|] eqn:E; [|discriminate].
    cbn [bind] in Henc. rewrite Ek in Henc. injection Henc as <- _.
    unfold self_td. cbn [td].
    destruct (in_padding_window (getFileVersion vi)).
    + destruct (read_lstr_at x0 d pre ([x00] ++ rest) E) as (_ & Hr).
      rewrite <- app_assoc, Hr.
      rewrite stream_after.
      rewrite (rbind_ok _ _ _ _ _ (read_at (pre ++ d) [x00] rest)).
      rewrite (rbind_ok (lift (Ok t)) _ _ _ t eq_refl).
      rewrite Ek. unfold ret.
      rewrite !length_app, <- !app_assoc, Nat.add_assoc. reflexivity.
    + destruct (read_lstr_at x0 d pre rest E) as (_ & Hr).
      rewrite Hr.
      rewrite (rbind_ok (if false then read 1 else ret []) _ _ _ []
                        eq_refl).
      rewrite (rbind_ok (lift (Ok t)) _ _ _ t eq_refl).
      rewrite Ek. reflexivity.
Qed.

(** One round of the fixed-point classes. *)
Lemma read_fixed_point_back (df df' : DataFill ExtValue)
      (bl bl' : BytesIO) (r : pyval * pyval) (b pre rest : bytes) :
  td df' = td df ->
  read_fixed_point df bl = (bl', Ok r) ->
  fixed_point_bytes df' (Ok (fst r)) (Ok (snd r)) = Ok b ->
  read_fixed_point df (mkBytesIO (pre ++ b ++ rest) (length pre))
  = (mkBytesIO (pre ++ b ++ rest) (length pre + length b), Ok r).
Proof.
  intros Htd Hrun Henc. unfold read_fixed_point in *.
  inv_bind Hrun. inv_bind Hrun. inv_lift Hm0.
  assert (Et : self_td df' = Ok x0)
    by (unfold self_td in *; rewrite Htd; exact E).
  unfold fixed_point_bytes in Henc. rewrite Et in Henc.
  destruct (allocOv x0) eqn:Eov.
  - inv_bind Hrun. apply ret_Ok_inv in Hrun. subst r.
    cbn [fst snd bind py_int] in Henc.
    destruct (int_to_bytes x 8 false) as [d|] eqn:Ed; [|discriminate].
    cbn [bind py_int] in Henc. rewrite Eov in Henc.
    destruct (int_to_bytes x1 1 false) as [fb|] eqn:Ef; [|discriminate].
    cbn [bind] in Henc. injection Henc as <-.
    rewrite <- app_assoc.
    rewrite (rbind_ok _ _ _ _ _ (read_int_at _ _ _ d pre (fb ++ rest) Ed)).
    rewrite E.
    rewrite (rbind_ok (lift (Ok x0)) _ _ _ x0 eq_refl).
    rewrite Eov. rewrite stream_after.
    rewrite (rbind_ok _ _ _ _ _ (read_int_at _ _ _ fb (pre ++ d) rest Ef)).
    unfold ret. rewrite !length_app, <- !app_assoc, Nat.add_assoc.
    reflexivity.
  - apply ret_Ok_inv in Hrun. subst r.
    cbn [fst snd bind py_int] in Henc.
    destruct (int_to_bytes x 8 false) as [d|] eqn:Ed; [|discriminate].
    cbn [bind] in Henc. rewrite Eov in Henc. injection Henc as <-.
    rewrite (rbind_ok _ _ _ _ _ (read_int_at _ _ _ d pre rest Ed)).
    rewrite E.
    rewrite (rbind_ok (lift (Ok x0)) _ _ _ x0 eq_refl).
    rewrite Eov. reflexivity.
Qed.

Lemma reads_back_DataFillFixedPoint (df : DataFill ExtValue) (f : pyval) :
  cls df = KFixedPoint f ->
  reads_back (rereadable_with good)
             (prepareRSRCData_method vi ext sub_prepareRSRCData a)
             (DataFillFixedPoint_initWithRSRCParse df).
Proof.
  intros Hc bl bl' df' b df'' pre rest Hrun _ Henc.
  unfold DataFillFixedPoint_initWithRSRCParse in *.
  inv_bind Hrun. apply ret_Ok_inv in Hrun. subst df'.
  unfold prepareRSRCData_method in Henc.
  destruct df as [k ty sub idx fl otd val]. cbn in Hc. subst k.
  cbn [cls set_value set_cls] in Henc.
  unfold DataFillFixedPoint_prepareRSRCData in Henc. cbn [value] in Henc.
  apply bind_Ok_inv in Henc. destruct Henc as (d & Hd & Henc).
  injection Henc as <- _.
  rewrite (rbind_ok _ _ _ _ _
             (read_fixed_point_back _ _ _ _ x d pre rest eq_refl Hm Hd)).
  reflexivity.
Qed.

Lemma reads_back_DataFillComplexFixedPt (df : DataFill ExtValue)
      (f : list pyval) :
  cls df = KComplexFixedPt f ->
  reads_back (rereadable_with good)
             (prepareRSRCData_method vi ext sub_prepareRSRCData a)
             (DataFillComplexFixedPt_initWithRSRCParse df).
Proof.
  intros Hc bl bl' df' b df'' pre rest Hrun _ Henc.
  unfold DataFillComplexFixedPt_initWithRSRCParse in *.
  inv_bind Hrun. inv_bind Hrun. apply ret_Ok_inv in Hrun. subst df'.
  unfold prepareRSRCData_method in Henc.
  destruct df as [k ty sub idx fl otd val]. cbn in Hc. subst k.
  cbn [cls set_value set_cls] in Henc.
  unfold DataFillComplexFixedPt_prepareRSRCData in Henc.
  cbn [value py_items py_item bind nth_error] in Henc.
  apply bind_Ok_inv in Henc. destruct Henc as (d0 & Hd0 & Henc).
  apply bind_Ok_inv in Henc. destruct Henc as (d1 & Hd1 & Henc).
  injection Henc as <- _.
  rewrite <- app_assoc.
  rewrite (rbind_ok _ _ _ _ _
             (read_fixed_point_back _ _ _ _ x d0 pre (d1 ++ rest)
                eq_refl Hm Hd0)).
  rewrite stream_after.
  rewrite (rbind_ok _ _ _ _ _
             (read_fixed_point_back _ _ _ _ x0 d1 (pre ++ d0) rest
                eq_refl Hm0 Hd1)).
  unfold ret. rewrite !length_app, <- !app_assoc, Nat.add_assoc.
  reflexivity.
Qed.

Lemma reads_back_DataFillCluster (df : DataFill ExtValue) :
  cls df = KCluster ->
  reads_back (rereadable_with good)
             (prepareRSRCData_method vi ext sub_prepareRSRCData a)
             (DataFillCluster_initWithRSRCParse sub_new sub_initWithRSRC df).
Proof.
  intros Hc bl bl' df' b df'' pre rest Hrun Hgood Henc.
  unfold DataFillCluster_initWithRSRCParse in *.
  inv_bind Hrun. inv_lift Hm. inv_bind Hrun. apply ret_Ok_inv in Hrun.
  subst df'. rewrite E.
  rewrite (rbind_ok (lift (Ok x)) _ _ _ x eq_refl).
  pose proof (rereadable_with_children _ _ Hgood (value_set_value _ _))
    as Hl.
  unfold prepareRSRCData_method in Henc.
  replace (cls (set_value df (VNodes x0))) with KCluster in Henc
    by (destruct df; cbn in *; congruence).
  destruct (children_prepareRSRCData_nodes _ _ _ _ (value_set_value _ _) Henc)
    as (l' & Hp).
  rewrite (rbind_ok _ _ _ _ _
             (reads_back_Cluster_init_loop _ _ _ _ _ _ _ pre rest
                Hm Hl Hp)).
  reflexivity.
Qed.

Lemma reads_back_DataFillTypeDef (df : DataFill ExtValue) :
  cls df = KTypeDef ->
  reads_back (rereadable_with good)
             (prepareRSRCData_method vi ext sub_prepareRSRCData a)
             (DataFillTypeDef_initWithRSRCParse sub_new sub_initWithRSRC df).
Proof.
  intros Hc bl bl' df' b df'' pre rest Hrun Hgood Henc.
  unfold DataFillTypeDef_initWithRSRCParse in *.
  inv_bind Hrun. inv_lift Hm. inv_bind Hrun. apply ret_Ok_inv in Hrun.
  subst df'. rewrite E.
  rewrite (rbind_ok (lift (Ok x)) _ _ _ x eq_refl).
  pose proof (rereadable_with_children _ _ Hgood (value_set_value _ _))
    as Hl.
  unfold prepareRSRCData_method in Henc.
  replace (cls (set_value df (VNodes x0))) with KTypeDef in Henc
    by (destruct df; cbn in *; congruence).
  destruct (children_prepareRSRCData_nodes _ _ _ _ (value_set_value _ _) Henc)
    as (l' & Hp).
  rewrite (rbind_ok _ _ _ _ _
             (reads_back_TypeDef_init_loop _ _ _ _ _ _ _ pre rest
                Hm Hl Hp)).
  reflexivity.
Qed.

Lemma reads_back_SpecialDSTMCluster (df : DataFill ExtValue) :
  cls df = KSpecialDSTMCluster ->
  reads_back (rereadable_with good)
             (prepareRSRCData_method vi ext sub_prepareRSRCData a)
             (SpecialDSTMCluster_initWithRSRCParse vi sub_new
                                                   sub_initWithRSRC df).
Proof.
  intros Hc bl bl' df' b df'' pre rest Hrun Hgood Henc.
  unfold SpecialDSTMCluster_initWithRSRCParse in *.
  inv_bind Hrun. inv_lift Hm. inv_bind Hrun. inv_lift Hm.
  inv_bind Hrun. apply ret_Ok_inv in Hrun.
  subst df'. rewrite E.
  rewrite (rbind_ok (lift (Ok x)) _ _ _ x eq_refl).
  rewrite E0.
  rewrite (rbind_ok (lift (Ok x0)) _ _ _ x0 eq_refl).
  pose proof (rereadable_with_children _ _ Hgood (value_set_value _ _))
    as Hl.
  unfold prepareRSRCData_method in Henc.
  replace (cls (set_value df (VNodes x1))) with KSpecialDSTMCluster in Henc
    by (destruct df; cbn in *; congruence).
  destruct (children_prepareRSRCData_nodes _ _ _ _ (value_set_value _ _) Henc)
    as (l' & Hp).
  rewrite (rbind_ok _ _ _ _ _
             (reads_back_SpecialDSTMCluster_init_loop _ _ _ _ _ _ _ _
                pre rest Hm Hl Hp)).
  reflexivity.
Qed.

Lemma reads_back_DataFillRepeatedBlock (df : DataFill ExtValue) :
  cls df = KRepeatedBlock ->
  reads_back (rereadable_with good)
             (prepareRSRCData_method vi ext sub_prepareRSRCData a)
             (DataFillRepeatedBlock_initWithRSRCParse po ext sub_new
                                                      sub_initWithRSRC df).
Proof.
  intros Hc bl bl' df' b df'' pre rest Hrun Hgood Henc.
  unfold DataFillRepeatedBlock_initWithRSRCParse in *.
  inv_bind Hrun. inv_lift Hm. inv_bind Hrun. inv_lift Hm.
  rewrite E.
  rewrite (rbind_ok (lift (Ok x)) _ _ _ x eq_refl).
  rewrite E0.
  rewrite (rbind_ok (lift (Ok x0)) _ _ _ x0 eq_refl).
  destruct (numRepeats x0 >? array_data_limit po); [discriminate Hrun|].
  inv_bind Hrun. apply ret_Ok_inv in Hrun. subst df'.
  pose proof (rereadable_with_children _ _ Hgood (value_set_value _ _))
    as Hl.
  unfold prepareRSRCData_method in Henc.
  replace (cls (set_value df (VNodes x1))) with KRepeatedBlock in Henc
    by (destruct df; cbn in *; congruence).
  destruct (children_prepareRSRCData_nodes _ _ _ _ (value_set_value _ _) Henc)
    as (l' & Hp).
  assert (Hone : reads_back good (sub_prepareRSRCData a)
                   (match last_client x0 with
                    | Some (sub_td_idx, sub_td) =>
                        decode_child sub_new sub_initWithRSRC sub_td_idx
                          (tm_flags df) sub_td
                          (fun e => RuntimeError
                                      (DataTypeFailed (fullType sub_td) e))
                    | None => raise (UnboundLocalError "sub_td")
                    end)).
  { destruct (last_client x0) as [[i s]|];
      [apply reads_back_decode_child|apply reads_back_raise]. }
  rewrite (rbind_ok _ _ _ _ _
             (reads_back_repeat_read _ _ Hone _ _ _ _ _ pre rest
                Hm Hl Hp)).
  reflexivity.
Qed.

Lemma reads_back_DataFillMeasureData (df : DataFill ExtValue)
      (c : option TDObject) :
  cls df = KMeasureData c ->
  reads_back (rereadable_with good)
             (prepareRSRCData_method vi ext sub_prepareRSRCData a)
             (DataFillMeasureData_initWithRSRCParse vi ext sub_new
                                                    sub_initWithRSRC df).
Proof.
  intros Hc bl bl' df' b df'' pre rest Hrun Hgood Henc.
  unfold DataFillMeasureData_initWithRSRCParse in *.
  inv_bind Hrun. inv_lift Hm. inv_bind Hrun. apply ret_Ok_inv in Hrun.
  subst df'. rewrite E.
  rewrite (rbind_ok (lift (Ok x)) _ _ _ x eq_refl).
  pose proof (rereadable_with_children _ _ Hgood (value_set_value _ _))
    as Hl.
  cbn [forallb] in Hl. rewrite andb_true_r in Hl.
  unfold prepareRSRCData_method in Henc.
  replace (cls (set_value (set_cls df (KMeasureData (Some x)))
                          (VNodes [x0])))
    with (KMeasureData (Some x)) in Henc
    by (destruct df; reflexivity).
  destruct (children_prepareRSRCData_nodes _ _ _ _ (value_set_value _ _) Henc)
    as (l' & Hp).
  cbn [prepare_each] in Hp.
  apply bind_Ok_inv in Hp. destruct Hp as ([d x0'] & Hd & Hp).
  cbn [bind fst snd] in Hp. injection Hp as <- _.
  rewrite app_nil_r.
  rewrite (rbind_ok _ _ _ _ _
             (reads_back_decode_child _ _ _ _ _ _ _ _ _ pre rest
                Hm Hl Hd)).
  reflexivity.
Qed.

Lemma read_dimensions_length (declared dims : list Z) (bl bl' : BytesIO) :
  read_dimensions declared bl = (bl', Ok dims) ->
  length declared = length dims.
Proof.
  intro H.
  destruct (read_dimensions_spec declared bl) as (d0 & bl0 & H0 & Hl & _).
  rewrite H0 in H. injection H as _ <-. symmetry. exact Hl.
Qed.

Lemma reads_back_DataFillArray (df : DataFill ExtValue) (ds : list Z) :
  cls df = KArray ds ->
  reads_back (rereadable_with good)
             (prepareRSRCData_method vi ext sub_prepareRSRCData a)
             (DataFillArray_initWithRSRCParse po sub_new sub_initWithRSRC df).
Proof.
  intros Hc bl bl' df' b df'' pre rest Hrun Hgood Henc.
  unfold DataFillArray_initWithRSRCParse in *.
  inv_bind Hrun. inv_lift Hm. inv_bind Hrun.
  rewrite E.
  rewrite (rbind_ok (lift (Ok x)) _ _ _ x eq_refl).
  destruct (Z.of_nat (length (clients x)) <? 1) eqn:Ecl;
    [discriminate Hrun|].
  destruct (last_client x) as [[sub_td_idx sub_td]|] eqn:Elast;
    [|discriminate Hrun].
  destruct (totItems_of x0 >? array_data_limit po) eqn:Elim;
    [discriminate Hrun|].
  inv_bind Hrun. apply ret_Ok_inv in Hrun. subst df'.
  pose proof (rereadable_with_children _ _ Hgood (value_set_value _ _))
    as Hl.
  unfold prepareRSRCData_method in Henc.
  replace (cls (set_value (set_cls df (KArray x0)) (VNodes x1)))
    with (KArray x0) in Henc by (destruct df; reflexivity).
  unfold DataFillArray_prepareRSRCData in Henc.
  apply bind_Ok_inv in Henc. destruct Henc as (d & Hd & Henc).
  apply bind_Ok_inv in Henc. destruct Henc as ([body r] & Hbody & Henc).
  cbn [fst snd] in Henc. injection Henc as <- _.
  destruct (children_prepareRSRCData_nodes _ _ _ _ (value_set_value _ _)
              Hbody) as (l' & Hp).
  rewrite <- app_assoc.
  rewrite (rbind_ok _ _ _ _ _
             (read_dimensions_dims_bytes (dimensions x) x0 d pre
                (body ++ rest) (read_dimensions_length _ _ _ _ Hm) Hd)).
  rewrite Elim. cbv beta iota. rewrite stream_after.
  rewrite (rbind_ok _ _ _ _ _
             (reads_back_repeat_read _ _
                (reads_back_decode_child _ _ _ _) _ _ _ _ _
                (pre ++ d) rest Hm0 Hl Hp)).
  unfold ret. rewrite !length_app, <- !app_assoc, Nat.add_assoc.
  reflexivity.
Qed.

(** A decoder whose nodes are never [rereadable] has nothing to show. *)
Lemma reads_back_not_rereadable (m : Reader (DataFill ExtValue)) :
  yields (fun df' => rereadable df' = false) m ->
  reads_back (rereadable_with good)
             (prepareRSRCData_method vi ext sub_prepareRSRCData a)
             m.
Proof.
  intros Hm bl bl' df' b df'' pre rest Hrun Hgood _.
  apply Hm in Hrun. unfold rereadable_with in Hgood.
  rewrite Hrun in Hgood. discriminate Hgood.
Qed.

Lemma rereadable_set_value (df : DataFill ExtValue) (v : Value ExtValue) :
  encoded_here df = false -> rereadable (set_value df v) = false.
Proof.
  destruct df as [k ty sub idx fl otd val].
  unfold rereadable, encoded_here. cbn [cls set_value].
  intros ->. reflexivity.
Qed.

Lemma DataFillFloat_not_rereadable (df : DataFill ExtValue) :
  cls df = KFloat ->
  yields (fun df' => rereadable df' = false)
         (DataFillFloat_initWithRSRCParse ext df).
Proof.
  intro Hc.
  assert (He : encoded_here df = false)
    by (unfold encoded_here; rewrite Hc; reflexivity).
  unfold DataFillFloat_initWithRSRCParse.
  destruct (tdType df);
    repeat first [ apply yields_raise
                 | apply yields_ret; apply rereadable_set_value, He
                 | apply yields_rbind; intro ].
Qed.

Lemma DataFillComplex_not_rereadable (df : DataFill ExtValue) :
  cls df = KComplex ->
  yields (fun df' => rereadable df' = false)
         (DataFillComplex_initWithRSRCParse ext df).
Proof.
  intro Hc.
  assert (He : encoded_here df = false)
    by (unfold encoded_here; rewrite Hc; reflexivity).
  unfold DataFillComplex_initWithRSRCParse.
  destruct (tdType df);
    repeat first [ apply yields_raise
                 | apply yields_ret; apply rereadable_set_value, He
                 | apply yields_rbind; intro ].
Qed.

Lemma DataFillPath_not_rereadable (df : DataFill ExtValue) :
  cls df = KPath ->
  yields (fun df' => rereadable df' = false)
         (DataFillPath_initWithRSRCParse ext df).
Proof.
  intro Hc.
  assert (He : encoded_here df = false)
    by (unfold encoded_here; rewrite Hc; reflexivity).
  unfold DataFillPath_initWithRSRCParse.
  apply yields_rbind; intro startPos. apply yields_rbind; intro clsident.
  destruct (bytes_eqb clsident PTH0);
    [|destruct (bytes_eqb clsident PTH1 || bytes_eqb clsident PTH2)];
    repeat first [ apply yields_raise
                 | apply yields_ret; apply rereadable_set_value, He
                 | apply yields_rbind; intro ].
Qed.

Lemma DataFillLVVariant_not_rereadable (df : DataFill ExtValue) :
  cls df = KLVVariant ->
  yields (fun df' => rereadable df' = false)
         (DataFillLVVariant_initWithRSRCParse vi ext df).
Proof.
  intro Hc.
  assert (He : encoded_here df = false)
    by (unfold encoded_here; rewrite Hc; reflexivity).
  unfold DataFillLVVariant_initWithRSRCParse.
  apply yields_rbind; intro x.
  apply yields_ret; apply rereadable_set_value, He.
Qed.

Lemma DataFillUDClassInst_not_rereadable (df : DataFill ExtValue) :
  yields (fun df' => rereadable df' = false)
         (DataFillUDClassInst_initWithRSRCParse po df).
Proof.
  unfold DataFillUDClassInst_initWithRSRCParse.
  do 5 (apply yields_rbind; intro).
  destruct (_ >? _); [apply yields_raise|].
  apply yields_rbind; intro l. apply yields_ret.
  destruct df as [k ty sub idx fl otd val]. reflexivity.
Qed.

(** Every class: the classes left out by [rereadable] have no case. *)
Lemma reads_back_initWithRSRCParse (df : DataFill ExtValue) :
  reads_back (rereadable_with good)
             (prepareRSRCData_method vi ext sub_prepareRSRCData a)
             (initWithRSRCParse vi po ext sub_new sub_initWithRSRC df).
Proof.
  assert (Hu : forall k,
             cls df = k ->
             match k with
             | KCString | KArrayDataPtr | KSimpleRefnum | KUDRefnum
             | KPtrTo => True
             | _ => False
             end ->
             forall v,
               prepareRSRCData_method vi ext sub_prepareRSRCData a
                                      (set_value df v)
               = UInt32_prepareRSRCData (set_value df v)).
  { intros k Hk Hin v. unfold prepareRSRCData_method.
    destruct df as [k0 ty sub idx fl otd val]. cbn in Hk. subst k0.
    cbn [cls set_value]. destruct k; try contradiction; reflexivity. }
  unfold initWithRSRCParse.
  destruct (cls df) eqn:Hc.
  - apply reads_back_DataFillVoid; auto.
  - apply reads_back_DataFillInt; assumption.
  - apply reads_back_not_rereadable, DataFillFloat_not_rereadable, Hc.
  - apply reads_back_not_rereadable, DataFillComplex_not_rereadable, Hc.
  - eapply reads_back_DataFillBool; eassumption.
  - apply reads_back_DataFillString; assumption.
  - apply reads_back_not_rereadable, DataFillPath_not_rereadable, Hc.
  - apply reads_back_UInt32, (Hu _ eq_refl I).
  - eapply reads_back_DataFillArray; eassumption.
  - apply reads_back_UInt32, (Hu _ eq_refl I).
  - apply reads_back_DataFillCluster; assumption.
  - apply reads_back_not_rereadable, DataFillLVVariant_not_rereadable, Hc.
  - eapply reads_back_DataFillMeasureData; eassumption.
  - eapply reads_back_DataFillComplexFixedPt; eassumption.
  - eapply reads_back_DataFillFixedPoint; eassumption.
  - apply reads_back_DataFillBlock; assumption.
  - apply reads_back_DataFillRepeatedBlock; assumption.
  - apply reads_back_UInt32, (Hu _ eq_refl I).
  - apply reads_back_DataFillIORefnum; assumption.
  - apply reads_back_UInt32, (Hu _ eq_refl I).
  - eapply reads_back_DataFillUDTagRefnum; eassumption.
  - apply reads_back_not_rereadable, DataFillUDClassInst_not_rereadable.
  - apply reads_back_DataFillPtr; assumption.
  - apply reads_back_UInt32, (Hu _ eq_refl I).
  - apply reads_back_raise.
  - apply reads_back_DataFillVoid; auto.
  - apply reads_back_DataFillTypeDef; assumption.
  - apply reads_back_SpecialDSTMCluster; assumption.
Qed.

End ReadingBack.

Lemma tree_all_rereadable_with {ExtValue : Type} (d : nat)
      (df : DataFill ExtValue) :
  tree_all rereadable (S d) df
  = rereadable_with (tree_all rereadable d) df.
Proof. reflexivity. Qed.

Lemma initWithRSRC_reads_back
      {ExtValue : Type} (vi : VI) (po : PO) (ext : External ExtValue)
      (a : bool) (depth : nat) (df : DataFill ExtValue) :
  reads_back (tree_all rereadable depth) (prepareRSRCData vi ext depth a)
             (initWithRSRC vi po ext depth df).
Proof.
  revert df. induction depth as [|d IH]; intro df.
  - apply reads_back_raise.
  - cbn [initWithRSRC prepareRSRCData].
    intros bl bl' c b c' pre rest Hrun Hgood Henc.
    rewrite tree_all_rereadable_with in Hgood.
    exact (reads_back_initWithRSRCParse vi po ext _ _ _ _ a IH df
             _ _ _ _ _ pre rest Hrun Hgood Henc).
Qed.

(** X22: reading again what was written: when binary decode has
    returned a tree and binary encode turns that tree into a buffer,
    binary decode of the buffer, placed anywhere in a stream, returns
    the same tree and stops right after the buffer, whether it is run on
    the decoded node itself or on the node the tree was decoded from.
    This holds for every tree without a float, complex, path or variant
    node, without a class-instance refnum and without an opaque block
    that was read short of its declared size. *)
Theorem initWithRSRC_of_prepareRSRCData_of_decoded
        {ExtValue : Type} (vi : VI) (po : PO) (ext : External ExtValue)
        (depth : nat) (avoid_recompute : bool)
        (df df' df'' : DataFill ExtValue) (bl bl' : BytesIO)
        (data_buf pre rest : bytes) :
  initWithRSRC vi po ext depth df bl = (bl', Ok df') ->
  tree_all rereadable depth df' = true ->
  prepareRSRCData vi ext depth avoid_recompute df' = Ok (data_buf, df'') ->
  initWithRSRC vi po ext depth df'
    (mkBytesIO (pre ++ data_buf ++ rest) (length pre))
  = (mkBytesIO (pre ++ data_buf ++ rest) (length pre + length data_buf),
     Ok df')
  /\ initWithRSRC vi po ext depth df
       (mkBytesIO (pre ++ data_buf ++ rest) (length pre))
     = (mkBytesIO (pre ++ data_buf ++ rest) (length pre + length data_buf),
        Ok df').
Proof.
  intros Hrun Hgood Henc.
  pose proof (initWithRSRC_reads_back vi po ext avoid_recompute depth df
                bl bl' df' data_buf df'' pre rest Hrun Hgood Henc) as Hback.
  split; [|exact Hback].
  rewrite <- Hback.
  destruct depth as [|d]; [discriminate Hrun|]. cbn [initWithRSRC] in *.
  exact (initWithRSRCParse_of_decoded vi po ext _ _ df _ _ _ Hrun _).
Qed.

(** ** What a failing child makes of the decode of its parent *)

Lemma rbind_Err_inv {A B} (m : Reader A) (k : A -> Reader B)
      (bl bl' : BytesIO) (e : exn) :
  rbind m k bl = (bl', Err e) ->
  m bl = (bl', Err e)
  \/ exists bl1 x, m bl = (bl1, Ok x) /\ k x bl1 = (bl', Err e).
Proof.
  unfold rbind. destruct (m bl) as [bl1 [x|e0]]; intro H.
  - right. eauto.
  - left. injection H as <- <-. reflexivity.
Qed.

Lemma decode_child_Err
      {ExtValue : Type}
      (sub_new : Z -> option Z -> TDObject -> result (DataFill ExtValue))
      (sub_initWithRSRC : DataFill ExtValue -> Reader (DataFill ExtValue))
      (idx : Z) (flags : option Z) (sub_td : TDObject) (h : exn -> exn)
      (bl bl' : BytesIO) (e : exn) :
  decode_child sub_new sub_initWithRSRC idx flags sub_td h bl = (bl', Err e) ->
  exists e',
    (sub_df <~ lift (sub_new idx flags sub_td) ;; sub_initWithRSRC sub_df) bl
    = (bl', Err e')
    /\ e = h e'.
Proof.
  unfold decode_child, try_except. intro H.
  destruct ((sub_df <~ lift (sub_new idx flags sub_td) ;;
             sub_initWithRSRC sub_df) bl) as [bl1 [x|e']];
    [discriminate|].
  injection H as <- <-. eauto.
Qed.

Lemma nth_error_enumerate_from (i : Z) (n : nat) (cli_idx td_idx f : Z)
      (sub_td : TDObject) (cs : list (Z * TDObject * Z)) :
  nth_error (enumerate_from i cs) n = Some (cli_idx, td_idx, sub_td, f) ->
  nth_error cs n = Some (td_idx, sub_td, f).
Proof.
  revert i n. induction cs as [|[[i0 t0] f0] cs IH]; intros i n H.
  - destruct n; discriminate H.
  - cbn [enumerate_from] in H. destruct n as [|n]; cbn [nth_error] in *.
    + injection H as _ <- <- <-. reflexivity.
    + exact (IH _ _ H).
Qed.

(** The loop of the cluster decoder raises only what the handler makes
    of the exception of a child: the children before it were decoded,
    and the exception that is wrapped is the one that creating and
    decoding this child raised, on the stream the others left. *)
Lemma Cluster_init_loop_Err
      {ExtValue : Type}
      (sub_new : Z -> option Z -> TDObject -> result (DataFill ExtValue))
      (sub_initWithRSRC : DataFill ExtValue -> Reader (DataFill ExtValue))
      (cs : list (Z * Z * TDObject * Z)) (flags : option Z)
      (bl bl' : BytesIO) (e : exn) :
  Cluster_init_loop sub_new sub_initWithRSRC cs flags bl = (bl', Err e) ->
  exists n cli_idx td_idx sub_td f pre bl0 e',
    nth_error cs n = Some (cli_idx, td_idx, sub_td, f)
    /\ Cluster_init_loop sub_new sub_initWithRSRC (firstn n cs) flags bl
       = (bl0, Ok pre)
    /\ (sub_df <~ lift (sub_new td_idx flags sub_td) ;;
        sub_initWithRSRC sub_df) bl0 = (bl', Err e')
    /\ e = RuntimeError (DataTypeFailed (fullType sub_td) e').
Proof.
  revert bl. induction cs as [|[[[cli_idx td_idx] sub_td] f] cs IH];
    intros bl H; cbn [Cluster_init_loop] in H; [discriminate H|].
  apply rbind_Err_inv in H. destruct H as [H|(bl1 & x & Hx & H)].
  - apply decode_child_Err in H. destruct H as (e' & Hrun & ->).
    exists 0%nat, cli_idx, td_idx, sub_td, f, [], bl, e'.
    split; [reflexivity|]. split; [reflexivity|].
    split; [exact Hrun|reflexivity].
  - apply rbind_Err_inv in H. destruct H as [H|(bl2 & xs & _ & H)];
      [|discriminate H].
    destruct (IH _ H)
      as (n & c & i & s & f0 & pre & bl0 & e' & Hn & Hpre & Hrun & ->).
    exists (S n), c, i, s, f0, (x :: pre), bl0, e'.
    split; [exact Hn|]. split; [|split; [exact Hrun|reflexivity]].
    cbn [firstn Cluster_init_loop].
    rewrite (rbind_ok _ _ _ _ _ Hx), (rbind_ok _ _ _ _ _ Hpre).
    reflexivity.
Qed.

Lemma TypeDef_init_loop_Err
      {ExtValue : Type}
      (sub_new : Z -> option Z -> TDObject -> result (DataFill ExtValue))
      (sub_initWithRSRC : DataFill ExtValue -> Reader (DataFill ExtValue))
      (cs : list (Z * Z * TDObject * Z)) (flags : option Z)
      (bl bl' : BytesIO) (e : exn) :
  TypeDef_init_loop sub_new sub_initWithRSRC cs flags bl = (bl', Err e) ->
  e = NameError "client".
Proof.
  revert bl. induction cs as [|[[[cli_idx td_idx] sub_td] f] cs IH];
    intros bl H; cbn [TypeDef_init_loop] in H; [discriminate H|].
  apply rbind_Err_inv in H. destruct H as [H|(bl1 & x & _ & H)].
  - apply decode_child_Err in H. destruct H as (e' & _ & ->). reflexivity.
  - apply rbind_Err_inv in H. destruct H as [H|(bl2 & xs & _ & H)];
      [|discriminate H].
    exact (IH _ H).
Qed.

(** X23: when binary decode of a bound cluster raises, the clients
    before some client [n] were decoded in order, creating and decoding
    the child of client [n] on the stream they left raised an exception
    [e'], and what the cluster raises is the RuntimeError that names the
    type of that client and carries this very [e']; the stream is left
    where the child left it.  Whatever a child raises is wrapped,
    nothing else is raised. *)
Theorem DataFillCluster_decode_error_names_client
        {ExtValue : Type} (vi : VI) (po : PO) (ext : External ExtValue)
        (depth : nat) (df : DataFill ExtValue) (t : TDObject)
        (bl bl' : BytesIO) (e : exn) :
  cls df = KCluster ->
  td df = Some t ->
  initWithRSRC vi po ext (S depth) df bl = (bl', Err e) ->
  exists n td_idx sub_td f pre bl0 e',
    nth_error (clients t) n = Some (td_idx, sub_td, f)
    /\ Cluster_init_loop (newDataFillObjectWithTD vi depth)
                         (initWithRSRC vi po ext depth)
                         (firstn n (clientsEnumerate t)) (tm_flags df) bl
       = (bl0, Ok pre)
    /\ length pre = n
    /\ (sub_df <~ lift (newDataFillObjectWithTD vi depth td_idx (tm_flags df)
                                                sub_td) ;;
        initWithRSRC vi po ext depth sub_df) bl0 = (bl', Err e')
    /\ e = RuntimeError (DataTypeFailed (fullType sub_td) e').
Proof.
  intros Hc Ht H. cbn [initWithRSRC] in H. unfold initWithRSRCParse in H.
  rewrite Hc in H. unfold DataFillCluster_initWithRSRCParse, self_td in H.
  rewrite Ht in H.
  rewrite (rbind_ok (lift (Ok t)) _ _ _ t eq_refl) in H.
  apply rbind_Err_inv in H. destruct H as [H|(bl1 & l & _ & H)];
    [|discriminate H].
  destruct (Cluster_init_loop_Err _ _ _ _ _ _ _ H)
    as (n & cli_idx & td_idx & sub_td & f & pre & bl0 & e'
        & Hn & Hpre & Hrun & ->).
  exists n, td_idx, sub_td, f, pre, bl0, e'.
  split; [exact (nth_error_enumerate_from _ _ _ _ _ _ _ Hn)|].
  split; [exact Hpre|].
  split; [|split; [exact Hrun|reflexivity]].
  rewrite (Cluster_init_loop_length _ _ _ _ _ _ _ Hpre).
  apply firstn_length_le. apply Nat.lt_le_incl.
  apply nth_error_Some. rewrite Hn. discriminate.
Qed.

(** X24: when binary decode of a bound type definition raises, it
    raises NameError for the name [client]: the handler that should wrap
    the exception of the child names a variable that does not exist, so
    the exception of the child and the name of its type are lost. *)
Theorem DataFillTypeDef_decode_error_is_NameError
        {ExtValue : Type} (vi : VI) (po : PO) (ext : External ExtValue)
        (depth : nat) (df : DataFill ExtValue) (t : TDObject)
        (bl bl' : BytesIO) (e : exn) :
  cls df = KTypeDef ->
  td df = Some t ->
  initWithRSRC vi po ext (S depth) df bl = (bl', Err e) ->
  e = NameError "client".
Proof.
  intros Hc Ht H. cbn [initWithRSRC] in H. unfold initWithRSRCParse in H.
  rewrite Hc in H. unfold DataFillTypeDef_initWithRSRCParse, self_td in H.
  rewrite Ht in H.
  rewrite (rbind_ok (lift (Ok t)) _ _ _ t eq_refl) in H.
  apply rbind_Err_inv in H. destruct H as [H|(bl1 & l & _ & H)];
    [|discriminate H].
  exact (TypeDef_init_loop_Err _ _ _ _ _ _ _ H).
Qed.

(** ** The factory *)

(** X25: for a descriptor of every type tag that the table of the
    factory names, [newDataFillObjectWithTD] returns a node; the node is
    bound to the descriptor with the index and the flag word given, has
    the descriptor's type tag and no children yet.  For any other type
    tag the factory raises NameError for the name [e], which the message
    of its RuntimeError formats. *)
Theorem newDataFillObjectWithTD_known_type
        {ExtValue : Type} (vi : VI) (depth : nat) (idx : Z)
        (flags : option Z) (t : TDObject) :
  ((forall code, fullType t <> OtherFullType code) ->
   exists df : DataFill ExtValue,
     newDataFillObjectWithTD vi (S depth) idx flags t = Ok df
     /\ td df = Some t /\ index df = idx /\ tm_flags df = flags
     /\ tdType df = fullType t
     /\ forall l, value df = VNodes l -> l = [])
  /\ (forall code,
         fullType t = OtherFullType code ->
         @newDataFillObjectWithTD ExtValue vi (S depth) idx flags t
         = Err (NameError "e")).
Proof.
  split.
  - intro Hknown. unfold newDataFillObjectWithTD.
    destruct (fullType t) eqn:Ety;
      try (exfalso; exact (Hknown _ eq_refl));
      try match goal with
          | |- context [RefSubType (refType t)] => destruct (refType t)
          end;
      (eexists; cbn;
       unfold DataFillArray_setTD, DataFillTypeDef_setTD,
         DataFillRepeatedBlock_setTD, setTD_all_to_last,
         DataFillCluster_setTD, DataFill_setTD;
       cbn; rewrite Ety; cbn;
       repeat split;
       intros l Hl; cbn in Hl;
       solve [discriminate Hl | injection Hl as <-; reflexivity]).
  - intros code Ety. unfold newDataFillObjectWithTD. rewrite Ety.
    reflexivity.
Qed.

(** ** Re-binding arrays, type definitions and repeated blocks *)

Lemma setTD_each_Ok
      {ExtValue : Type} (vi : VI) (depth : nat)
      (l l' : list (DataFill ExtValue)) (sub_td : TDObject) (i : Z)
      (flags : option Z) :
  setTD_each (setTD vi depth) l sub_td i flags = Ok l' ->
  length l' = length l
  /\ Forall (fun c => td c = Some sub_td /\ index c = i
                      /\ tm_flags c = flags) l'.
Proof.
  revert l'. induction l as [|c l IH]; intros l' H; cbn [setTD_each] in H.
  - injection H as <-. split; [reflexivity|constructor].
  - apply bind_Ok_inv in H. destruct H as (c' & Hc & H).
    apply bind_Ok_inv in H. destruct H as (l'' & Hl & H).
    injection H as <-. destruct (IH _ Hl) as (Hlen & Hall).
    split; [cbn [length]; congruence|]. constructor; [|exact Hall].
    destruct depth as [|d]; [discriminate Hc|]. cbn [setTD] in Hc.
    destruct (setTD_method_Ok_binding vi _ c c' sub_td i flags Hc)
      as (_ & H1 & H2 & H3 & _).
    auto.
Qed.

(** X26: re-binding a filled array, type definition or repeated block
    that returns has bound every child to the last client of the new
    descriptor, with the new flag word of the parent; the children of an
    array and of a type definition get the index -1, those of a repeated
    block the index of that client. *)
Theorem setTD_binds_children_to_last_client
        {ExtValue : Type} (vi : VI) (depth : nat)
        (df df' : DataFill ExtValue) (t : TDObject) (idx : Z)
        (flags : option Z) (l : list (DataFill ExtValue)) :
  (exists ds, cls df = KArray ds) \/ cls df = KTypeDef
  \/ cls df = KRepeatedBlock ->
  value df = VNodes l ->
  l <> [] ->
  setTD vi (S depth) df t idx flags = Ok df' ->
  exists l' sub_td_idx sub_td,
    last_client t = Some (sub_td_idx, sub_td)
    /\ value df' = VNodes l'
    /\ length l' = length l
    /\ Forall (fun c =>
                 td c = Some sub_td
                 /\ tm_flags c = flags
                 /\ index c = match cls df with
                              | KRepeatedBlock => sub_td_idx
                              | _ => -1
                              end) l'.
Proof.
  intros Hc Hv Hne H. cbn [setTD] in H. unfold setTD_method in H.
  assert (Hall : forall own,
             setTD_all_to_last (setTD vi depth) own df t idx flags = Ok df' ->
             exists l' sub_td_idx sub_td,
               last_client t = Some (sub_td_idx, sub_td)
               /\ value df' = VNodes l'
               /\ length l' = length l
               /\ Forall (fun c =>
                            td c = Some sub_td
                            /\ tm_flags c = flags
                            /\ index c = if own then sub_td_idx else -1) l').
  { intros own Ho. unfold setTD_all_to_last in Ho.
    apply bind_Ok_inv in Ho. destruct Ho as (df1 & H1 & Ho).
    apply DataFill_setTD_Ok in H1. destruct H1 as [_ ->].
    cbn [value tm_flags] in Ho. rewrite Hv in Ho.
    cbn [len_value bind sub_nodes] in Ho.
    destruct (Z.ltb_spec (Z.of_nat (length l)) 1) as [Hlt|_].
    { destruct l; [contradiction|cbn [length] in Hlt; lia]. }
    destruct (last_client t) as [[sub_td_idx sub_td]|]; [|discriminate Ho].
    apply bind_Ok_inv in Ho. destruct Ho as (l' & Hl & Ho).
    injection Ho as <-.
    destruct (setTD_each_Ok _ _ _ _ _ _ _ Hl) as (Hlen & Hf).
    exists l', sub_td_idx, sub_td. repeat split; [exact Hlen|].
    revert Hf. apply Forall_impl. intros c (Ha & Hb & Hd). auto. }
  destruct Hc as [(ds & Hc)|[Hc|Hc]]; rewrite Hc in H |- *.
  - exact (Hall false H).
  - exact (Hall false H).
  - exact (Hall true H).
Qed.

(** ** Encoding again what decode read *)

Lemma firstn_add_skipn {A} (n m : nat) (l : list A) :
  firstn (n + m) l = firstn n l ++ firstn m (skipn n l).
Proof.
  revert l. induction n as [|n IH]; intro l; [reflexivity|].
  destruct l as [|x l]; cbn [Nat.add firstn skipn app].
  - rewrite firstn_nil. reflexivity.
  - rewrite IH. reflexivity.
Qed.

Lemma consumed_refl (bl : BytesIO) : consumed bl bl = [].
Proof. unfold consumed. rewrite Nat.sub_diag. reflexivity. Qed.

Lemma consumed_app (bl bl1 bl2 : BytesIO) :
  getvalue bl1 = getvalue bl ->
  (tell bl <= tell bl1)%nat ->
  (tell bl1 <= tell bl2)%nat ->
  consumed bl bl1 ++ consumed bl1 bl2 = consumed bl bl2.
Proof.
  intros Hv H1 H2. unfold consumed. rewrite Hv.
  replace (tell bl2 - tell bl)%nat
    with ((tell bl1 - tell bl) + (tell bl2 - tell bl1))%nat by lia.
  rewrite firstn_add_skipn, skipn_skipn.
  replace (tell bl1 - tell bl + tell bl)%nat with (tell bl1) by lia.
  reflexivity.
Qed.

Lemma firstn_length_firstn {A} (n : nat) (l : list A) :
  firstn (length (firstn n l)) l = firstn n l.
Proof.
  rewrite length_firstn.
  destruct (Nat.min_spec n (length l)) as [[Hlt ->]|[Hge ->]];
    [reflexivity|].
  rewrite firstn_all. symmetry. apply firstn_all2. exact Hge.
Qed.

Lemma read_consumed (size : Z) (bl bl' : BytesIO) (got : bytes) :
  read size bl = (bl', Ok got) ->
  (tell bl' < length (getvalue bl'))%nat ->
  getvalue bl' = getvalue bl
  /\ (tell bl <= tell bl')%nat
  /\ got = consumed bl bl'
  /\ Z.of_nat (length got) = size.
Proof.
  unfold read. intros H Hend. injection H as <- <-.
  cbn [getvalue tell] in *. unfold consumed. cbn [getvalue tell].
  pose proof (length_skipn (tell bl) (getvalue bl)) as Hs.
  set (rest := skipn (tell bl) (getvalue bl)) in *.
  destruct (Z.ltb_spec size 0) as [Hneg|Hpos].
  - lia.
  - replace (tell bl + length (firstn (Z.to_nat size) rest) - tell bl)%nat
      with (length (firstn (Z.to_nat size) rest)) by lia.
    rewrite firstn_length_firstn.
    repeat split; [lia|].
    rewrite length_firstn in *. lia.
Qed.

Lemma int_to_from_bytes_signed (b : bytes) :
  int_to_bytes (int_from_bytes b true) (Z.of_nat (length b)) true = Ok b.
Proof.
  unfold int_from_bytes, int_to_bytes. cbn [andb].
  destruct (Z.ltb_spec (Z.of_nat (length b)) 0); [lia|].
  pose proof (from_bytes_unsigned_range b) as [Hlo Hhi].
  set (u := from_bytes_unsigned b) in *.
  set (w := 256 ^ Z.of_nat (length b)) in *.
  assert (Hm : (if w <=? 2 * u then u - w else u) mod w = u).
  { destruct (Z.leb_spec w (2 * u)).
    - replace (u - w) with (u + (-1) * w) by lia.
      rewrite Z.mod_add by lia. apply Z.mod_small. lia.
    - apply Z.mod_small. lia. }
  rewrite Hm.
  assert (Hf : (- w <=? 2 * (if w <=? 2 * u then u - w else u))
               && (2 * (if w <=? 2 * u then u - w else u) <? w) = true).
  { apply andb_true_iff. destruct (Z.leb_spec w (2 * u)); split;
      [apply Z.leb_le|apply Z.ltb_lt|apply Z.leb_le|apply Z.ltb_lt]; lia. }
  rewrite Hf, Nat2Z.id. subst u. rewrite be_bytes_from_bytes. reflexivity.
Qed.

Lemma read_int_consumed (size : Z) (signed : bool) (bl bl' : BytesIO)
      (z : Z) :
  read_int size signed bl = (bl', Ok z) ->
  (tell bl' < length (getvalue bl'))%nat ->
  getvalue bl' = getvalue bl
  /\ (tell bl <= tell bl')%nat
  /\ int_to_bytes z size signed = Ok (consumed bl bl').
Proof.
  unfold read_int. intros H Hend.
  apply rbind_Ok_inv in H. destruct H as (bl1 & got & Hr & H).
  unfold ret in H. injection H as <- <-.
  destruct (read_consumed _ _ _ _ Hr Hend) as (Hv & Hle & Hgot & Hlen).
  repeat split; [exact Hv|exact Hle|].
  rewrite <- Hgot, <- Hlen.
  destruct signed;
    [apply int_to_from_bytes_signed|apply int_to_from_bytes_unsigned].
Qed.

Section WritingBack.

Context {ExtValue : Type}.
Variable vi : VI.
Variable po : PO.
Variable ext : External ExtValue.
Variable sub_new : Z -> option Z -> TDObject -> result (DataFill ExtValue).
Variable sub_initWithRSRC : DataFill ExtValue -> Reader (DataFill ExtValue).
Variable sub_prepareRSRCData :
  bool -> DataFill ExtValue -> result (bytes * DataFill ExtValue).
Variable good : DataFill ExtValue -> bool.
Variable a : bool.

Hypothesis sub_writes_back :
  forall df, writes_back good (sub_prepareRSRCData a) (sub_initWithRSRC df).

Lemma writes_back_decode_child (idx : Z) (flags : option Z)
      (sub_td : TDObject) (h : exn -> exn) :
  writes_back good (sub_prepareRSRCData a)
              (decode_child sub_new sub_initWithRSRC idx flags sub_td h).
Proof.
  intros bl bl' c Hrun Hend Hgood.
  unfold decode_child, try_except, rbind, lift in Hrun.
  destruct (sub_new idx flags sub_td) as [c0|e]; [|discriminate].
  destruct (sub_initWithRSRC c0 bl) as [bl1 [x|e]] eqn:E; [|discriminate].
  injection Hrun as <- <-.
  exact (sub_writes_back c0 _ _ _ E Hend Hgood).
Qed.

Lemma writes_back_nil :
  writes_back (forallb good) (prepare_each sub_prepareRSRCData a) (ret []).
Proof.
  intros bl bl' l Hrun _ _. unfold ret in Hrun. injection Hrun as <- <-.
  rewrite consumed_refl. repeat split. apply Nat.le_refl.
Qed.

Lemma writes_back_raise {A} (g : A -> bool) (enc : A -> result (bytes * A))
      (e : exn) :
  writes_back g enc (raise e).
Proof. intros bl bl' c Hrun. discriminate Hrun. Qed.

Lemma writes_back_cons (one : Reader (DataFill ExtValue))
      (more : Reader (list (DataFill ExtValue))) :
  writes_back good (sub_prepareRSRCData a) one ->
  writes_back (forallb good) (prepare_each sub_prepareRSRCData a) more ->
  writes_back (forallb good) (prepare_each sub_prepareRSRCData a)
              (x <~ one ;; xs <~ more ;; ret (x :: xs)).
Proof.
  intros Hone Hmore bl bl' l Hrun Hend Hgood.
  apply rbind_Ok_inv in Hrun. destruct Hrun as (bl1 & x & Hx & Hrun).
  apply rbind_Ok_inv in Hrun. destruct Hrun as (bl2 & xs & Hxs & Hrun).
  unfold ret in Hrun. injection Hrun as <- <-.
  cbn [forallb] in Hgood. apply andb_true_iff in Hgood.
  destruct Hgood as [Hgx Hgxs].
  destruct (Hmore _ _ _ Hxs Hend Hgxs) as (Hv2 & Hle2 & He2).
  assert (Hend1 : (tell bl1 < length (getvalue bl1))%nat)
    by (rewrite <- Hv2; lia).
  destruct (Hone _ _ _ Hx Hend1 Hgx) as (Hv1 & Hle1 & He1).
  repeat split; [congruence|lia|].
  cbn [prepare_each]. rewrite He1. cbn [bind]. rewrite He2.
  cbn [bind fst snd]. rewrite (consumed_app _ _ _ Hv1 Hle1 Hle2).
  reflexivity.
Qed.

Lemma writes_back_repeat_read (n : nat) (one : Reader (DataFill ExtValue)) :
  writes_back good (sub_prepareRSRCData a) one ->
  writes_back (forallb good) (prepare_each sub_prepareRSRCData a)
              (repeat_read n one).
Proof.
  intro Hone. induction n as [|n IH]; cbn [repeat_read].
  - apply writes_back_nil.
  - apply writes_back_cons; assumption.
Qed.

Lemma writes_back_Cluster_init_loop (cs : list (Z * Z * TDObject * Z))
      (flags : option Z) :
  writes_back (forallb good) (prepare_each sub_prepareRSRCData a)
              (Cluster_init_loop sub_new sub_initWithRSRC cs flags).
Proof.
  induction cs as [|[[[cli_idx td_idx] sub_td] f] cs IH];
    cbn [Cluster_init_loop].
  - apply writes_back_nil.
  - apply writes_back_cons; [apply writes_back_decode_child|exact IH].
Qed.

Lemma writes_back_TypeDef_init_loop (cs : list (Z * Z * TDObject * Z))
      (flags : option Z) :
  writes_back (forallb good) (prepare_each sub_prepareRSRCData a)
              (TypeDef_init_loop sub_new sub_initWithRSRC cs flags).
Proof.
  induction cs as [|[[[cli_idx td_idx] sub_td] f] cs IH];
    cbn [TypeDef_init_loop].
  - apply writes_back_nil.
  - apply writes_back_cons; [apply writes_back_decode_child|exact IH].
Qed.

Lemma writes_back_SpecialDSTMCluster_init_loop
      (cs : list (Z * Z * TDObject * Z)) (skipNextEntry : bool)
      (flags : option Z) :
  writes_back (forallb good) (prepare_each sub_prepareRSRCData a)
              (SpecialDSTMCluster_init_loop vi sub_new sub_initWithRSRC cs
                                            skipNextEntry flags).
Proof.
  revert skipNextEntry.
  induction cs as [|[[[cli_idx td_idx] sub_td] f] cs IH];
    intro skipNextEntry; cbn [SpecialDSTMCluster_init_loop].
  - apply writes_back_nil.
  - destruct (isSpecialDSTMClusterElement vi cli_idx flags) as [special|e].
    + intros bl bl' l Hrun.
      rewrite (rbind_ok (lift (Ok special)) _ _ _ special eq_refl) in Hrun.
      revert Hrun. destruct special; cbn [negb].
      * destruct skipNextEntry; [apply IH|].
        apply writes_back_cons; [apply writes_back_decode_child|apply IH].
      * apply IH.
    + intros bl bl' l Hrun. discriminate Hrun.
Qed.

Lemma ret_Ok_inv2 {A} (x c : A) (bl bl' : BytesIO) :
  ret x bl = (bl', Ok c) -> c = x /\ bl' = bl.
Proof. unfold ret. intro H. injection H as <- <-. auto. Qed.

Ltac run_bind H bl x Hm :=
  apply rbind_Ok_inv in H; destruct H as (bl & x & Hm & H).

Ltac run_lift H E :=
  apply lift_Ok_inv in H; destruct H as (E & ->).

Ltac run_ret H :=
  apply ret_Ok_inv2 in H; destruct H as (-> & ->).

Lemma children_prepareRSRCData_same
      (df : DataFill ExtValue) (l : list (DataFill ExtValue)) (b : bytes) :
  value df = VNodes l ->
  prepare_each sub_prepareRSRCData a l = Ok (b, l) ->
  children_prepareRSRCData sub_prepareRSRCData a df = Ok (b, df).
Proof.
  intros Hv Hp. unfold children_prepareRSRCData. rewrite Hv.
  cbn [sub_nodes bind]. rewrite Hp. cbn [bind fst snd].
  rewrite <- Hv. destruct df; reflexivity.
Qed.

Lemma rewritable_with_children (df : DataFill ExtValue)
      (l : list (DataFill ExtValue)) :
  rewritable_with vi good df = true -> value df = VNodes l ->
  forallb good l = true.
Proof.
  unfold rewritable_with. intros H Hv. rewrite Hv in H.
  apply andb_true_iff in H. exact (proj2 H).
Qed.

Lemma writes_back_DataFillVoid (df : DataFill ExtValue) :
  cls df = KVoid \/ cls df = KUnexpected ->
  writes_back (rewritable_with vi good)
              (prepareRSRCData_method vi ext sub_prepareRSRCData a)
              (ret (set_value df (VPy PyNone))).
Proof.
  intros Hc bl bl' df' Hrun _ _. run_ret Hrun.
  rewrite consumed_refl. repeat split; [apply Nat.le_refl|].
  unfold prepareRSRCData_method.
  destruct df as [k ty sub idx fl otd val]. cbn in Hc.
  cbn [cls set_value]. destruct Hc as [-> | ->]; reflexivity.
Qed.

Lemma writes_back_DataFillInt (df : DataFill ExtValue) (size : Z)
      (signed : bool) :
  cls df = KInt size signed ->
  writes_back (rewritable_with vi good)
              (prepareRSRCData_method vi ext sub_prepareRSRCData a)
              (DataFillInt_initWithRSRCParse size signed df).
Proof.
  intros Hc bl bl' df' Hrun Hend _.
  unfold DataFillInt_initWithRSRCParse in Hrun.
  run_bind Hrun bl1 z Hz. run_ret Hrun.
  destruct (read_int_consumed _ _ _ _ _ Hz Hend) as (Hv & Hle & He).
  repeat split; [exact Hv|exact Hle|].
  unfold prepareRSRCData_method.
  destruct df as [k ty sub idx fl otd val]. cbn in Hc. subst k.
  cbn [cls set_value]. unfold DataFillInt_prepareRSRCData.
  cbn [value int_value py_int bind]. rewrite He. reflexivity.
Qed.

Lemma writes_back_UInt32 (df : DataFill ExtValue) :
  (forall v,
      prepareRSRCData_method vi ext sub_prepareRSRCData a (set_value df v)
      = UInt32_prepareRSRCData (set_value df v)) ->
  writes_back (rewritable_with vi good)
              (prepareRSRCData_method vi ext sub_prepareRSRCData a)
              (UInt32_initWithRSRCParse df).
Proof.
  intros Hm bl bl' df' Hrun Hend _.
  unfold UInt32_initWithRSRCParse in Hrun.
  run_bind Hrun bl1 z Hz. run_ret Hrun.
  destruct (read_int_consumed _ _ _ _ _ Hz Hend) as (Hv & Hle & He).
  repeat split; [exact Hv|exact Hle|].
  rewrite Hm. unfold UInt32_prepareRSRCData. rewrite value_set_value.
  cbn [int_value py_int bind]. rewrite He. reflexivity.
Qed.

Lemma writes_back_DataFillBool (df : DataFill ExtValue) (s : option Z) :
  cls df = KBool s ->
  writes_back (rewritable_with vi good)
              (prepareRSRCData_method vi ext sub_prepareRSRCData a)
              (DataFillBool_initWithRSRCParse vi df).
Proof.
  intros Hc bl bl' df' Hrun Hend _.
  unfold DataFillBool_initWithRSRCParse in Hrun.
  run_bind Hrun bl1 df1 H1. run_lift H1 E1.
  run_bind Hrun bl2 b Hb. run_ret Hrun.
  assert (Hx : exists size, cls df1 = KBool (Some size)).
  { unfold DataFillBool_initVersion in E1.
    destruct df as [k ty sub idx fl otd val].
    cbn [tdType] in E1.
    destruct ty; try discriminate;
      try (destruct (isGreaterOrEqVersion _ _ _ _ _));
      injection E1 as <-; cbn; eauto. }
  destruct Hx as (size & Hx).
  destruct df1 as [k ty sub idx fl otd val]. cbn in Hx. subst k.
  cbn [bool_size cls] in Hb.
  destruct (read_consumed _ _ _ _ Hb Hend) as (Hv & Hle & Hgot & Hlen).
  repeat split; [exact Hv|exact Hle|].
  unfold prepareRSRCData_method. cbn [cls set_value].
  unfold DataFillBool_prepareRSRCData.
  cbn [value int_value py_int bind bool_size cls].
  rewrite <- Hlen, int_to_from_bytes_unsigned. cbn [bind].
  rewrite Hgot. reflexivity.
Qed.

Lemma lstr_bytes_consumed (bl bl1 bl2 : BytesIO) (strlen : Z) (v : bytes) :
  read_int 4 false bl = (bl1, Ok strlen) ->
  read strlen bl1 = (bl2, Ok v) ->
  (tell bl2 < length (getvalue bl2))%nat ->
  getvalue bl2 = getvalue bl
  /\ (tell bl <= tell bl2)%nat
  /\ lstr_bytes (PyBytes v) = Ok (consumed bl bl2).
Proof.
  intros Hn Hr Hend.
  destruct (read_consumed _ _ _ _ Hr Hend) as (Hv2 & Hle2 & Hgot & Hlen).
  assert (Hend1 : (tell bl1 < length (getvalue bl1))%nat)
    by (rewrite <- Hv2; lia).
  destruct (read_int_consumed _ _ _ _ _ Hn Hend1) as (Hv1 & Hle1 & He).
  repeat split; [congruence|lia|].
  unfold lstr_bytes. cbn [py_len bind]. rewrite Hlen, He. cbn [bind].
  rewrite Hgot at 1. rewrite (consumed_app _ _ _ Hv1 Hle1 Hle2).
  reflexivity.
Qed.

Lemma writes_back_DataFillString (df : DataFill ExtValue) :
  cls df = KString ->
  writes_back (rewritable_with vi good)
              (prepareRSRCData_method vi ext sub_prepareRSRCData a)
              (DataFillString_initWithRSRCParse df).
Proof.
  intros Hc bl bl' df' Hrun Hend _.
  unfold DataFillString_initWithRSRCParse in Hrun.
  run_bind Hrun bl1 strlen Hn. run_bind Hrun bl2 v Hr. run_ret Hrun.
  destruct (lstr_bytes_consumed _ _ _ _ _ Hn Hr Hend) as (Hv & Hle & He).
  repeat split; [exact Hv|exact Hle|].
  unfold prepareRSRCData_method.
  destruct df as [k ty sub idx fl otd val]. cbn in Hc. subst k.
  cbn [cls set_value]. unfold DataFillString_prepareRSRCData.
  cbn [value]. rewrite He. reflexivity.
Qed.

Lemma writes_back_DataFillBlock (df : DataFill ExtValue) :
  cls df = KBlock ->
  writes_back (rewritable_with vi good)
              (prepareRSRCData_method vi ext sub_prepareRSRCData a)
              (DataFillBlock_initWithRSRCParse df).
Proof.
  intros Hc bl bl' df' Hrun Hend _.
  unfold DataFillBlock_initWithRSRCParse in Hrun.
  run_bind Hrun bl1 t Ht. run_lift Ht Et.
  run_bind Hrun bl2 v Hr. run_ret Hrun.
  destruct (read_consumed _ _ _ _ Hr Hend) as (Hv & Hle & Hgot & Hlen).
  repeat split; [exact Hv|exact Hle|].
  unfold prepareRSRCData_method.
  destruct df as [k ty sub idx fl otd val]. cbn in Hc. subst k.
  unfold self_td in Et. cbn [td] in Et.
  destruct otd as [t0|]; [|discriminate]. injection Et as ->.
  cbn [cls set_value].
  unfold DataFillBlock_prepareRSRCData, self_td.
  cbn [value len_value py_len td bind].
  rewrite Hlen, Z.eqb_refl. cbn [negb]. rewrite Hgot. reflexivity.
Qed.

Lemma writes_back_DataFillPtr (df : DataFill ExtValue) :
  cls df = KPtr ->
  writes_back (rewritable_with vi good)
              (prepareRSRCData_method vi ext sub_prepareRSRCData a)
              (DataFillPtr_initWithRSRCParse vi df).
Proof.
  intros Hc bl bl' df' Hrun Hend _.
  unfold DataFillPtr_initWithRSRCParse in Hrun.
  unfold prepareRSRCData_method.
  destruct df as [k ty sub idx fl otd val]. cbn in Hc. subst k.
  destruct (isSmallerVersion (getFileVersion vi) 8 6 0 1) eqn:Ev.
  - run_bind Hrun bl1 z Hz. run_ret Hrun.
    destruct (read_int_consumed _ _ _ _ _ Hz Hend) as (Hv & Hle & He).
    repeat split; [exact Hv|exact Hle|].
    cbn [cls set_value].
    unfold DataFillPtr_prepareRSRCData, UInt32_prepareRSRCData.
    rewrite Ev. cbn [value int_value py_int bind]. rewrite He.
    reflexivity.
  - run_ret Hrun. rewrite consumed_refl.
    repeat split; [apply Nat.le_refl|].
    cbn [cls set_value]. unfold DataFillPtr_prepareRSRCData.
    rewrite Ev. reflexivity.
Qed.

Lemma writes_back_DataFillIORefnum (df : DataFill ExtValue) :
  cls df = KIORefnum ->
  writes_back (rewritable_with vi good)
              (prepareRSRCData_method vi ext sub_prepareRSRCData a)
              (DataFillIORefnum_initWithRSRCParse vi df).
Proof.
  intros Hc bl bl' df' Hrun Hend _.
  unfold DataFillIORefnum_initWithRSRCParse in Hrun.
  unfold prepareRSRCData_method.
  destruct df as [k ty sub idx fl otd val]. cbn in Hc. subst k.
  destruct (isGreaterOrEqVersion (getFileVersion vi) 6 0 0 0) eqn:Ev.
  - run_bind Hrun bl1 t Ht. run_lift Ht Et.
    unfold self_td in Et. cbn [td] in Et.
    destruct otd as [t0|]; [|discriminate]. injection Et as ->.
    destruct (isRefnumTag t) eqn:Etag.
    + run_bind Hrun bl2 strlen Hn. run_bind Hrun bl3 v Hr. run_ret Hrun.
      destruct (lstr_bytes_consumed _ _ _ _ _ Hn Hr Hend)
        as (Hv & Hle & He).
      repeat split; [exact Hv|exact Hle|].
      cbn [cls set_value].
      unfold DataFillIORefnum_prepareRSRCData, self_td.
      rewrite Ev. cbn [td bind value]. rewrite Etag, He. reflexivity.
    + run_bind Hrun bl2 z Hz. run_ret Hrun.
      destruct (read_int_consumed _ _ _ _ _ Hz Hend) as (Hv & Hle & He).
      repeat split; [exact Hv|exact Hle|].
      cbn [cls set_value].
      unfold DataFillIORefnum_prepareRSRCData, self_td,
        UInt32_prepareRSRCData.
      rewrite Ev. cbn [td bind value int_value py_int]. rewrite Etag.
      cbn [bind]. rewrite He. reflexivity.
  - run_bind Hrun bl2 z Hz. run_ret Hrun.
    destruct (read_int_consumed _ _ _ _ _ Hz Hend) as (Hv & Hle & He).
    repeat split; [exact Hv|exact Hle|].
    cbn [cls set_value].
    unfold DataFillIORefnum_prepareRSRCData, UInt32_prepareRSRCData.
    rewrite Ev. cbn [value int_value py_int bind]. rewrite He.
    reflexivity.
Qed.

Lemma writes_back_DataFillUDTagRefnum (df : DataFill ExtValue)
      (u1 u2 u3 u4 : pyval) :
  cls df = KUDTagRefnum u1 u2 u3 u4 ->
  writes_back (rewritable_with vi good)
              (prepareRSRCData_method vi ext sub_prepareRSRCData a)
              (DataFillUDTagRefnum_initWithRSRCParse vi df).
Proof.
  intros Hc bl bl' df' Hrun Hend Hgood.
  unfold DataFillUDTagRefnum_initWithRSRCParse in Hrun.
  destruct df as [k ty sub idx fl otd val]. cbn in Hc. subst k.
  run_bind Hrun bl1 strlen Hn. run_bind Hrun bl2 v Hr.
  run_bind Hrun bl3 pad Hpad. run_bind Hrun bl4 t Ht. run_lift Ht Et.
  unfold self_td in Et. cbn [td] in Et.
  destruct otd as [t0|]; [|discriminate]. injection Et as ->.
  destruct (is_UsrDefTagFlt (refType t)) eqn:Ek.
  - exfalso.
    run_bind Hrun c1 s1 G1. run_bind Hrun c2 g1 G2.
    run_bind Hrun c3 s2 G3. run_bind Hrun c4 g2 G4.
    run_bind Hrun c5 z3 G5. run_bind Hrun c6 s4 G6.
    run_bind Hrun c7 g4 G7. run_ret Hrun.
    unfold rewritable_with, rewritable in Hgood.
    cbn [cls set_value set_cls td encoded_here andb value] in Hgood.
    rewrite Ek in Hgood. cbn [negb] in Hgood.
    rewrite !andb_false_r in Hgood. discriminate Hgood.
  - run_ret Hrun.
    unfold rewritable_with, rewritable in Hgood.
    cbn [cls set_value set_cls td encoded_here andb value] in Hgood.
    destruct (in_padding_window (getFileVersion vi)) eqn:Ew;
      [discriminate Hgood|].
    run_ret Hpad.
    destruct (lstr_bytes_consumed _ _ _ _ _ Hn Hr Hend) as (Hv & Hle & He).
    repeat split; [exact Hv|exact Hle|].
    unfold prepareRSRCData_method. cbn [cls set_value set_cls].
    unfold DataFillUDTagRefnum_prepareRSRCData, self_td.
    cbn [value td]. rewrite He. cbn [bind]. rewrite Ew, Ek.
    reflexivity.
Qed.

Lemma read_fixed_point_consumed (df df' : DataFill ExtValue)
      (bl bl' : BytesIO) (r : pyval * pyval) :
  td df' = td df ->
  read_fixed_point df bl = (bl', Ok r) ->
  (tell bl' < length (getvalue bl'))%nat ->
  getvalue bl' = getvalue bl
  /\ (tell bl <= tell bl')%nat
  /\ fixed_point_bytes df' (Ok (fst r)) (Ok (snd r))
     = Ok (consumed bl bl').
Proof.
  intros Htd Hrun Hend. unfold read_fixed_point in Hrun.
  run_bind Hrun bl1 z Hz. run_bind Hrun bl2 t Ht. run_lift Ht Et.
  assert (Et' : self_td df' = Ok t)
    by (unfold self_td in *; rewrite Htd; exact Et).
  unfold fixed_point_bytes. rewrite Et'.
  destruct (allocOv t) eqn:Eov.
  - run_bind Hrun bl3 f Hf. run_ret Hrun.
    destruct (read_int_consumed _ _ _ _ _ Hf Hend) as (Hv2 & Hle2 & He2).
    assert (Hend1 : (tell bl1 < length (getvalue bl1))%nat)
      by (rewrite <- Hv2; lia).
    destruct (read_int_consumed _ _ _ _ _ Hz Hend1) as (Hv1 & Hle1 & He1).
    repeat split; [congruence|lia|].
    cbn [fst snd bind py_int]. rewrite He1. cbn [bind]. rewrite Eov.
    cbn [bind py_int]. rewrite He2. cbn [bind].
    rewrite (consumed_app _ _ _ Hv1 Hle1 Hle2). reflexivity.
  - run_ret Hrun.
    destruct (read_int_consumed _ _ _ _ _ Hz Hend) as (Hv1 & Hle1 & He1).
    repeat split; [exact Hv1|exact Hle1|].
    cbn [fst snd bind py_int]. rewrite He1. cbn [bind]. rewrite Eov.
    reflexivity.
Qed.

Lemma writes_back_DataFillFixedPoint (df : DataFill ExtValue) (f : pyval) :
  cls df = KFixedPoint f ->
  writes_back (rewritable_with vi good)
              (prepareRSRCData_method vi ext sub_prepareRSRCData a)
              (DataFillFixedPoint_initWithRSRCParse df).
Proof.
  intros Hc bl bl' df' Hrun Hend _.
  unfold DataFillFixedPoint_initWithRSRCParse in Hrun.
  run_bind Hrun bl1 r Hr. run_ret Hrun.
  destruct df as [k ty sub idx fl otd val]. cbn in Hc. subst k.
  destruct (read_fixed_point_consumed _
              (mkDataFill (KFixedPoint (snd r)) ty sub idx fl otd
                          (VPy (fst r)))
              _ _ _ eq_refl Hr Hend) as (Hv & Hle & He).
  repeat split; [exact Hv|exact Hle|].
  unfold prepareRSRCData_method. cbn [cls set_value set_cls].
  unfold DataFillFixedPoint_prepareRSRCData. cbn [value].
  rewrite He. reflexivity.
Qed.

Lemma writes_back_DataFillComplexFixedPt (df : DataFill ExtValue)
      (f : list pyval) :
  cls df = KComplexFixedPt f ->
  writes_back (rewritable_with vi good)
              (prepareRSRCData_method vi ext sub_prepareRSRCData a)
              (DataFillComplexFixedPt_initWithRSRCParse df).
Proof.
  intros Hc bl bl' df' Hrun Hend _.
  unfold DataFillComplexFixedPt_initWithRSRCParse in Hrun.
  run_bind Hrun bl1 r0 Hr0. run_bind Hrun bl2 r1 Hr1. run_ret Hrun.
  destruct df as [k ty sub idx fl otd val]. cbn in Hc. subst k.
  set (df' := mkDataFill (KComplexFixedPt [snd r0; snd r1]) ty sub idx fl
                         otd (VPyList [fst r0; fst r1] : Value ExtValue)).
  destruct (read_fixed_point_consumed _ df' _ _ _ eq_refl Hr1 Hend)
    as (Hv2 & Hle2 & He2).
  assert (Hend1 : (tell bl1 < length (getvalue bl1))%nat)
    by (rewrite <- Hv2; lia).
  destruct (read_fixed_point_consumed _ df' _ _ _ eq_refl Hr0 Hend1)
    as (Hv1 & Hle1 & He1).
  repeat split; [congruence|lia|].
  subst df'.
  unfold prepareRSRCData_method. cbn [cls set_value set_cls].
  unfold DataFillComplexFixedPt_prepareRSRCData.
  cbn [value py_items py_item bind nth_error].
  rewrite He1. cbn [bind]. rewrite He2. cbn [bind].
  rewrite (consumed_app _ _ _ Hv1 Hle1 Hle2). reflexivity.
Qed.

Lemma read_dimensions_consumed (declared dims : list Z) (bl bl' : BytesIO) :
  read_dimensions declared bl = (bl', Ok dims) ->
  (tell bl' < length (getvalue bl'))%nat ->
  getvalue bl' = getvalue bl
  /\ (tell bl <= tell bl')%nat
  /\ dims_bytes dims = Ok (consumed bl bl').
Proof.
  revert dims bl.
  induction declared as [|d declared IH]; intros dims bl Hrun Hend;
    cbn [read_dimensions] in Hrun.
  - run_ret Hrun. rewrite consumed_refl.
    repeat split. apply Nat.le_refl.
  - run_bind Hrun bl1 val Hval. run_bind Hrun bl2 vals Hvals. run_ret Hrun.
    destruct (IH _ _ Hvals Hend) as (Hv2 & Hle2 & He2).
    assert (Hend1 : (tell bl1 < length (getvalue bl1))%nat)
      by (rewrite <- Hv2; lia).
    destruct (read_int_consumed _ _ _ _ _ Hval Hend1) as (Hv1 & Hle1 & He1).
    repeat split; [congruence|lia|].
    cbn [dims_bytes]. rewrite He1. cbn [bind]. rewrite He2. cbn [bind].
    rewrite (consumed_app _ _ _ Hv1 Hle1 Hle2). reflexivity.
Qed.

(** A composite node whose children were read by [loop]. *)
Lemma writes_back_children
      (df : DataFill ExtValue) (k : DFClass) (bl bl' : BytesIO)
      (loop : Reader (list (DataFill ExtValue)))
      (l : list (DataFill ExtValue)) :
  writes_back (forallb good) (prepare_each sub_prepareRSRCData a) loop ->
  loop bl = (bl', Ok l) ->
  (tell bl' < length (getvalue bl'))%nat ->
  rewritable_with vi good (set_value (set_cls df k) (VNodes l)) = true ->
  getvalue bl' = getvalue bl
  /\ (tell bl <= tell bl')%nat
  /\ children_prepareRSRCData sub_prepareRSRCData a
       (set_value (set_cls df k) (VNodes l))
     = Ok (consumed bl bl', set_value (set_cls df k) (VNodes l)).
Proof.
  intros Hloop Hrun Hend Hgood.
  pose proof (rewritable_with_children _ _ Hgood (value_set_value _ _))
    as Hl.
  destruct (Hloop _ _ _ Hrun Hend Hl) as (Hv & Hle & He).
  repeat split; [exact Hv|exact Hle|].
  exact (children_prepareRSRCData_same _ _ _ (value_set_value _ _) He).
Qed.

Lemma writes_back_DataFillCluster (df : DataFill ExtValue) :
  cls df = KCluster ->
  writes_back (rewritable_with vi good)
              (prepareRSRCData_method vi ext sub_prepareRSRCData a)
              (DataFillCluster_initWithRSRCParse sub_new sub_initWithRSRC df).
Proof.
  intros Hc bl bl' df' Hrun Hend Hgood.
  unfold DataFillCluster_initWithRSRCParse in Hrun.
  run_bind Hrun bl1 t Ht. run_lift Ht Et.
  run_bind Hrun bl2 l Hl. run_ret Hrun.
  rewrite <- (set_cls_same df KCluster Hc) in Hgood |- *.
  unfold prepareRSRCData_method.
  replace (cls (set_value (set_cls df KCluster) (VNodes l)))
    with KCluster by (destruct df; reflexivity).
  exact (writes_back_children df KCluster _ _ _ l
           (writes_back_Cluster_init_loop _ _) Hl Hend Hgood).
Qed.

Lemma writes_back_DataFillTypeDef (df : DataFill ExtValue) :
  cls df = KTypeDef ->
  writes_back (rewritable_with vi good)
              (prepareRSRCData_method vi ext sub_prepareRSRCData a)
              (DataFillTypeDef_initWithRSRCParse sub_new sub_initWithRSRC df).
Proof.
  intros Hc bl bl' df' Hrun Hend Hgood.
  unfold DataFillTypeDef_initWithRSRCParse in Hrun.
  run_bind Hrun bl1 t Ht. run_lift Ht Et.
  run_bind Hrun bl2 l Hl. run_ret Hrun.
  rewrite <- (set_cls_same df KTypeDef Hc) in Hgood |- *.
  unfold prepareRSRCData_method.
  replace (cls (set_value (set_cls df KTypeDef) (VNodes l)))
    with KTypeDef by (destruct df; reflexivity).
  exact (writes_back_children df KTypeDef _ _ _ l
           (writes_back_TypeDef_init_loop _ _) Hl Hend Hgood).
Qed.

Lemma writes_back_SpecialDSTMCluster (df : DataFill ExtValue) :
  cls df = KSpecialDSTMCluster ->
  writes_back (rewritable_with vi good)
              (prepareRSRCData_method vi ext sub_prepareRSRCData a)
              (SpecialDSTMCluster_initWithRSRCParse vi sub_new
                                                    sub_initWithRSRC df).
Proof.
  intros Hc bl bl' df' Hrun Hend Hgood.
  unfold SpecialDSTMCluster_initWithRSRCParse in Hrun.
  run_bind Hrun bl1 f200 Hf. run_lift Hf Ef.
  run_bind Hrun bl2 t Ht. run_lift Ht Et.
  run_bind Hrun bl3 l Hl. run_ret Hrun.
  rewrite <- (set_cls_same df KSpecialDSTMCluster Hc) in Hgood |- *.
  unfold prepareRSRCData_method.
  replace (cls (set_value (set_cls df KSpecialDSTMCluster) (VNodes l)))
    with KSpecialDSTMCluster by (destruct df; reflexivity).
  exact (writes_back_children df KSpecialDSTMCluster _ _ _ l
           (writes_back_SpecialDSTMCluster_init_loop _ _ _) Hl Hend Hgood).
Qed.

Lemma writes_back_DataFillRepeatedBlock (df : DataFill ExtValue) :
  cls df = KRepeatedBlock ->
  writes_back (rewritable_with vi good)
              (prepareRSRCData_method vi ext sub_prepareRSRCData a)
              (DataFillRepeatedBlock_initWithRSRCParse po ext sub_new
                                                       sub_initWithRSRC df).
Proof.
  intros Hc bl bl' df' Hrun Hend Hgood.
  unfold DataFillRepeatedBlock_initWithRSRCParse in Hrun.
  run_bind Hrun bl1 u Hu. run_lift Hu Eu.
  run_bind Hrun bl2 t Ht. run_lift Ht Et.
  destruct (numRepeats t >? array_data_limit po); [discriminate Hrun|].
  run_bind Hrun bl3 l Hl. run_ret Hrun.
  rewrite <- (set_cls_same df KRepeatedBlock Hc) in Hgood |- *.
  unfold prepareRSRCData_method.
  replace (cls (set_value (set_cls df KRepeatedBlock) (VNodes l)))
    with KRepeatedBlock by (destruct df; reflexivity).
  refine (writes_back_children df KRepeatedBlock _ _ _ l
            (writes_back_repeat_read _ _ _) Hl Hend Hgood).
  destruct (last_client t) as [[i s]|];
    [apply writes_back_decode_child|apply writes_back_raise].
Qed.

Lemma writes_back_DataFillMeasureData (df : DataFill ExtValue)
      (c : option TDObject) :
  cls df = KMeasureData c ->
  writes_back (rewritable_with vi good)
              (prepareRSRCData_method vi ext sub_prepareRSRCData a)
              (DataFillMeasureData_initWithRSRCParse vi ext sub_new
                                                     sub_initWithRSRC df).
Proof.
  intros Hc bl bl' df' Hrun Hend Hgood.
  unfold DataFillMeasureData_initWithRSRCParse in Hrun.
  run_bind Hrun bl1 t Ht. run_lift Ht Et.
  run_bind Hrun bl2 x Hx. run_ret Hrun.
  unfold prepareRSRCData_method.
  replace (cls (set_value (set_cls df (KMeasureData (Some t)))
                          (VNodes [x])))
    with (KMeasureData (Some t)) by (destruct df; reflexivity).
  refine (writes_back_children df (KMeasureData (Some t)) bl bl2
            (y <~ decode_child sub_new sub_initWithRSRC (-1) (tm_flags df) t
                    (fun e => RuntimeError
                                (MeasureDataFlavorFailed (fullType t) e)) ;;
             ys <~ ret [] ;; ret (y :: ys))
            [x] (writes_back_cons _ _ (writes_back_decode_child _ _ _ _)
                                  writes_back_nil) _ Hend Hgood).
  rewrite (rbind_ok _ _ _ _ _ Hx). reflexivity.
Qed.

Lemma writes_back_DataFillArray (df : DataFill ExtValue) (ds : list Z) :
  cls df = KArray ds ->
  writes_back (rewritable_with vi good)
              (prepareRSRCData_method vi ext sub_prepareRSRCData a)
              (DataFillArray_initWithRSRCParse po sub_new sub_initWithRSRC
                                               df).
Proof.
  intros Hc bl bl' df' Hrun Hend Hgood.
  unfold DataFillArray_initWithRSRCParse in Hrun.
  run_bind Hrun bl1 t Ht. run_lift Ht Et.
  run_bind Hrun bl2 dims Hdims.
  destruct (Z.of_nat (length (clients t)) <? 1); [discriminate Hrun|].
  destruct (last_client t) as [[sub_td_idx sub_td]|]; [|discriminate Hrun].
  destruct (totItems_of dims >? array_data_limit po); [discriminate Hrun|].
  run_bind Hrun bl3 l Hl. run_ret Hrun.
  destruct (writes_back_children df (KArray dims) _ _ _ l
              (writes_back_repeat_read _ _
                 (writes_back_decode_child _ _ _ _)) Hl Hend Hgood)
    as (Hv2 & Hle2 & He2).
  assert (Hend1 : (tell bl2 < length (getvalue bl2))%nat)
    by (rewrite <- Hv2; lia).
  destruct (read_dimensions_consumed _ _ _ _ Hdims Hend1)
    as (Hv1 & Hle1 & He1).
  repeat split; [congruence|lia|].
  unfold prepareRSRCData_method.
  replace (cls (set_value (set_cls df (KArray dims)) (VNodes l)))
    with (KArray dims) by (destruct df; reflexivity).
  unfold DataFillArray_prepareRSRCData. rewrite He1. cbn [bind].
  rewrite He2. cbn [bind fst snd].
  rewrite (consumed_app _ _ _ Hv1 Hle1 Hle2). reflexivity.
Qed.

(** A decoder whose nodes are never [rewritable] has nothing to show. *)
Lemma writes_back_not_rewritable (m : Reader (DataFill ExtValue)) :
  yields (fun df' => rewritable vi df' = false) m ->
  writes_back (rewritable_with vi good)
              (prepareRSRCData_method vi ext sub_prepareRSRCData a) m.
Proof.
  intros Hm bl bl' df' Hrun _ Hgood.
  apply Hm in Hrun. unfold rewritable_with in Hgood.
  rewrite Hrun in Hgood. discriminate Hgood.
Qed.

Lemma rewritable_set_value (df : DataFill ExtValue) (v : Value ExtValue) :
  encoded_here df = false -> rewritable vi (set_value df v) = false.
Proof.
  destruct df as [k ty sub idx fl otd val].
  unfold rewritable, encoded_here. cbn [cls set_value].
  intros ->. reflexivity.
Qed.

Lemma DataFillFloat_not_rewritable (df : DataFill ExtValue) :
  cls df = KFloat ->
  yields (fun df' => rewritable vi df' = false)
         (DataFillFloat_initWithRSRCParse ext df).
Proof.
  intro Hc.
  assert (He : encoded_here df = false)
    by (unfold encoded_here; rewrite Hc; reflexivity).
  unfold DataFillFloat_initWithRSRCParse.
  destruct (tdType df);
    repeat first [ apply yields_raise
                 | apply yields_ret; apply rewritable_set_value, He
                 | apply yields_rbind; intro ].
Qed.

Lemma DataFillComplex_not_rewritable (df : DataFill ExtValue) :
  cls df = KComplex ->
  yields (fun df' => rewritable vi df' = false)
         (DataFillComplex_initWithRSRCParse ext df).
Proof.
  intro Hc.
  assert (He : encoded_here df = false)
    by (unfold encoded_here; rewrite Hc; reflexivity).
  unfold DataFillComplex_initWithRSRCParse.
  destruct (tdType df);
    repeat first [ apply yields_raise
                 | apply yields_ret; apply rewritable_set_value, He
                 | apply yields_rbind; intro ].
Qed.

Lemma DataFillPath_not_rewritable (df : DataFill ExtValue) :
  cls df = KPath ->
  yields (fun df' => rewritable vi df' = false)
         (DataFillPath_initWithRSRCParse ext df).
Proof.
  intro Hc.
  assert (He : encoded_here df = false)
    by (unfold encoded_here; rewrite Hc; reflexivity).
  unfold DataFillPath_initWithRSRCParse.
  apply yields_rbind; intro startPos. apply yields_rbind; intro clsident.
  destruct (bytes_eqb clsident PTH0);
    [|destruct (bytes_eqb clsident PTH1 || bytes_eqb clsident PTH2)];
    repeat first [ apply yields_raise
                 | apply yields_ret; apply rewritable_set_value, He
                 | apply yields_rbind; intro ].
Qed.

Lemma DataFillLVVariant_not_rewritable (df : DataFill ExtValue) :
  cls df = KLVVariant ->
  yields (fun df' => rewritable vi df' = false)
         (DataFillLVVariant_initWithRSRCParse vi ext df).
Proof.
  intro Hc.
  assert (He : encoded_here df = false)
    by (unfold encoded_here; rewrite Hc; reflexivity).
  unfold DataFillLVVariant_initWithRSRCParse.
  apply yields_rbind; intro x.
  apply yields_ret; apply rewritable_set_value, He.
Qed.

Lemma DataFillUDClassInst_not_rewritable (df : DataFill ExtValue) :
  yields (fun df' => rewritable vi df' = false)
         (DataFillUDClassInst_initWithRSRCParse po df).
Proof.
  unfold DataFillUDClassInst_initWithRSRCParse.
  do 5 (apply yields_rbind; intro).
  destruct (_ >? _); [apply yields_raise|].
  apply yields_rbind; intro l. apply yields_ret.
  destruct df as [k ty sub idx fl otd val]. reflexivity.
Qed.

Lemma writes_back_initWithRSRCParse (df : DataFill ExtValue) :
  writes_back (rewritable_with vi good)
              (prepareRSRCData_method vi ext sub_prepareRSRCData a)
              (initWithRSRCParse vi po ext sub_new sub_initWithRSRC df).
Proof.
  assert (Hu : forall k,
             cls df = k ->
             match k with
             | KCString | KArrayDataPtr | KSimpleRefnum | KUDRefnum
             | KPtrTo => True
             | _ => False
             end ->
             forall v,
               prepareRSRCData_method vi ext sub_prepareRSRCData a
                                      (set_value df v)
               = UInt32_prepareRSRCData (set_value df v)).
  { intros k Hk Hin v. unfold prepareRSRCData_method.
    destruct df as [k0 ty sub idx fl otd val]. cbn in Hk. subst k0.
    cbn [cls set_value]. destruct k; try contradiction; reflexivity. }
  unfold initWithRSRCParse.
  destruct (cls df) eqn:Hc.
  - apply writes_back_DataFillVoid; auto.
  - apply writes_back_DataFillInt; assumption.
  - apply writes_back_not_rewritable, DataFillFloat_not_rewritable, Hc.
  - apply writes_back_not_rewritable, DataFillComplex_not_rewritable, Hc.
  - eapply writes_back_DataFillBool; eassumption.
  - apply writes_back_DataFillString; assumption.
  - apply writes_back_not_rewritable, DataFillPath_not_rewritable, Hc.
  - apply writes_back_UInt32, (Hu _ eq_refl I).
  - eapply writes_back_DataFillArray; eassumption.
  - apply writes_back_UInt32, (Hu _ eq_refl I).
  - apply writes_back_DataFillCluster; assumption.
  - apply writes_back_not_rewritable, DataFillLVVariant_not_rewritable, Hc.
  - eapply writes_back_DataFillMeasureData; eassumption.
  - eapply writes_back_DataFillComplexFixedPt; eassumption.
  - eapply writes_back_DataFillFixedPoint; eassumption.
  - apply writes_back_DataFillBlock; assumption.
  - apply writes_back_DataFillRepeatedBlock; assumption.
  - apply writes_back_UInt32, (Hu _ eq_refl I).
  - apply writes_back_DataFillIORefnum; assumption.
  - apply writes_back_UInt32, (Hu _ eq_refl I).
  - eapply writes_back_DataFillUDTagRefnum; eassumption.
  - apply writes_back_not_rewritable, DataFillUDClassInst_not_rewritable.
  - apply writes_back_DataFillPtr; assumption.
  - apply writes_back_UInt32, (Hu _ eq_refl I).
  - apply writes_back_raise.
  - apply writes_back_DataFillVoid; auto.
  - apply writes_back_DataFillTypeDef; assumption.
  - apply writes_back_SpecialDSTMCluster; assumption.
Qed.

End WritingBack.

Lemma tree_all_rewritable_with {ExtValue : Type} (vi : VI) (d : nat)
      (df : DataFill ExtValue) :
  tree_all (rewritable vi) (S d) df
  = rewritable_with vi (tree_all (rewritable vi) d) df.
Proof. reflexivity. Qed.

(** X27: writing again what was read: when binary decode has returned
    a tree and has stopped before the end of the stream, binary encode
    of that tree returns exactly the bytes that decode went over, and
    leaves the tree as it is; the stream holds the same bytes as before
    and the position has not moved backwards.  This holds for every
    tree without a float, complex, path or variant node, without a
    class-instance refnum and without a tag refnum of the float kind or
    one read with its padding byte. *)
Theorem prepareRSRCData_of_decoded_is_bytes_read
        {ExtValue : Type} (vi : VI) (po : PO) (ext : External ExtValue)
        (depth : nat) (avoid_recompute : bool)
        (df df' : DataFill ExtValue) (bl bl' : BytesIO) :
  initWithRSRC vi po ext depth df bl = (bl', Ok df') ->
  (tell bl' < length (getvalue bl'))%nat ->
  tree_all (rewritable vi) depth df' = true ->
  getvalue bl' = getvalue bl
  /\ (tell bl <= tell bl')%nat
  /\ prepareRSRCData vi ext depth avoid_recompute df'
     = Ok (consumed bl bl', df').
Proof.
  revert df df' bl bl'.
  induction depth as [|d IH]; intros df df' bl bl' Hrun Hend Hgood;
    [discriminate Hrun|].
  cbn [initWithRSRC prepareRSRCData] in *.
  rewrite tree_all_rewritable_with in Hgood.
  refine (writes_back_initWithRSRCParse vi po ext _ _ _ _ avoid_recompute _
            df _ _ _ Hrun Hend Hgood).
  intros c0 bl0 bl0' c H1 H2 H3. exact (IH c0 c bl0 bl0' H1 H2 H3).
Qed.

(** ** The further properties at concrete inputs *)

Lemma no_ext_forward : ext_forward no_ext.
Proof.
  split; [|intro c]; intros bl bl' r H; injection H as <- _;
    split; [reflexivity|apply Nat.le_refl|reflexivity|apply Nat.le_refl].
Defined.

Lemma initWithRSRC_forward_witness :
  ext_forward no_ext
  /\ forall bl' r,
      initWithRSRC (file_version 14 0 0 0) default_po no_ext 2
                   fresh_array_2x3 (mkBytesIO array_2x3_bytes 4) = (bl', r) ->
      getvalue bl' = array_2x3_bytes /\ (4 <= tell bl')%nat.
Proof.
  split; [exact no_ext_forward|].
  exact (initWithRSRC_forward (file_version 14 0 0 0) default_po no_ext 2
           fresh_array_2x3 no_ext_forward (mkBytesIO array_2x3_bytes 4)).
Defined.

Lemma setTD_type_mismatch_witness :
  tdType fresh_ptr <> fullType (leaf_td NumInt8)
  /\ setTD (file_version 14 0 0 0) 1 fresh_ptr (leaf_td NumInt8) 0 (Some 0)
     = Err (RuntimeError (CannotBeLinked Ptr NumInt8)).
Proof.
  assert (H : tdType fresh_ptr <> fullType (leaf_td NumInt8))
    by (cbn; discriminate).
  split; [exact H|].
  exact (setTD_type_mismatch (file_version 14 0 0 0) 0 fresh_ptr
           (leaf_td NumInt8) 0 (Some 0) H).
Defined.

Lemma setTD_records_binding_witness :
  exists df',
    setTD (file_version 14 0 0 0) 2 filled_pair (pair_td 10) 1 (Some 4)
    = Ok df'
    /\ td df' = Some (pair_td 10) /\ index df' = 1
    /\ tm_flags df' = Some 4 /\ cls df' = KCluster.
Proof.
  assert (H : exists df',
             setTD (file_version 14 0 0 0) 2 filled_pair (pair_td 10) 1
                   (Some 4) = Ok df')
    by (eexists; vm_compute; reflexivity).
  destruct H as (df' & H). exists df'. split; [exact H|].
  destruct (setTD_records_binding (file_version 14 0 0 0) 2 filled_pair df'
              (pair_td 10) 1 (Some 4) H) as (_ & H1 & H2 & H3 & H4 & _).
  repeat split; assumption.
Defined.

Lemma DataFillCluster_setTD_binds_in_order_witness :
  exists df' l',
    setTD (file_version 14 0 0 0) 2 filled_pair (pair_td 10) 1 (Some 4)
    = Ok df'
    /\ value df' = VNodes l'
    /\ length l' = 2%nat
    /\ exists x x',
        nth_error l' 1 = Some x'
        /\ setTD (file_version 14 0 0 0) 1 x (leaf_td NumUInt8) 11 (Some 4)
           = Ok x'.
Proof.
  assert (H : exists df',
             setTD (file_version 14 0 0 0) 2 filled_pair (pair_td 10) 1
                   (Some 4) = Ok df')
    by (eexists; vm_compute; reflexivity).
  destruct H as (df' & H).
  destruct (DataFillCluster_setTD_binds_in_order
              (file_version 14 0 0 0) 1 filled_pair df' (pair_td 10) 1
              (Some 4) _ eq_refl eq_refl ltac:(discriminate) H)
    as (l' & Hv & Hl & _ & Hnth & _).
  destruct (Hnth 1%nat 11 (leaf_td NumUInt8) 0 eq_refl)
    as (x & x' & _ & Hx' & Hb).
  exists df', l'. repeat split; [exact H|exact Hv|exact Hl|].
  exists x, x'. split; assumption.
Defined.

Lemma DataFillCluster_setTD_too_few_children_witness :
  setTD (file_version 14 0 0 0) 2 filled_pair (cluster8_td 10) 1 (Some 4)
  = Err IndexError.
Proof.
  apply (DataFillCluster_setTD_too_few_children
           (file_version 14 0 0 0) 1 filled_pair (cluster8_td 10) 1 (Some 4)
           [int_node NumUInt8 1 false 3 200; int_node NumUInt8 1 false 4 7]
           eq_refl eq_refl ltac:(discriminate) eq_refl).
  - cbn. lia.
  - intros [|[|i]] x td_idx sub_td f Hx Hc; cbn in Hx, Hc.
    + injection Hx as <-. injection Hc as <- <- _.
      eexists. vm_compute. reflexivity.
    + injection Hx as <-. injection Hc as <- <- _.
      eexists. vm_compute. reflexivity.
    + destruct i; discriminate.
Defined.

Lemma SpecialDSTMCluster_decodes_selected_clients_witness :
  initWithRSRC (file_version 14 0 0 0) default_po no_ext 2
               (fresh_special 0x0210) (stream [x01; x02; x03])
  = (l <~ Cluster_init_loop
            (newDataFillObjectWithTD (file_version 14 0 0 0) 1)
            (initWithRSRC (file_version 14 0 0 0) default_po no_ext 1)
            (selected_clients (file_version 14 0 0 0) 0x0210
                              (negb (Z.land 0x0210 0x0200 =? 0))
                              (clientsEnumerate (cluster8_td 11)))
            (Some 0x0210) ;;
     ret (set_value (fresh_special 0x0210) (VNodes l)))
      (stream [x01; x02; x03]).
Proof.
  exact (SpecialDSTMCluster_decodes_selected_clients
           (file_version 14 0 0 0) default_po no_ext 1
           (fresh_special 0x0210) (cluster8_td 11) 0x0210
           (stream [x01; x02; x03]) eq_refl eq_refl eq_refl).
Defined.

Lemma SpecialDSTMCluster_at_most_three_children_witness :
  exists bl' df' l,
    initWithRSRC (file_version 14 0 0 0) default_po no_ext 2
                 (fresh_special 0x0210) (stream [x01; x02; x03])
    = (bl', Ok df')
    /\ value df' = VNodes l /\ (length l <= 2)%nat.
Proof.
  assert (H : exists bl' df',
             initWithRSRC (file_version 14 0 0 0) default_po no_ext 2
                          (fresh_special 0x0210) (stream [x01; x02; x03])
             = (bl', Ok df'))
    by (eexists _, _; vm_compute; reflexivity).
  destruct H as (bl' & df' & H).
  destruct (SpecialDSTMCluster_at_most_three_children
              (file_version 14 0 0 0) default_po no_ext 1
              (fresh_special 0x0210) df' (cluster8_td 11) 0x0210
              (stream [x01; x02; x03]) bl' eq_refl eq_refl eq_refl H)
    as (l & Hv & _ & H2).
  exists bl', df', l. repeat split; [exact H|exact Hv|].
  apply H2. vm_compute. discriminate.
Defined.

Lemma prepareRSRCData_keeps_node_witness :
  tree_all block_has_declared_size 2 filled_pair = true
  /\ exists data_buf,
      prepareRSRCData (file_version 14 0 0 0) no_ext 2 false filled_pair
      = Ok (data_buf, filled_pair).
Proof.
  split; [reflexivity|].
  assert (H : exists data_buf df',
             prepareRSRCData (file_version 14 0 0 0) no_ext 2 false
                             filled_pair = Ok (data_buf, df'))
    by (eexists _, _; vm_compute; reflexivity).
  destruct H as (data_buf & df' & H). exists data_buf.
  rewrite <- (prepareRSRCData_keeps_node
                (file_version 14 0 0 0) no_ext 2 false filled_pair df'
                data_buf eq_refl H) at 2.
  exact H.
Defined.

Lemma expectedRSRCSize_is_length_of_prepareRSRCData_witness :
  exists data_buf df',
    expectedRSRCSize (file_version 14 0 0 0) no_ext 2 filled_pair
    = Ok (Some 2)
    /\ prepareRSRCData (file_version 14 0 0 0) no_ext 2 false filled_pair
       = Ok (data_buf, df')
    /\ Z.of_nat (length data_buf) = 2.
Proof.
  assert (H : exists data_buf df',
             prepareRSRCData (file_version 14 0 0 0) no_ext 2 false
                             filled_pair = Ok (data_buf, df'))
    by (eexists _, _; vm_compute; reflexivity).
  destruct H as (data_buf & df' & H).
  assert (He : expectedRSRCSize (file_version 14 0 0 0) no_ext 2 filled_pair
               = Ok (Some 2)) by (vm_compute; reflexivity).
  exists data_buf, df'. split; [exact He|]. split; [exact H|].
  exact (expectedRSRCSize_is_length_of_prepareRSRCData
           (file_version 14 0 0 0) no_ext 2 false filled_pair df' 2 data_buf
           eq_refl He H).
Defined.

Lemma initWithRSRC_keeps_binding_witness :
  exists bl' df',
    initWithRSRC (file_version 14 0 0 0) default_po no_ext 2
                 fresh_array_2x3 (stream array_2x3_bytes) = (bl', Ok df')
    /\ same_binding fresh_array_2x3 df'.
Proof.
  assert (H : exists bl' df',
             initWithRSRC (file_version 14 0 0 0) default_po no_ext 2
                          fresh_array_2x3 (stream array_2x3_bytes)
             = (bl', Ok df'))
    by (eexists _, _; vm_compute; reflexivity).
  destruct H as (bl' & df' & H). exists bl', df'. split; [exact H|].
  exact (proj1 (initWithRSRC_keeps_binding
                  (file_version 14 0 0 0) default_po no_ext 2
                  fresh_array_2x3 df' (stream array_2x3_bytes) bl' H)).
Defined.

Lemma DataFillInt_prepareRSRCData_range_witness :
  (exists data_buf,
      prepareRSRCData (file_version 14 0 0 0) no_ext 1 false
                      (int_node NumInt8 1 true 0 (-128))
      = Ok (data_buf, int_node NumInt8 1 true 0 (-128))
      /\ Z.of_nat (length data_buf) = 1)
  /\ prepareRSRCData (file_version 14 0 0 0) no_ext 1 false
                     (int_node NumInt8 1 true 0 128)
     = Err OverflowError.
Proof.
  split.
  - destruct (proj1 (DataFillInt_prepareRSRCData_range
                       (file_version 14 0 0 0) no_ext 0 false
                       (int_node NumInt8 1 true 0 (-128)) 1 (-128) true
                       eq_refl eq_refl ltac:(lia))
                    ltac:(cbn; lia)) as (data_buf & H1 & H2 & _).
    exists data_buf. split; assumption.
  - apply (proj2 (DataFillInt_prepareRSRCData_range
                    (file_version 14 0 0 0) no_ext 0 false
                    (int_node NumInt8 1 true 0 128) 1 128 true
                    eq_refl eq_refl ltac:(lia))).
    cbn. lia.
Defined.



Lemma initWithRSRC_at_end_of_stream_witness :
  initWithRSRC (file_version 14 0 0 0) default_po no_ext 1
               (int_node NumInt32 4 true 0 5) (mkBytesIO [x01; x02] 2)
  = (mkBytesIO [x01; x02] 2,
     Ok (set_value (int_node NumInt32 4 true 0 5) (VPy (PyInt 0))))
  /\ initWithRSRC (file_version 14 0 0 0) default_po no_ext 1
                  (string_node [x61]) (mkBytesIO [x01; x02] 2)
     = (mkBytesIO [x01; x02] 2,
        Ok (set_value (string_node [x61]) (VPy (PyBytes [])))).
Proof.
  split.
  - exact (proj1 (initWithRSRC_at_end_of_stream
                    (file_version 14 0 0 0) default_po no_ext 0
                    (int_node NumInt32 4 true 0 5) (mkBytesIO [x01; x02] 2)
                    (Nat.le_refl 2)) 4 true eq_refl).
  - exact (proj2 (initWithRSRC_at_end_of_stream
                    (file_version 14 0 0 0) default_po no_ext 0
                    (string_node [x61]) (mkBytesIO [x01; x02] 2)
                    (Nat.le_refl 2)) eq_refl).
Defined.

Lemma DataFillRepeatedBlock_count_witness :
  initWithRSRC (file_version 14 0 0 0) default_po no_ext 2
               (fresh_repeated 1001) (stream [x01; x02; x03])
  = (stream [x01; x02; x03],
     Err (RuntimeError (ClaimsToContain 1001 1000)))
  /\ exists bl' df' l,
      initWithRSRC (file_version 14 0 0 0) default_po no_ext 2
                   (fresh_repeated 3) (stream [x01; x02; x03; x04])
      = (bl', Ok df')
      /\ value df' = VNodes l /\ length l = 3%nat.
Proof.
  split.
  - apply (proj1 (DataFillRepeatedBlock_count
                    (file_version 14 0 0 0) default_po no_ext 1
                    (fresh_repeated 1001) (repeated_td 1001)
                    (stream [x01; x02; x03]) eq_refl eq_refl eq_refl)).
    cbn. lia.
  - assert (H : exists bl' df',
               initWithRSRC (file_version 14 0 0 0) default_po no_ext 2
                            (fresh_repeated 3) (stream [x01; x02; x03; x04])
               = (bl', Ok df'))
      by (eexists _, _; vm_compute; reflexivity).
    destruct H as (bl' & df' & H).
    destruct (proj2 (DataFillRepeatedBlock_count
                       (file_version 14 0 0 0) default_po no_ext 1
                       (fresh_repeated 3) (repeated_td 3)
                       (stream [x01; x02; x03; x04]) eq_refl eq_refl eq_refl)
                    ltac:(cbn; lia) bl' df' H) as (l & Hv & Hl).
    exists bl', df', l. repeat split; assumption.
Defined.

Lemma DataFillUDClassInst_levels_witness :
  initWithRSRC (file_version 14 0 0 0) default_po no_ext 1
               fresh_class_inst (stream [x00; x00; x07; xd0; x01; x61])
  = (mkBytesIO [x00; x00; x07; xd0; x01; x61] 6,
     Err (RuntimeError (ClaimsToContain 2000 1000)))
  /\ initWithRSRC (file_version 14 0 0 0) default_po no_ext 1
                  fresh_class_inst
                  (stream [x00; x00; x07; xd0; x01; x61; x00; x00; xff])
     = (mkBytesIO [x00; x00; x07; xd0; x01; x61; x00; x00; xff] 8,
        Err (RuntimeError (ClaimsToContain 2000 1000)))
  /\ initWithRSRC (file_version 14 0 0 0) default_po no_ext 1
                  fresh_class_inst
                  (stream [x00; x00; x00; x01; x01; x61; x00; x00;
                           x00; x00; x00; x02; xaa; xbb; xcc])
     = (mkBytesIO [x00; x00; x00; x01; x01; x61; x00; x00;
                   x00; x00; x00; x02; xaa; xbb; xcc] 14,
        Ok (set_value (set_cls fresh_class_inst (KUDClassInst [x61]))
                      (VPyList [PyBytes [xaa; xbb]]))).
Proof.
  split; [|split].
  - destruct (DataFillUDClassInst_levels
                (file_version 14 0 0 0) default_po no_ext 0 fresh_class_inst
                [] (stream [x00; x00; x07; xd0; x01; x61]) eq_refl)
      as (numLevels & bl1 & strlen & bl2 & name & bl3 & pad & bl4
          & H1 & H2 & H3 & H4 & _ & Hhi & _).
    vm_compute in H1. injection H1 as <- <-.
    vm_compute in H2. injection H2 as <- <-.
    vm_compute in H3. injection H3 as <- <-.
    vm_compute in H4. injection H4 as <- _.
    exact (Hhi eq_refl).
  - destruct (DataFillUDClassInst_levels
                (file_version 14 0 0 0) default_po no_ext 0 fresh_class_inst
                [] (stream [x00; x00; x07; xd0; x01; x61; x00; x00; xff])
                eq_refl)
      as (numLevels & bl1 & strlen & bl2 & name & bl3 & pad & bl4
          & H1 & H2 & H3 & H4 & _ & Hhi & _).
    vm_compute in H1. injection H1 as <- <-.
    vm_compute in H2. injection H2 as <- <-.
    vm_compute in H3. injection H3 as <- <-.
    vm_compute in H4. injection H4 as <- _.
    exact (Hhi eq_refl).
  - destruct (DataFillUDClassInst_levels
                (file_version 14 0 0 0) default_po no_ext 0 fresh_class_inst
                [] (stream [x00; x00; x00; x01; x01; x61; x00; x00;
                            x00; x00; x00; x02; xaa; xbb; xcc])
                eq_refl)
      as (numLevels & bl1 & strlen & bl2 & name & bl3 & pad & bl4
          & H1 & H2 & H3 & H4 & _ & _ & Hlo).
    vm_compute in H1. injection H1 as <- <-.
    vm_compute in H2. injection H2 as <- <-.
    vm_compute in H3. injection H3 as <- <-.
    vm_compute in H4. injection H4 as <- _.
    destruct (Hlo ltac:(vm_compute; discriminate))
      as (bl5 & l & Hr & Hrun & _).
    vm_compute in Hr. injection Hr as <- <-.
    exact Hrun.
Defined.





Lemma initWithRSRC_of_prepareRSRCData_of_decoded_witness :
  exists bl' df' data_buf df'',
    initWithRSRC (file_version 14 0 0 0) default_po no_ext 2
                 fresh_array_2x3 (stream array_2x3_bytes) = (bl', Ok df')
    /\ tree_all rereadable 2 df' = true
    /\ prepareRSRCData (file_version 14 0 0 0) no_ext 2 false df'
       = Ok (data_buf, df'')
    /\ initWithRSRC (file_version 14 0 0 0) default_po no_ext 2
         df' (mkBytesIO ([x09] ++ data_buf ++ [x33]) 1)
       = (mkBytesIO ([x09] ++ data_buf ++ [x33]) (1 + length data_buf),
          Ok df').
Proof.
  assert (H : exists bl' df' data_buf df'',
             initWithRSRC (file_version 14 0 0 0) default_po no_ext 2
                          fresh_array_2x3 (stream array_2x3_bytes)
             = (bl', Ok df')
             /\ tree_all rereadable 2 df' = true
             /\ prepareRSRCData (file_version 14 0 0 0) no_ext 2 false df'
                = Ok (data_buf, df''))
    by (eexists _, _, _, _; split; [vm_compute; reflexivity|];
        split; vm_compute; reflexivity).
  destruct H as (bl' & df' & data_buf & df'' & Hd & Hg & Hp).
  exists bl', df', data_buf, df''.
  split; [exact Hd|]. split; [exact Hg|]. split; [exact Hp|].
  exact (proj1 (initWithRSRC_of_prepareRSRCData_of_decoded
                  (file_version 14 0 0 0) default_po no_ext 2 false
                  fresh_array_2x3 df' df'' (stream array_2x3_bytes) bl'
                  data_buf [x09] [x33] Hd Hg Hp)).
Defined.

Lemma DataFillCluster_decode_error_names_client_witness :
  initWithRSRC (file_version 14 0 0 0) default_po no_ext 2
               fresh_failing_cluster (stream [x01; x02])
  = (mkBytesIO [x01; x02] 1,
     Err (RuntimeError
            (DataTypeFailed ExtData
                            (NotImplementedError ExtDataNotImplemented))))
  /\ exists n td_idx sub_td f (pre : list (DataFill unit)) e',
      nth_error (clients failing_cluster_td) n = Some (td_idx, sub_td, f)
      /\ n = 1%nat /\ td_idx = 4 /\ sub_td = leaf_td ExtData
      /\ length pre = 1%nat
      /\ (sub_df <~ lift (newDataFillObjectWithTD (file_version 14 0 0 0) 1
                                                  td_idx (Some 0) sub_td) ;;
          initWithRSRC (file_version 14 0 0 0) default_po no_ext 1 sub_df)
           (mkBytesIO [x01; x02] 1)
         = (mkBytesIO [x01; x02] 1, Err e')
      /\ e' = NotImplementedError ExtDataNotImplemented.
Proof.
  assert (H : initWithRSRC (file_version 14 0 0 0) default_po no_ext 2
                           fresh_failing_cluster (stream [x01; x02])
              = (mkBytesIO [x01; x02] 1,
                 Err (RuntimeError
                        (DataTypeFailed
                           ExtData
                           (NotImplementedError ExtDataNotImplemented)))))
    by (vm_compute; reflexivity).
  split; [exact H|].
  destruct (DataFillCluster_decode_error_names_client
              (file_version 14 0 0 0) default_po no_ext 1
              fresh_failing_cluster failing_cluster_td (stream [x01; x02])
              _ _ eq_refl eq_refl H)
    as (n & td_idx & sub_td & f & pre & bl0 & e' & Hn & Hpre & Hlen & Hrun
        & He).
  assert (Hn1 : n = 1%nat).
  { destruct n as [|[|n]].
    - exfalso. clear Hlen. vm_compute in Hn. injection Hn as <- <- <-.
      vm_compute in Hpre. injection Hpre as <- _.
      vm_compute in Hrun. discriminate Hrun.
    - reflexivity.
    - exfalso. destruct n; discriminate Hn. }
  rewrite Hn1 in Hlen. subst n.
  vm_compute in Hn. injection Hn as <- <- <-.
  vm_compute in Hpre. injection Hpre as Hbl0 _. subst bl0.
  pose proof Hrun as Hrun'. vm_compute in Hrun'. injection Hrun' as <-.
  exists 1%nat, 4, (leaf_td ExtData), 0, pre,
         (NotImplementedError ExtDataNotImplemented).
  split; [reflexivity|]. split; [reflexivity|]. split; [reflexivity|].
  split; [reflexivity|]. split; [exact Hlen|].
  split; [exact Hrun|reflexivity].
Defined.

Lemma DataFillTypeDef_decode_error_is_NameError_witness :
  exists bl' e,
    initWithRSRC (file_version 14 0 0 0) default_po no_ext 2
                 fresh_failing_typedef (stream [x01; x02]) = (bl', Err e)
    /\ e = NameError "client".
Proof.
  assert (H : exists bl' e,
             initWithRSRC (file_version 14 0 0 0) default_po no_ext 2
                          fresh_failing_typedef (stream [x01; x02])
             = (bl', Err e))
    by (eexists _, _; vm_compute; reflexivity).
  destruct H as (bl' & e & H). exists bl', e. split; [exact H|].
  exact (DataFillTypeDef_decode_error_is_NameError
           (file_version 14 0 0 0) default_po no_ext 1
           fresh_failing_typedef failing_typedef_td (stream [x01; x02]) bl' e
           eq_refl eq_refl H).
Defined.

Lemma newDataFillObjectWithTD_known_type_witness :
  (exists df : DataFill unit,
      newDataFillObjectWithTD (file_version 14 0 0 0) 1 7 (Some 4)
                              (array_td 2 7 (leaf_td NumInt16)) = Ok df
      /\ td df = Some (array_td 2 7 (leaf_td NumInt16))
      /\ index df = 7 /\ tm_flags df = Some 4)
  /\ @newDataFillObjectWithTD unit (file_version 14 0 0 0) 1 7 (Some 4)
       (leaf_td (OtherFullType 999))
     = Err (NameError "e").
Proof.
  split.
  - destruct (proj1 (newDataFillObjectWithTD_known_type
                       (ExtValue := unit) (file_version 14 0 0 0) 0 7
                       (Some 4) (array_td 2 7 (leaf_td NumInt16)))
                    ltac:(intros code H; discriminate H))
      as (df & H1 & H2 & H3 & H4 & _).
    exists df. repeat split; assumption.
  - exact (proj2 (newDataFillObjectWithTD_known_type
                    (ExtValue := unit) (file_version 14 0 0 0) 0 7 (Some 4)
                    (leaf_td (OtherFullType 999))) 999 eq_refl).
Defined.

Lemma setTD_binds_children_to_last_client_witness :
  exists df' l',
    setTD (file_version 14 0 0 0) 2 filled_array_2x3
          (array_td 2 9 (leaf_td NumInt16)) 1 (Some 4) = Ok df'
    /\ value df' = VNodes l'
    /\ length l' = 6%nat
    /\ Forall (fun c => td c = Some (leaf_td NumInt16)
                        /\ tm_flags c = Some 4 /\ index c = -1) l'.
Proof.
  assert (H : exists df',
             setTD (file_version 14 0 0 0) 2 filled_array_2x3
                   (array_td 2 9 (leaf_td NumInt16)) 1 (Some 4) = Ok df')
    by (eexists; vm_compute; reflexivity).
  destruct H as (df' & H).
  destruct (setTD_binds_children_to_last_client
              (file_version 14 0 0 0) 1 filled_array_2x3 df'
              (array_td 2 9 (leaf_td NumInt16)) 1 (Some 4) _
              (or_introl (ex_intro _ [2; 3] eq_refl)) eq_refl
              ltac:(discriminate) H)
    as (l' & sub_td_idx & sub_td & Hlast & Hv & Hl & Hall).
  injection Hlast as <- <-.
  exists df', l'. split; [exact H|]. split; [exact Hv|].
  split; [exact Hl|exact Hall].
Defined.

Lemma prepareRSRCData_of_decoded_is_bytes_read_witness :
  exists bl' df',
    initWithRSRC (file_version 14 0 0 0) default_po no_ext 2
                 fresh_array_2x3 (stream array_2x3_bytes) = (bl', Ok df')
    /\ (tell bl' < length (getvalue bl'))%nat
    /\ tree_all (rewritable (file_version 14 0 0 0)) 2 df' = true
    /\ prepareRSRCData (file_version 14 0 0 0) no_ext 2 false df'
       = Ok (consumed (stream array_2x3_bytes) bl', df').
Proof.
  assert (H : exists bl' df',
             initWithRSRC (file_version 14 0 0 0) default_po no_ext 2
                          fresh_array_2x3 (stream array_2x3_bytes)
             = (bl', Ok df')
             /\ (tell bl' <? length (getvalue bl'))%nat = true
             /\ tree_all (rewritable (file_version 14 0 0 0)) 2 df' = true)
    by (eexists _, _; split; [vm_compute; reflexivity|];
        split; vm_compute; reflexivity).
  destruct H as (bl' & df' & Hd & Hend & Hg).
  apply Nat.ltb_lt in Hend.
  exists bl', df'.
  split; [exact Hd|]. split; [exact Hend|]. split; [exact Hg|].
  exact (proj2 (proj2 (prepareRSRCData_of_decoded_is_bytes_read
                         (file_version 14 0 0 0) default_po no_ext 2 false
                         fresh_array_2x3 df' (stream array_2x3_bytes) bl'
                         Hd Hend Hg))).
Defined.

Lemma initWithRSRC_overwrites_decoded_node_witness :
  exists bl' df',
    initWithRSRC (file_version 14 0 0 0) default_po no_ext 2
                 fresh_array_2x3 (stream array_2x3_bytes) = (bl', Ok df')
    /\ initWithRSRC (file_version 14 0 0 0) default_po no_ext 2 df'
         (stream [x00; x00; x00; x01; x00; x00; x00; x01; x00; x07])
       = initWithRSRC (file_version 14 0 0 0) default_po no_ext 2
           fresh_array_2x3
           (stream [x00; x00; x00; x01; x00; x00; x00; x01; x00; x07]).
Proof.
  assert (H : exists bl' df',
             initWithRSRC (file_version 14 0 0 0) default_po no_ext 2
                          fresh_array_2x3 (stream array_2x3_bytes)
             = (bl', Ok df'))
    by (eexists _, _; vm_compute; reflexivity).
  destruct H as (bl' & df' & H). exists bl', df'. split; [exact H|].
  exact (initWithRSRC_overwrites_decoded_node
           (file_version 14 0 0 0) default_po no_ext 2 fresh_array_2x3 df'
           (stream array_2x3_bytes) bl' _ H).
Defined.
